(* ===== verification/_CoqProject ===== *)
-Q . S2P
Prelude.v
PyString.v
PyDict.v
Context.v
QueryProcessor.v
ResponseGenerator.v
Replies.v
LocalGuide.v
Answers.v
Cli.v
Streamlit.v
Chat.v
Page.v
Theme.v
Patched.v
Tests.v
Program.v
