(* ===== verification/Prelude.v ===== *)
(** * Udaipur Local Guide: a verification development

    The program answers a free-text question about Udaipur by keyword
    matching.  Its pipeline is

      raw text -> QueryProcessor.process_query -> QueryIntent
               -> ResponseGenerator.generate_response (with the context)
               -> response text

    wrapped by [local_guide], which validates the input and turns every
    exception of a collaborator into a fixed sentence.  The sources are
    [src/streamlit_standalone.py] (the self-contained copy of all classes and
    the web page), [src/app.py] (the command-line entry point, which
    imports the same classes from modules that are not part of the
    repository snapshot), [src/theme_fix.py] (a replacement for the sidebar
    section of the page) and [src/test_tourism_implementation.py] (a script
    that prints the replies to ten intents).

    The components interact as follows.  [main] of [src/app.py] reads lines
    and hands each question to [local_guide] of the same file, which calls
    the three classes; the page script hands the text of its input box to
    [local_guide] of [src/streamlit_standalone.py] and keeps the
    conversation in [st.session_state]; the test script calls
    [generate_response] directly.  The development follows this: [Cli] and
    [Chat] take the guide as a parameter, [LocalGuide] instantiates it, and
    the end-to-end theorems of [Cli], [Chat] and [Tests] are stated for the
    classes of [src/streamlit_standalone.py].

    ** Files

    - [Prelude] (this file): exceptions as values ([exn], [result] with
      stdpp's monad notation, [try_except]), Python truthiness as a type
      class ([Truthy]), the tactics and hint databases of the development,
      generic facts on lists and on transition relations (uniqueness of
      the terminal state, invariants, a simulation diagram).
    - [PyString]: the methods of Python's [str] the program calls
      ([lower], [title], [split], [strip], [join], the substring test [in],
      [repr]), as structural functions on [string], with their laws, and
      equality of texts up to letter case ([case_equiv]) with the functions
      that respect it.
    - [PyDict]: Python's insertion-ordered [dict] as an association list
      ([dict_get], [dict_set], [dict_keys]), and the built-ins [max] with a
      key, [any], [next], [sum] over a generator, [enumerate] and [str] of
      a number.
    - [Context]: the knowledge snapshot ([Context] and its five topic
      records, every key optional as with [dict.get]), [_get_default_context],
      [_parse_context] and [load_context] of class [ContextLoader].
    - [QueryProcessor]: [QueryIntent], the marker tables, [process_query],
      [_determine_category], [_extract_location], [_extract_time_context].
    - [ResponseGenerator]: the five strategies and [generate_response] with
      its [try]/[except].
    - [Replies]: the decision table of the composer as section 4.2 of the
      specification states it: the thirteen replies ([reply]), their text
      ([render]) and the relation [composes] with one rule for each row,
      the conditions written as propositions over the context.
    - [LocalGuide]: [local_guide] of [src/app.py] over an interface of
      collaborators (class [Components]), [local_guide] of
      [src/streamlit_standalone.py], and their agreement.
    - [Answers]: the catalogue of the replies the table can select from a
      context ([catalogue]) and the fifteen answers of the standalone guide
      ([answers]), with a question for each.
    - [Cli]: the interactive loop [main] of [src/app.py]: [loop_body] (one
      pass through [while True]), [main_loop] and [main] over the outcomes of
      [input] (a line, Ctrl-C, end of input), and the same loop as the
      transition relation [step] on a [console] (standard output, pending
      input, control point); [fixed_texts] lists what the loop writes
      besides a reply.
    - [Streamlit]: the calls of the Streamlit API as a tree of page
      elements ([element]), the identity Streamlit gives a widget
      ([widget_ids]) and the texts rendered as raw HTML ([raw_html]).
    - [Chat]: the page script of [src/streamlit_standalone.py] as far as it
      depends on [st.session_state]: [script] (one run: initialisation,
      example buttons, input box, Ask Guide, Clear Chat, Refresh, the
      conversation blocks), [interact] (a run and the run that [st.rerun()]
      starts) and the transition relation [run_step] on the stored state.
    - [Page]: the page a run of the script builds, call by call:
      [page_config], [style_sheet], [page_header], [sidebar_info],
      [chat_column] with the grid of example buttons ([example_grid]),
      [quick_actions], [conversation_elements], [footer],
      [about_expanders], composed in the order of the script by
      [page_elements].
    - [Theme]: [src/theme_fix.py]: the theme toggle ([theme_toggle]) over
      the key [dark_mode] and the function [apply_theme], which the fragment
      uses without defining them, the sidebar it builds ([theme_sidebar])
      and the page script with its sidebar replaced ([patched_page]).
    - [Patched]: the page script with its sidebar replaced by the
      fragment, as the head of [src/theme_fix.py] instructs: [patched_script]
      over the key [dark_mode] together with the state of the chat, and the
      transition relation [patched_step].  The composite is in no file of
      the repository: it is what following the instruction gives.
    - [Tests]: [src/test_tourism_implementation.py]: the sample context,
      the ten cases and the loop [test_tourism_responses] over a generator
      that returns or raises; [expected_replies] names the row of the
      decision table that answers each case.
    - [Program]: the three files as programs: their [import] statements
      ([import_statements] over the set [modules] of the names that can be
      found, [ModuleNotFoundError] for the first that cannot) followed by
      the call guarded by [__name__ == "__main__"] ([app_program],
      [test_program]) or by the script ([page_program]).

    ** Modelling conventions

    - A Python [str] is a [string]: a sequence of bytes.  The model agrees
      with Python on ASCII text.  A non-ASCII character is carried as its
      UTF-8 bytes, which the model treats as uncased and as not being white
      space; Python would case-map a non-ASCII cased letter and would split
      on a non-ASCII space.  Substring tests are unaffected (UTF-8 is
      self-synchronising and every marker is ASCII).
    - A [dict] whose iteration order the code observes is an association
      list in insertion order; lookup takes the first entry of a key, and
      the tables of the program have unique keys ([dict_wf]), which the
      theorems that need it assume.
    - [Optional[str]] is [option string]; [None] and the empty string are
      both falsy ([truthy]).
    - An exception is a value of [exn]; code that can raise returns
      [result A].  [try: body except Exception: h] is [try_except body h].
      [exn] lists the classes the program names, with [Exception] for any
      other; subclasses are not told apart, and [KeyboardInterrupt] occurs
      only as an outcome of [input].
    - An argument that is not a [str] is one value ([PyOther]) whose truth
      test returns.  The three constructor calls of [local_guide] in
      [src/app.py] are one outcome ([new_components]) of the interface.
    - A context is shape-correct: a key that is present holds a value of the
      type [_get_default_context] gives it.  A missing key is [None] and is
      read through [default], as [dict.get(key, default)] does.
    - Interactive code runs over the list of what the user does: the
      outcomes of [input] for [main], the button pressed and the text of the
      input box for a run of the page.  Standard output is the list of the
      texts written, one for each [print] and each prompt.  A call that the
      source guards by [except] is a parameter that returns or raises
      ([guide]), instantiated by the function the program calls.
    - An assignment made before an exception is kept: where that matters
      (the theme toggle) a run yields the state together with its ending.
    - Streamlit is reduced to what the page script relies on: a button is
      true in the run its click starts and in no other, at most one button
      per run, session state survives between runs, [st.rerun()] ends the
      run.  What [st.text_input] returns is an input of the model.  A page
      is the list of the calls that build it, containers holding the calls
      made inside them; arguments that only style an element are left out.
    - The string literals of [src/streamlit_standalone.py] are kept byte
      for byte, including the characters that an earlier transcoding of the
      file left in place of its emoji.
    - Nothing is bounded and no fuel is used: every function is structural,
      and the loops run once over their finite input.

    ** What is proved

    - [PyString]: characterisation of the substring test, case
      insensitivity of matching on the lowered text, [title]/[lower] round
      trip, tokens of [split] are non-empty and free of white space,
      a marker without white space occurs in the joined tokens exactly when
      it occurs in the text, [strip] is idempotent and the identity on text
      without surrounding white space; [split] undoes [join] on tokens;
      [lower], [strip] and [split] respect [case_equiv]; [repr] of plain
      text is the text between quotes.
    - [PyDict]: [max] with a key returns the first key of maximal value;
      lookup/insert laws; agreement with a finite map; [enumerate] pairs
      every element with its index; [str] of a number is injective.
    - [QueryProcessor]: the category is one of five, is [general] exactly
      when no marker occurs, otherwise maximises the score and is the first
      such category; location and time-context extraction return the first
      entry of their tables that occurs; everything depends on the lowered
      text only; lowering the title-cased location gives back the table
      entry that was found.
    - [ResponseGenerator]: no strategy raises, so the fallback sentence of
      [generate_response] is unreachable on shape-correct contexts; the
      response is never empty and carries no surrounding white space; the
      branch order of the tourism strategy; the time context is extracted
      as the specification says and read by no strategy.
    - [Replies]: [generate_response] computes the reply of the decision
      table; the table selects at most one reply, and one for every intent
      on a context that holds the three texts the sentences embed; the text
      of a reply shows what it was built from.
    - [Answers]: the standalone guide can give exactly fifteen different
      answers, whatever it is asked.
    - [LocalGuide]: every path of [local_guide] returns one of the fixed
      sentences or the stripped response; with the components of
      [src/streamlit_standalone.py] the two entry points agree and the
      error sentences are unreachable; the scenarios of the specification
      as worked examples.

    - [Cli]: the transition relation is adequate for [main] (it computes
      the unique terminal state, a fact of the shape of the loop); a
      session writes the banner and one pass for each outcome up
      to the first that stops it, ends exactly on an exit command, Ctrl-C or
      end of input, and leaves the rest unread; the session invariant holds
      in every reachable console; output is never retracted; the report of
      an unexpected error is never written; a question is answered by the
      reply of [local_guide], a blank line without calling it; no console
      is stuck before the loop is left, and a session with a stopping
      outcome ends after two steps for each outcome read; with the classes
      of [src/streamlit_standalone.py] a pass prints the reply of the
      selected strategy, and whatever is typed a session writes nothing
      but the texts of the program and the replies of the catalogue.
    - [Chat]: in every reachable state the conversation is a list of
      exchanges and no example selection is pending; with the [local_guide]
      of the page every answer is the reply of the selected strategy and
      one of the replies of the catalogue; every
      interaction shows the page after at most two runs; the effect of Ask
      Guide and of an example button; rendering embeds the text of a message
      verbatim; storing and initialising the session state are inverse on
      initialised states; after [n] runs the conversation holds an even
      number of messages, at most [2 * n].
    - [Page]: the layout of the grid of example buttons; no two widgets of
      the page have the same identity; the raw HTML of the page is the
      style sheet, the header, the conversation blocks and the footer, and
      holds the text of every stored message unescaped.
    - [Theme]: the toggle raises on the names it does not define, and
      settles after one rerun when they are supplied; the patched page has
      no duplicate widget either.
    - [Patched]: as the repository has it, with [dark_mode] never
      initialised, every run of the patched page ends in [AttributeError]
      and the conversation stays empty; by a simulation diagram that holds
      of any sidebar that leaves the keys of the chat alone, every state of
      the patched page holds a chat state that the page script reaches.
    - [Tests]: for any generator, the script prints the report of every
      case and ends normally when the generator returns for all ten (42
      texts), and ends with the exception of the first case for which it
      raises, after the description and the intent of that case; with the
      generator of [src/streamlit_standalone.py] each case is answered by
      the text of its row of the decision table, and the three cases that
      name City Palace get the same reply.
    - [Program]: a file reaches its entry point exactly when every name
      it imports is found, and ends with the [ModuleNotFoundError] of the
      first that is not; nothing is claimed about which modules an
      installation holds.

    ** Not modelled

    Streamlit itself, beyond the conventions above: layout and rendering,
    the widget state kept by the browser (what the input box holds after a
    run), the spinner, and the arguments that only style an element.  An
    exception raised by [print].  What an imported module does when it is
    loaded: a module that is found is taken to define the names imported
    from it, and the modules that [src/app.py] and the test script import
    are not in the repository, so their classes are parameters of [Cli],
    [LocalGuide] and [Tests].  Characters outside ASCII in the
    text the user types, for the operations that depend on their case or on
    their being white space.  Reading the knowledge file is reduced to its
    three outcomes (absent, readable, failing). *)

From Stdlib Require Import Ascii.
From stdpp Require Export base tactics option list strings relations.

Set Warnings "-clear-no-such-hyp".

Declare Scope guide_scope.
Delimit Scope guide_scope with guide.
#[global] Open Scope guide_scope.

(** ** Exceptions as values *)

(** The exception classes the program distinguishes in its [except]
    clauses or can raise itself; [Exception] stands for any other class. *)
Inductive exn : Type :=
| FileNotFoundError
| ValueError (msg : string)
| KeyError (key : string)
| AttributeError (msg : string)
| NameError (msg : string)
| ModuleNotFoundError (name : string)
| Exception (msg : string).

#[export] Instance exn_eq_dec : EqDecision exn.
Proof. solve_decision. Defined.

(** [str(e)] for the exceptions above (one-argument constructors). *)
Definition exn_str (e : exn) : string :=
  match e with
  | FileNotFoundError => ""
  | ValueError msg => msg
  | KeyError key => "'" +:+ key +:+ "'"
  | AttributeError msg => msg
  | NameError msg => msg
  | ModuleNotFoundError name => "No module named '" +:+ name +:+ "'"
  | Exception msg => msg
  end.

(** The outcome of a call: a value or a raised exception. *)
Inductive result (A : Type) : Type :=
| Return (a : A)
| Raise (e : exn).
Arguments Return {A} a.
Arguments Raise {A} e.

#[export] Instance result_eq_dec `{EqDecision A} : EqDecision (result A).
Proof. solve_decision. Defined.

#[export] Instance result_ret : MRet result := λ A, Return.
#[export] Instance result_bind : MBind result := λ A B f m,
  match m with Return a => f a | Raise e => Raise e end.
#[export] Instance result_fmap : FMap result := λ A B f m,
  match m with Return a => Return (f a) | Raise e => Raise e end.

(** [try: body except Exception as e: handler e]. *)
Definition try_except {A} (body : result A) (handler : exn → result A) : result A :=
  match body with
  | Return a => Return a
  | Raise e => handler e
  end.

(** [try: body except <class>: ...] with a guard on the exception class:
    an exception the guard rejects propagates. *)
Definition try_except_if {A} (body : result A) (guard : exn → bool)
    (handler : exn → result A) : result A :=
  match body with
  | Return a => Return a
  | Raise e => if guard e then handler e else Raise e
  end.

#[export] Instance Return_inj {A} : Inj (=) (=) (@Return A).
Proof. by intros a b [= ->]. Qed.

Definition is_Return {A} (r : result A) : bool :=
  match r with Return _ => true | Raise _ => false end.

(** ** Truthiness *)

(** [bool(x)], as [if x:] and [not x] use it. *)
Class Truthy (A : Type) := truthy : A → bool.
#[global] Hint Mode Truthy ! : typeclass_instances.

#[export] Instance string_truthy : Truthy string := λ s,
  match s with EmptyString => false | String _ _ => true end.
#[export] Instance list_truthy {A} : Truthy (list A) := λ l,
  match l with [] => false | _ :: _ => true end.
#[export] Instance option_truthy `{Truthy A} : Truthy (option A) := λ o,
  match o with None => false | Some x => truthy x end.
#[export] Instance bool_truthy : Truthy bool := id.

Lemma truthy_Some `{Truthy A} (x : A) : truthy (Some x) = truthy x.
Proof. done. Qed.

Lemma truthy_None `{Truthy A} : truthy (None : option A) = false.
Proof. done. Qed.

(** ** Tactics and hint databases *)

(** Case analysis on the eight bits of a character. *)
Ltac ascii_cases c := destruct c as [[] [] [] [] [] [] [] []].

(** Split every boolean conjunction and disjunction of the context. *)
Ltac bool_split :=
  repeat match goal with
  | H : _ && _ = true |- _ => apply andb_true_iff in H; destruct H
  | H : _ || _ = false |- _ => apply orb_false_iff in H; destruct H
  | H : negb _ = true |- _ => apply negb_true_iff in H
  | H : negb _ = false |- _ => apply negb_false_iff in H
  end.

(** Case analysis on the scrutinee of the first [if] or [match] of the goal. *)
Ltac case_if :=
  match goal with
  | |- context [if ?b then _ else _] => destruct b eqn:?
  end.

(** Proof by evaluation, for closed statements. *)
Ltac by_compute := vm_compute; reflexivity.

Create HintDb guide discriminated.
Create Rewrite HintDb guide_rw.

(** ** Laws of [result] *)

Section result_laws.
Context {A B C : Type}.
Implicit Types (m : result A) (f : A → result B) (g : B → result C).

Lemma result_bind_ret_l (a : A) f : (mret a ≫= f) = f a.
Proof. done. Qed.

Lemma result_bind_ret_r m : (m ≫= mret) = m.
Proof. by destruct m. Qed.

Lemma result_bind_assoc m f g : ((m ≫= f) ≫= g) = (m ≫= λ a, f a ≫= g).
Proof. by destruct m. Qed.

Lemma result_bind_Return m f (b : B) :
  (m ≫= f) = Return b ↔ ∃ a, m = Return a ∧ f a = Return b.
Proof. destruct m; naive_solver. Qed.

Lemma result_bind_Raise m f (e : exn) :
  (m ≫= f) = Raise e ↔ m = Raise e ∨ ∃ a, m = Return a ∧ f a = Raise e.
Proof. destruct m; naive_solver. Qed.

Lemma try_except_Return (a : A) (h : exn → result A) :
  try_except (Return a) h = Return a.
Proof. done. Qed.

Lemma try_except_Raise (e : exn) (h : exn → result A) :
  try_except (Raise e) h = h e.
Proof. done. Qed.

(** A handler that always returns makes the whole statement return. *)
Lemma try_except_total m (h : exn → result A) :
  (∀ e, is_Return (h e) = true) → is_Return (try_except m h) = true.
Proof. intros Hh. destruct m; [done | apply Hh]. Qed.

Lemma try_except_if_accept m (guard : exn → bool) (h : exn → result A) :
  (∀ e, guard e = true) → try_except_if m guard h = try_except m h.
Proof. intros Hg. destruct m as [|e]; simpl; [done | by rewrite Hg]. Qed.

Lemma is_Return_true m : is_Return m = true ↔ ∃ a, m = Return a.
Proof. destruct m; naive_solver. Qed.

End result_laws.

#[export] Hint Rewrite @try_except_Return @try_except_Raise : guide_rw.

(** ** Shared facts on lists and options *)

Section list_facts.
Context {A : Type}.
Implicit Types (p : A → bool) (l : list A).

Lemma existsb_elem_of p l : existsb p l = true ↔ ∃ x, x ∈ l ∧ p x = true.
Proof.
  rewrite existsb_exists. by setoid_rewrite list_elem_of_In.
Qed.

Lemma existsb_false_iff p l : existsb p l = false ↔ ∀ x, x ∈ l → p x = false.
Proof.
  induction l as [|x l IH]; simpl.
  - split; [intros _ y Hy; by apply elem_of_nil in Hy | done].
  - rewrite orb_false_iff, IH. setoid_rewrite elem_of_cons. naive_solver.
Qed.

Lemma existsb_ext_in p q l :
  (∀ x, x ∈ l → p x = q x) → existsb p l = existsb q l.
Proof.
  induction l as [|x l IH]; intros H; simpl; [done|].
  rewrite H by left. f_equal. apply IH. intros y Hy. apply H. by right.
Qed.

Lemma find_None_iff p l : find p l = None ↔ ∀ x, x ∈ l → p x = false.
Proof.
  induction l as [|a l IH]; simpl.
  - split; [intros _ y Hy; by apply elem_of_nil in Hy | done].
  - destruct (p a) eqn:Ha.
    + split; [done|]. intros H. rewrite H in Ha; [done | left].
    + rewrite IH. setoid_rewrite elem_of_cons. naive_solver.
Qed.

(** [find] returns the first element that passes the test. *)
Lemma find_first p l x :
  find p l = Some x ↔
  ∃ l1 l2, l = l1 ++ x :: l2 ∧ p x = true ∧ find p l1 = None.
Proof.
  induction l as [|a l IH]; simpl.
  - split; [done | intros (l1 & l2 & H & _); by destruct l1].
  - destruct (p a) eqn:Ha.
    + split.
      * intros [= <-]. by exists [], l.
      * intros (l1 & l2 & Hl & Hx & Hl1).
        destruct l1 as [|b l1]; simplify_eq/=; [done | by rewrite Ha in Hl1].
    + rewrite IH. split.
      * intros (l1 & l2 & -> & Hx & Hl1). exists (a :: l1), l2. simpl. by rewrite Ha.
      * intros (l1 & l2 & Hl & Hx & Hl1). destruct l1 as [|b l1]; simplify_eq/=.
        { congruence. }
        rewrite Ha in Hl1. by exists l1, l2.
Qed.

Lemma find_is_Some_existsb p l : is_Some (find p l) ↔ existsb p l = true.
Proof.
  induction l as [|a l IH]; simpl.
  - split; [by intros [? ?] | done].
  - destruct (p a); simpl; [split; eauto | done].
Qed.

Lemma find_Some_elem_of p l x : find p l = Some x → x ∈ l ∧ p x = true.
Proof.
  rewrite find_first. intros (l1 & l2 & -> & Hx & _).
  split; [|done]. apply elem_of_app. right. left.
Qed.

End list_facts.

(** Membership in a concatenation. *)
Lemma elem_of_concat {A} (x : A) (ls : list (list A)) :
  x ∈ concat ls ↔ ∃ l, l ∈ ls ∧ x ∈ l.
Proof.
  rewrite list_elem_of_In, in_concat.
  by setoid_rewrite list_elem_of_In.
Qed.

(** ** Generic facts about transition relations *)

Section relation_facts.
Context {A : Type} (R : relation A).
Context (R_det : ∀ x y z, R x y → R x z → y = z).

(** A deterministic relation has at most one terminal state reachable
    from a given state. *)
Lemma rtc_nf_det x y z : rtc R x y → nf R y → rtc R x z → nf R z → y = z.
Proof.
  intros Hy Hny Hz Hnz. revert z Hz Hnz.
  induction Hy as [x|x x' y Hx Hy IH]; intros z Hz Hnz.
  - destruct Hz as [|x x' z Hx _]; [done|]. destruct Hny. by exists x'.
  - destruct Hz as [|x x'' z Hx' Hz]; [destruct Hnz; by exists x'|].
    rewrite (R_det _ _ _ Hx' Hx) in Hz. by apply IH.
Qed.

(** A property that holds initially and is preserved by every step holds
    in every reachable state. *)
Lemma rtc_invariant (P : A → Prop) x y :
  (∀ s s', P s → R s s' → P s') → P x → rtc R x y → P y.
Proof. intros Hstep Hx Hxy. induction Hxy; eauto. Qed.

End relation_facts.

(** A simulation diagram: when every step of [R1] from a state related to
    a state of [R2] is matched by steps of [R2] that lead to related states,
    every run of [R1] is matched by a run of [R2]. *)
Section simulation.
Context {A B : Type} (R1 : relation A) (R2 : relation B) (inv : A → B → Prop).
Context (diagram : ∀ x x' y, R1 x x' → inv x y → ∃ y', rtc R2 y y' ∧ inv x' y').

Lemma rtc_simulation x x' y :
  rtc R1 x x' → inv x y → ∃ y', rtc R2 y y' ∧ inv x' y'.
Proof.
  intros Hx. revert y. induction Hx as [x|x x1 x' Hstep _ IH]; intros y Hinv.
  - by exists y.
  - destruct (diagram _ _ _ Hstep Hinv) as (y1 & Hy1 & Hinv1).
    destruct (IH _ Hinv1) as (y' & Hy' & Hinv'). exists y'. split; [|done].
    by etrans.
Qed.

End simulation.
