(* ===== verification/PyString.v ===== *)
(** * PyString: the methods of Python's [str] that the program calls

    [lower], [title], [strip], [split], [join], the substring test
    [sub in s] and [repr], as structural functions on [string], for ASCII
    text.  The definitions follow the reference behaviour of CPython's
    [str] methods; the laws proved here are the ones the components rely
    on.  Texts that differ in the case of their letters only are related by
    [case_equiv], an equivalence that [lower], [strip] and [split] after
    [lower] respect. *)

From Stdlib Require Import Ascii.
From S2P Require Import Prelude.

Set Warnings "-clear-no-such-hyp".

(** ** Characters *)

(** The code point of a character. *)
Definition ord (c : ascii) : N := N_of_ascii c.

(** [c.isupper()] and [c.islower()] for an ASCII character. *)
Definition is_upper (c : ascii) : bool := (65 <=? ord c)%N && (ord c <=? 90)%N.
Definition is_lower (c : ascii) : bool := (97 <=? ord c)%N && (ord c <=? 122)%N.

(** A cased character: a letter. *)
Definition is_cased (c : ascii) : bool := is_upper c || is_lower c.

(** [c.isspace()]: tab, line feed, vertical tab, form feed, carriage
    return, the four separators 28 to 31, and the space. *)
Definition is_space (c : ascii) : bool :=
  ((9 <=? ord c)%N && (ord c <=? 13)%N) ||
  ((28 <=? ord c)%N && (ord c <=? 32)%N).

Definition lower_char (c : ascii) : ascii :=
  if is_upper c then ascii_of_N (ord c + 32) else c.

Definition upper_char (c : ascii) : ascii :=
  if is_lower c then ascii_of_N (ord c - 32) else c.

(** ** Case mapping *)

(** [s.lower()]. *)
Fixpoint lower (s : string) : string :=
  match s with
  | EmptyString => EmptyString
  | String c s' => String (lower_char c) (lower s')
  end.

(** [s.title()]: a letter that follows a letter is lowered, any other
    letter is raised; [prev] says whether the previous character was cased. *)
Fixpoint title_from (prev : bool) (s : string) : string :=
  match s with
  | EmptyString => EmptyString
  | String c s' =>
      String (if prev then lower_char c else upper_char c)
             (title_from (is_cased c) s')
  end.

Definition title (s : string) : string := title_from false s.

(** ** Substrings *)

(** [s.startswith(p)]. *)
Fixpoint startswith (p s : string) : bool :=
  match p, s with
  | EmptyString, _ => true
  | String a p', String b s' => bool_decide (a = b) && startswith p' s'
  | String _ _, EmptyString => false
  end.

(** [sub in s]: [sub] occurs in [s] as a contiguous substring. *)
Fixpoint str_in (sub s : string) : bool :=
  match s with
  | EmptyString => startswith sub EmptyString
  | String _ s' => startswith sub s || str_in sub s'
  end.

(** The relation [str_in] decides. *)
Definition substring_of (sub s : string) : Prop :=
  ∃ pre post, s = pre +:+ sub +:+ post.

Notation "sub ∈ₛ s" := (str_in sub s = true) (at level 70) : guide_scope.
Notation "sub ∉ₛ s" := (str_in sub s = false) (at level 70) : guide_scope.

(** ** White space *)

(** No character of [s] is white space. *)
Fixpoint no_space (s : string) : bool :=
  match s with
  | EmptyString => true
  | String c s' => negb (is_space c) && no_space s'
  end.

(** [s.lstrip()], [s.rstrip()] and [s.strip()]. *)
Fixpoint lstrip (s : string) : string :=
  match s with
  | EmptyString => EmptyString
  | String c s' => if is_space c then lstrip s' else s
  end.

Fixpoint rstrip (s : string) : string :=
  match s with
  | EmptyString => EmptyString
  | String c s' =>
      match rstrip s' with
      | EmptyString => if is_space c then EmptyString else String c EmptyString
      | r => String c r
      end
  end.

Definition strip (s : string) : string := rstrip (lstrip s).

(** The first and the last character of [s] exist and are not white space. *)
Definition head_ok (s : string) : bool :=
  match s with
  | EmptyString => false
  | String c _ => negb (is_space c)
  end.

Fixpoint last_ok (s : string) : bool :=
  match s with
  | EmptyString => false
  | String c EmptyString => negb (is_space c)
  | String _ s' => last_ok s'
  end.

(** [s.split()] with no argument: the maximal runs of characters that are
    not white space, in order.  [split_aux s] is the run [s] starts with
    (empty when [s] starts with white space) and the runs after it. *)
Definition cons_word (w : string) (ws : list string) : list string :=
  match w with
  | EmptyString => ws
  | String _ _ => w :: ws
  end.

Fixpoint split_aux (s : string) : string * list string :=
  match s with
  | EmptyString => (EmptyString, [])
  | String c s' =>
      let '(w, ws) := split_aux s' in
      if is_space c then (EmptyString, cons_word w ws) else (String c w, ws)
  end.

Definition split (s : string) : list string :=
  let '(w, ws) := split_aux s in cons_word w ws.

(** [sep.join(l)]. *)
Fixpoint join (sep : string) (l : list string) : string :=
  match l with
  | [] => EmptyString
  | [x] => x
  | x :: l' => x +:+ sep +:+ join sep l'
  end.

(** ** Texts up to letter case *)

(** Two texts that differ at most in the case of their letters. *)
Definition case_equiv (s t : string) : Prop := lower s = lower t.
Infix "≡ᶜ" := case_equiv (at level 70) : guide_scope.

(** ** Constants, repetition, membership *)

(** The line feed and the double quote as strings. *)
Definition nl : string := String "010"%char "".
Definition dq : string := String "034"%char "".

(** [s * n]. *)
Fixpoint str_mul (s : string) (n : nat) : string :=
  match n with
  | 0 => ""
  | S n => s +:+ str_mul s n
  end.

(** [x in l] for a list of strings. *)
Definition list_in (x : string) (l : list string) : bool := bool_decide (x ∈ l).

(** ** [repr] of a string *)

(** A hexadecimal digit in lower case. *)
Definition hex_digit (n : N) : ascii :=
  if (n <? 10)%N then ascii_of_N (48 + n) else ascii_of_N (87 + n).

(** How [repr] writes one character inside the quotes: the backslash and
    the quote are escaped, line feed, carriage return and tab have their
    letters, other control characters are written in hexadecimal. *)
Definition repr_char (quote c : ascii) : string :=
  if decide (c = "\"%char) then "\\"
  else if decide (c = quote) then String "\" (String quote "")
  else if decide (c = "010"%char) then "\n"
  else if decide (c = "013"%char) then "\r"
  else if decide (c = "009"%char) then "\t"
  else if (ord c <? 32)%N || (ord c =? 127)%N then
    String "\" (String "x" (String (hex_digit (ord c / 16)) (String (hex_digit (ord c mod 16)) "")))
  else String c "".

Fixpoint repr_chars (quote : ascii) (s : string) : string :=
  match s with
  | EmptyString => EmptyString
  | String c s' => repr_char quote c +:+ repr_chars quote s'
  end.

(** [repr(s)]: single quotes, unless the text holds a single quote and no
    double quote. *)
Definition repr_str (s : string) : string :=
  let quote := if str_in "'" s && negb (str_in dq s) then "034"%char else "039"%char in
  String quote (repr_chars quote s) +:+ String quote "".

(** [repr] of a list of strings and of an optional string. *)
Definition repr_list (l : list string) : string :=
  "[" +:+ join ", " (repr_str <$> l) +:+ "]".
Definition repr_option (o : option string) : string :=
  match o with
  | None => "None"
  | Some s => repr_str s
  end.

(** A character that [repr] writes as it is, inside single quotes. *)
Definition plain_char (c : ascii) : bool :=
  negb (bool_decide (c = "\"%char)) && negb (bool_decide (c = "039"%char))
  && negb ((ord c <? 32)%N || (ord c =? 127)%N).

Fixpoint plain (s : string) : bool :=
  match s with
  | EmptyString => true
  | String c s' => plain_char c && plain s'
  end.

(** * Laws *)

(** ** Characters *)

Lemma lower_char_idemp c : lower_char (lower_char c) = lower_char c.
Proof. by ascii_cases c. Qed.

Lemma lower_upper_char c : lower_char (upper_char c) = lower_char c.
Proof. by ascii_cases c. Qed.

Lemma is_space_lower_char c : is_space (lower_char c) = is_space c.
Proof. by ascii_cases c. Qed.

Lemma is_upper_lower_char c : is_upper (lower_char c) = false.
Proof. by ascii_cases c. Qed.

Lemma lower_char_not_upper c : is_upper c = false → lower_char c = c.
Proof. unfold lower_char. by intros ->. Qed.

Lemma is_space_not_cased c : is_space c = true → is_cased c = false.
Proof. by ascii_cases c. Qed.

(** ** Concatenation *)

Lemma str_app_nil_l s : EmptyString +:+ s = s.
Proof. done. Qed.

Lemma str_app_cons c s t : String c s +:+ t = String c (s +:+ t).
Proof. done. Qed.

Lemma str_app_nil_r s : s +:+ EmptyString = s.
Proof. induction s as [|c s IH]; [done|]. by rewrite str_app_cons, IH. Qed.

Lemma str_app_assoc s t u : (s +:+ t) +:+ u = s +:+ (t +:+ u).
Proof. induction s as [|c s IH]; [done|]. by rewrite !str_app_cons, IH. Qed.

Lemma str_app_eq_nil s t : s +:+ t = EmptyString ↔ s = EmptyString ∧ t = EmptyString.
Proof. destruct s; [naive_solver | rewrite str_app_cons; naive_solver]. Qed.

#[export] Hint Rewrite str_app_nil_l str_app_cons str_app_nil_r str_app_assoc : guide_rw.

Lemma str_app_length s t :
  String.length (s +:+ t) = String.length s + String.length t.
Proof. induction s as [|c s IH]; [done|]. rewrite str_app_cons. simpl. by rewrite IH. Qed.

Lemma truthy_string_iff (s : string) : truthy s = true ↔ s ≠ EmptyString.
Proof. by destruct s. Qed.

Lemma truthy_app_l (s t : string) : truthy s = true → truthy (s +:+ t) = true.
Proof. by destruct s. Qed.

Lemma truthy_app_r (s t : string) : truthy t = true → truthy (s +:+ t) = true.
Proof. destruct s; [done | by rewrite str_app_cons]. Qed.

(** ** [lower] and [title] *)

Lemma lower_app s t : lower (s +:+ t) = lower s +:+ lower t.
Proof.
  induction s as [|c s IH]; [done|].
  rewrite str_app_cons. simpl. by rewrite IH, str_app_cons.
Qed.

Lemma lower_idemp s : lower (lower s) = lower s.
Proof. induction s as [|c s IH]; simpl; [done|]. by rewrite lower_char_idemp, IH. Qed.

Lemma lower_length s : String.length (lower s) = String.length s.
Proof. induction s; simpl; congruence. Qed.

Lemma lower_eq_nil s : lower s = EmptyString ↔ s = EmptyString.
Proof. by destruct s. Qed.

Lemma truthy_lower (s : string) : truthy (lower s) = truthy s.
Proof. by destruct s. Qed.

(** Lowering undoes title-casing: the matching of a title-cased place name
    against a lowered key sees the original name. *)
Lemma lower_title_from b s : lower (title_from b s) = lower s.
Proof.
  revert b. induction s as [|c s IH]; intros b; simpl; [done|].
  rewrite IH. f_equal. destruct b; [apply lower_char_idemp | apply lower_upper_char].
Qed.

Lemma lower_title s : lower (title s) = lower s.
Proof. apply lower_title_from. Qed.

Lemma title_from_length b s : String.length (title_from b s) = String.length s.
Proof. revert b. induction s; intros; simpl; congruence. Qed.

Lemma truthy_title (s : string) : truthy (title s) = truthy s.
Proof. by destruct s. Qed.

(** ** The substring test *)

Lemma startswith_nil_r p : startswith p EmptyString = bool_decide (p = EmptyString).
Proof. by destruct p. Qed.

Lemma startswith_spec p s : startswith p s = true ↔ ∃ r, s = p +:+ r.
Proof.
  revert s. induction p as [|a p IH]; intros s; simpl.
  - split; [by exists s | done].
  - destruct s as [|b s].
    + split; [done | by intros [r ?]].
    + rewrite andb_true_iff, bool_decide_eq_true, IH. split.
      * intros [-> [r ->]]. by exists r.
      * intros [r Hr]. rewrite str_app_cons in Hr. simplify_eq. eauto.
Qed.

Lemma startswith_refl s : startswith s s = true.
Proof. apply startswith_spec. exists EmptyString. by rewrite str_app_nil_r. Qed.

Lemma startswith_app p s t : startswith p s = true → startswith p (s +:+ t) = true.
Proof.
  rewrite !startswith_spec. intros [r ->]. exists (r +:+ t).
  by rewrite str_app_assoc.
Qed.

Lemma str_in_spec sub s : sub ∈ₛ s ↔ substring_of sub s.
Proof.
  unfold substring_of. induction s as [|c s IH]; simpl.
  - rewrite startswith_spec. split.
    + intros [r Hr]. by exists EmptyString, r.
    + intros (pre & post & H). symmetry in H.
      apply str_app_eq_nil in H as [-> H]. apply str_app_eq_nil in H as [-> ->].
      by exists EmptyString.
  - rewrite orb_true_iff, IH, startswith_spec. split.
    + intros [[r Hr] | (pre & post & ->)].
      * by exists EmptyString, r.
      * by exists (String c pre), post.
    + intros ([|a pre] & post & H).
      * left. by exists post.
      * right. rewrite str_app_cons in H. simplify_eq. by exists pre, post.
Qed.

Lemma str_in_cons sub c s :
  str_in sub (String c s) = startswith sub (String c s) || str_in sub s.
Proof. done. Qed.

Lemma str_in_nil_l s : EmptyString ∈ₛ s.
Proof. by destruct s. Qed.

Lemma str_in_nil_r sub : str_in sub EmptyString = bool_decide (sub = EmptyString).
Proof. apply startswith_nil_r. Qed.

Lemma str_in_nil_r_false (sub : string) : truthy sub = true → sub ∉ₛ EmptyString.
Proof. by destruct sub. Qed.

Lemma str_in_refl s : s ∈ₛ s.
Proof. destruct s as [|c s]; simpl; [done|]. by rewrite bool_decide_true, startswith_refl. Qed.

Lemma str_in_app_l sub s t : sub ∈ₛ s → sub ∈ₛ s +:+ t.
Proof.
  rewrite !str_in_spec. intros (pre & post & ->). exists pre, (post +:+ t).
  by rewrite !str_app_assoc.
Qed.

Lemma str_in_app_r sub s t : sub ∈ₛ t → sub ∈ₛ s +:+ t.
Proof.
  rewrite !str_in_spec. intros (pre & post & ->). exists (s +:+ pre), post.
  by rewrite !str_app_assoc.
Qed.

Lemma str_in_trans s t u : s ∈ₛ t → t ∈ₛ u → s ∈ₛ u.
Proof.
  rewrite !str_in_spec. intros (p1 & q1 & ->) (p2 & q2 & ->).
  exists (p2 +:+ p1), (q1 +:+ q2). by rewrite !str_app_assoc.
Qed.

Lemma str_in_length sub s : sub ∈ₛ s → String.length sub ≤ String.length s.
Proof.
  rewrite str_in_spec. intros (pre & post & ->).
  rewrite !str_app_length. lia.
Qed.

(** Matching survives lowering both sides. *)
Lemma str_in_lower sub s : sub ∈ₛ s → lower sub ∈ₛ lower s.
Proof.
  rewrite !str_in_spec. intros (pre & post & ->).
  exists (lower pre), (lower post). by rewrite !lower_app.
Qed.

(** A text that occurs in a lowered text holds no upper-case letter: only
    lower-case markers and place names can match a lowered question. *)
Lemma lower_app_fixed s t : lower (s +:+ t) = s +:+ t → lower s = s ∧ lower t = t.
Proof.
  induction s as [|c s IH]; [done|]. rewrite !str_app_cons. simpl.
  intros [= Hc [-> ->]%IH]. by rewrite Hc.
Qed.

Lemma str_in_lowered sub s : sub ∈ₛ lower s → lower sub = sub.
Proof.
  rewrite str_in_spec. intros (pre & post & Hs).
  pose proof (lower_idemp s) as Hl. rewrite Hs in Hl.
  by apply lower_app_fixed in Hl as [_ [? _]%lower_app_fixed].
Qed.

#[export] Hint Resolve str_in_nil_l str_in_refl str_in_app_l str_in_app_r : guide.

(** ** White space, [strip] *)

Lemma no_space_app s t : no_space (s +:+ t) = no_space s && no_space t.
Proof.
  induction s as [|c s IH]; [done|].
  rewrite str_app_cons. simpl. by rewrite IH, andb_assoc.
Qed.

Lemma no_space_lower s : no_space (lower s) = no_space s.
Proof. induction s as [|c s IH]; simpl; [done|]. by rewrite is_space_lower_char, IH. Qed.

Lemma lstrip_head_ok s : head_ok s = true → lstrip s = s.
Proof. destruct s as [|c s]; simpl; [done|]. by intros ->%negb_true_iff. Qed.

Lemma rstrip_last_ok s : last_ok s = true → rstrip s = s.
Proof.
  induction s as [|c s IH]; [done|]. destruct s as [|d s].
  - simpl. by intros ->%negb_true_iff.
  - intros H. change (rstrip (String c (String d s))) with
      (match rstrip (String d s) with
       | EmptyString => if is_space c then EmptyString else String c EmptyString
       | r => String c r end).
    by rewrite (IH H).
Qed.

(** Text that starts and ends with a visible character is its own [strip]. *)
Lemma strip_fixed s : head_ok s = true → last_ok s = true → strip s = s.
Proof. intros Hh Hl. unfold strip. by rewrite (lstrip_head_ok s Hh), (rstrip_last_ok s Hl). Qed.

Lemma lstrip_spec s : lstrip s = EmptyString ∨ head_ok (lstrip s) = true.
Proof.
  induction s as [|c s IH]; simpl; [by left|].
  destruct (is_space c) eqn:Hc; [done|]. right. simpl. by rewrite Hc.
Qed.

Lemma rstrip_spec s : rstrip s = EmptyString ∨ last_ok (rstrip s) = true.
Proof.
  induction s as [|c s IH]; simpl; [by left|].
  destruct (rstrip s) as [|d r] eqn:Hr.
  - destruct (is_space c) eqn:Hc; [by left|]. right. simpl. by rewrite Hc.
  - right. by destruct IH.
Qed.

Lemma rstrip_head_ok s : head_ok s = true → head_ok (rstrip s) = true.
Proof.
  destruct s as [|c s]; simpl; [done|]. intros Hc.
  destruct (rstrip s); [|done]. apply negb_true_iff in Hc. rewrite Hc. simpl. by rewrite Hc.
Qed.

(** The result of [strip] is empty or has a visible character at both ends. *)
Lemma strip_spec s :
  strip s = EmptyString ∨ (head_ok (strip s) = true ∧ last_ok (strip s) = true).
Proof.
  unfold strip. destruct (rstrip_spec (lstrip s)) as [->|Hl]; [by left|]. right.
  split; [|done]. destruct (lstrip_spec s) as [Hs|Hs]; [|by apply rstrip_head_ok].
  by rewrite Hs in Hl.
Qed.

Lemma strip_idemp s : strip (strip s) = strip s.
Proof. destruct (strip_spec s) as [->|[? ?]]; [done | by apply strip_fixed]. Qed.

Lemma head_ok_truthy s : head_ok s = true → truthy s = true.
Proof. by destruct s. Qed.

Lemma head_ok_app s t : head_ok s = true → head_ok (s +:+ t) = true.
Proof. by destruct s. Qed.

Lemma last_ok_app s t : last_ok t = true → last_ok (s +:+ t) = true.
Proof.
  intros Ht. induction s as [|c s IH]; [done|].
  rewrite str_app_cons. by destruct (s +:+ t).
Qed.

#[export] Hint Resolve head_ok_app last_ok_app : guide.

(** ** Texts up to letter case *)

#[export] Instance case_equiv_equivalence : Equivalence case_equiv.
Proof.
  unfold case_equiv. split; [by intros ? | by intros ?? | intros ??? H1 H2; by rewrite H1].
Qed.

Lemma lstrip_lower s : lstrip (lower s) = lower (lstrip s).
Proof.
  induction s as [|c s IH]; simpl; [done|].
  rewrite is_space_lower_char. by destruct (is_space c).
Qed.

Lemma rstrip_lower s : rstrip (lower s) = lower (rstrip s).
Proof.
  induction s as [|c s IH]; simpl; [done|].
  rewrite IH, is_space_lower_char.
  destruct (rstrip s); simpl; [by destruct (is_space c) | done].
Qed.

Lemma strip_lower s : strip (lower s) = lower (strip s).
Proof. unfold strip. by rewrite lstrip_lower, rstrip_lower. Qed.

#[export] Instance lower_proper : Proper (case_equiv ==> (=)) lower.
Proof. by intros s t Hst. Qed.

#[export] Instance strip_proper : Proper (case_equiv ==> case_equiv) strip.
Proof. intros s t Hst. unfold case_equiv in *. by rewrite <-!strip_lower, Hst. Qed.

#[export] Instance truthy_proper : Proper (case_equiv ==> (=)) (truthy (A:=string)).
Proof. intros s t Hst. by rewrite <-(truthy_lower s), <-(truthy_lower t), Hst. Qed.

#[export] Instance split_lower_proper :
  Proper (case_equiv ==> (=)) (λ s, split (lower s)).
Proof. intros s t Hst. by rewrite Hst. Qed.

(** ** [split] *)

Lemma existsb_cons_word (p : string → bool) w ws :
  p EmptyString = false → existsb p (cons_word w ws) = p w || existsb p ws.
Proof. intros Hp. destruct w; simpl; [by rewrite Hp | done]. Qed.

Lemma Forall_cons_word (P : string → Prop) w ws :
  (truthy w = true → P w) → Forall P ws → Forall P (cons_word w ws).
Proof. intros Hw Hws. destruct w; simpl; [done | constructor; auto]. Qed.

(** The run returned by [split_aux] is free of white space and is followed
    in the text by a white-space character or by the end. *)
Lemma split_aux_run s :
  no_space (split_aux s).1 = true ∧
  (s = (split_aux s).1 ∨
   ∃ c r, is_space c = true ∧ s = (split_aux s).1 +:+ String c r).
Proof.
  induction s as [|c s [IH1 IH2]]; simpl; [by split; [|left]|].
  destruct (split_aux s) as [w ws]. destruct (is_space c) eqn:Hc; simpl in *.
  - split; [done|]. right. by exists c, s.
  - rewrite Hc. split; [done|]. destruct IH2 as [->|(d & r & Hd & ->)]; [by left|].
    right. by exists d, r.
Qed.

(** Every token is non-empty and free of white space. *)
Lemma split_aux_tokens s :
  Forall (λ w, truthy w = true ∧ no_space w = true) (split_aux s).2.
Proof.
  induction s as [|c s IH]; simpl; [constructor|].
  pose proof (split_aux_run s) as [Hw _].
  destruct (split_aux s) as [w ws]. destruct (is_space c); simpl in *; [|done].
  apply Forall_cons_word; auto.
Qed.

Lemma split_tokens s :
  Forall (λ w, truthy w = true ∧ no_space w = true) (split s).
Proof.
  unfold split. pose proof (split_aux_run s) as [Hw _].
  pose proof (split_aux_tokens s) as Hws.
  destruct (split_aux s) as [w ws]. apply Forall_cons_word; auto.
Qed.

Lemma cons_word_fmap_lower w ws :
  cons_word (lower w) (lower <$> ws) = lower <$> cons_word w ws.
Proof. by destruct w. Qed.

Lemma split_aux_lower s :
  split_aux (lower s) = ((lower (split_aux s).1), lower <$> (split_aux s).2).
Proof.
  induction s as [|c s IH]; simpl; [done|].
  rewrite IH, is_space_lower_char. destruct (split_aux s) as [w ws]. simpl.
  destruct (is_space c); simpl; [|done]. by rewrite cons_word_fmap_lower.
Qed.

(** Tokenising commutes with lowering. *)
Lemma split_lower s : split (lower s) = lower <$> split s.
Proof.
  unfold split. rewrite split_aux_lower. destruct (split_aux s) as [w ws]. simpl.
  apply cons_word_fmap_lower.
Qed.

(** ** Round trip between [split] and [join] *)

(** A text that starts with a run free of white space: the run is
    prepended to the first run of the rest. *)
Lemma split_aux_app w s :
  no_space w = true →
  split_aux (w +:+ s) = (w +:+ (split_aux s).1, (split_aux s).2).
Proof.
  induction w as [|c w IH]; intros Hw.
  - rewrite !str_app_nil_l. by destruct (split_aux s).
  - simpl in Hw. apply andb_true_iff in Hw as [Hc%negb_true_iff Hw].
    rewrite !str_app_cons. cbn [split_aux]. by rewrite (IH Hw), Hc.
Qed.

Lemma split_app_space w s :
  truthy w = true → no_space w = true →
  split (w +:+ String " " s) = w :: split s.
Proof.
  intros Hne Hw. unfold split. rewrite (split_aux_app _ _ Hw). cbn.
  destruct (split_aux s) as [v vs]. cbn. rewrite str_app_nil_r. by destruct w.
Qed.

Lemma split_word w : truthy w = true → no_space w = true → split w = [w].
Proof.
  intros Hne Hw. unfold split.
  rewrite <-(str_app_nil_r w) at 1. rewrite (split_aux_app _ _ Hw). cbn.
  rewrite str_app_nil_r. by destruct w.
Qed.

(** Splitting the join of tokens gives the tokens back. *)
Lemma split_join ws :
  Forall (λ w, truthy w = true ∧ no_space w = true) ws →
  split (join " " ws) = ws.
Proof.
  induction 1 as [|w ws [Hne Hw] Hws IH]; [done|].
  destruct ws as [|w' ws]; [by apply split_word|].
  change (join " " (w :: w' :: ws)) with (w +:+ String " " (join " " (w' :: ws))).
  by rewrite split_app_space, IH.
Qed.

(** ** An item of a joined list occurs in the text *)

Lemma str_in_join_elem sep x l : x ∈ l → x ∈ₛ join sep l.
Proof.
  induction l as [|y l IH]; [by intros ?%elem_of_nil|].
  intros [->|Hx]%elem_of_cons; destruct l as [|z l]; cbn [join].
  - apply str_in_refl.
  - apply str_in_app_l, str_in_refl.
  - by apply elem_of_nil in Hx.
  - apply str_in_app_r, str_in_app_r. by apply IH.
Qed.

(** ** [repr] *)

Lemma repr_char_plain c : plain_char c = true → repr_char "039" c = String c "".
Proof.
  unfold plain_char, repr_char. intros [[Hb Hq]%andb_true_iff Hc]%andb_true_iff.
  apply negb_true_iff in Hb, Hq, Hc. apply bool_decide_eq_false in Hb, Hq.
  rewrite !decide_False by done. rewrite Hc.
  destruct (decide (c = "010"%char)) as [->|]; [done|].
  destruct (decide (c = "013"%char)) as [->|]; [done|].
  by destruct (decide (c = "009"%char)) as [->|].
Qed.

Lemma repr_chars_plain s : plain s = true → repr_chars "039" s = s.
Proof.
  induction s as [|c s IH]; [done|]. simpl. intros [Hc Hs]%andb_true_iff.
  by rewrite repr_char_plain, IH.
Qed.

Lemma plain_no_quote s : plain s = true → str_in "'" s = false.
Proof.
  induction s as [|c s IH]; [done|]. cbn [plain]. intros [Hc Hs]%andb_true_iff.
  rewrite str_in_cons, IH by done. rewrite orb_false_r.
  unfold plain_char in Hc. apply andb_true_iff in Hc as [[_ Hq]%andb_true_iff _].
  apply negb_true_iff, bool_decide_eq_false in Hq. simpl.
  by rewrite bool_decide_false.
Qed.

(** A text of plain characters is written between single quotes as it
    is, and can be read back by dropping them. *)
Lemma repr_str_plain s : plain s = true → repr_str s = "'" +:+ s +:+ "'".
Proof.
  intros Hs. unfold repr_str. by rewrite plain_no_quote, repr_chars_plain.
Qed.

(** ** A marker without white space cannot straddle a separator *)

Section marker.
Context (m : string) (Hm : truthy m = true) (Hns : no_space m = true).

Lemma startswith_space c s : is_space c = true → startswith m (String c s) = false.
Proof using Hm Hns.
  intros Hc. destruct m as [|a m']; [done|]. simpl in *.
  apply andb_true_iff in Hns as [Ha _]. apply negb_true_iff in Ha.
  rewrite bool_decide_false; [done | congruence].
Qed.

Lemma startswith_sep c s t :
  is_space c = true → startswith m (s +:+ String c t) = startswith m s.
Proof using Hns.
  clear Hm. intros Hc. revert s Hns. induction m as [|a m' IH]; intros s Hn; [done|].
  simpl in Hn. apply andb_true_iff in Hn as [Ha Hn]. apply negb_true_iff in Ha.
  destruct s as [|b s]; simpl.
  - rewrite bool_decide_false; [done | congruence].
  - by rewrite (IH s Hn).
Qed.

Lemma str_in_sep c s t :
  is_space c = true → str_in m (s +:+ String c t) = str_in m s || str_in m t.
Proof using Hm Hns.
  intros Hc. induction s as [|b s IH].
  - by rewrite str_app_nil_l, str_in_cons, startswith_space, str_in_nil_r_false.
  - rewrite str_app_cons, !str_in_cons, IH, <-orb_assoc. f_equal.
    change (String b (s +:+ String c t)) with (String b s +:+ String c t).
    by apply startswith_sep.
Qed.

Lemma str_in_split_aux s :
  str_in m s = str_in m (split_aux s).1 || existsb (str_in m) (split_aux s).2.
Proof using Hm Hns.
  induction s as [|c s IH].
  { cbn [split_aux fst snd existsb]. by rewrite str_in_nil_r_false. }
  pose proof (split_aux_run s) as [_ Hrun]. rewrite str_in_cons, IH. cbn [split_aux].
  destruct (split_aux s) as [w ws]. cbn [fst snd] in *. destruct (is_space c) eqn:Hc.
  - cbn [fst snd].
    by rewrite startswith_space, str_in_nil_r_false, existsb_cons_word
      by auto using str_in_nil_r_false.
  - cbn [fst snd]. rewrite str_in_cons, orb_assoc. do 2 f_equal.
    destruct Hrun as [->|(d & r & Hd & ->)]; [done|].
    change (String c (w +:+ String d r)) with (String c w +:+ String d r).
    by apply startswith_sep.
Qed.

(** The marker occurs in the text exactly when it occurs in a token. *)
Lemma str_in_split s : str_in m s = existsb (str_in m) (split s).
Proof using Hm Hns.
  rewrite str_in_split_aux. unfold split. destruct (split_aux s) as [w ws]. simpl.
  by rewrite existsb_cons_word by auto using str_in_nil_r_false.
Qed.

(** The marker occurs in the joined tokens exactly when it occurs in one. *)
Lemma str_in_join ws : str_in m (join " " ws) = existsb (str_in m) ws.
Proof using Hm Hns.
  induction ws as [|w ws IH]; [by apply str_in_nil_r_false|].
  destruct ws as [|w' ws]; [simpl; by rewrite orb_false_r|].
  change (join " " (w :: w' :: ws)) with (w +:+ String " " (join " " (w' :: ws))).
  rewrite str_in_sep by done. by rewrite IH.
Qed.

(** Joining the tokens of a text by single spaces neither creates nor
    destroys an occurrence of the marker. *)
Lemma str_in_join_split s : str_in m (join " " (split s)) = str_in m s.
Proof using Hm Hns. by rewrite str_in_join, str_in_split. Qed.

End marker.
