(* ===== verification/PyDict.v ===== *)
(** * PyDict: Python's [dict] and the built-ins over iterables

    A [dict] keeps its keys in insertion order and the program observes that
    order ([max] over a dict, [next] over its keys), so a dict is an
    association list with unique keys.  The built-ins [max], [any], [next]
    and [sum] over a generator are list functions; [max] of an empty iterable
    raises [ValueError] as in Python.  [enumerate] pairs the elements of a
    list with their indices, and [str_of_nat] is [str] of a number. *)

From stdpp Require Import gmap pretty.
From S2P Require Import Prelude.

Set Warnings "-clear-no-such-hyp".

(** ** Dictionaries with [str] keys *)

Abbreviation dict V := (list (string * V)).

Section dict.
Context {V : Type}.
Implicit Types (d : dict V) (k : string) (v : V).

(** [list(d.keys())], [list(d.values())]. *)
Definition dict_keys d : list string := d.*1.
Definition dict_values d : list V := d.*2.

(** A dict holds each key once. *)
Definition dict_wf d : Prop := NoDup (dict_keys d).

(** [d.get(k)]: [None] for a missing key. *)
Definition dict_get k d : option V :=
  snd <$> find (λ kv, bool_decide (kv.1 = k)) d.

(** [d.get(k, dflt)]. *)
Definition dict_get_default k (dflt : V) d : V := default dflt (dict_get k d).

(** [d[k]]: raises [KeyError] for a missing key. *)
Definition dict_getitem k d : result V :=
  match dict_get k d with
  | Some v => Return v
  | None => Raise (KeyError k)
  end.

(** [d[k] = v]: an existing key keeps its position, a new key goes last. *)
Fixpoint dict_set k v d : dict V :=
  match d with
  | [] => [(k, v)]
  | (k', v') :: d' => if bool_decide (k' = k) then (k, v) :: d' else (k', v') :: dict_set k v d'
  end.

End dict.

(** ** Built-ins over iterables *)

Section builtins.
Context {A : Type}.
Implicit Types (key : A → nat) (p : A → bool) (l : list A).

(** The scan of [max]: a later item replaces the best one only when its key
    is strictly greater. *)
Fixpoint max_from key (best : A) l : A :=
  match l with
  | [] => best
  | x :: l' => if key best <? key x then max_from key x l' else max_from key best l'
  end.

(** [max(l, key=key)]. *)
Definition py_max_key key l : result A :=
  match l with
  | [] => Raise (ValueError "max() arg is an empty sequence")
  | x :: l' => Return (max_from key x l')
  end.

(** [any(p(x) for x in l)] and [next((x for x in l if p(x)), None)]. *)
Definition py_any p l : bool := existsb p l.
Definition py_next p l : option A := find p l.

(** [sum(1 for x in l if p(x))]. *)
Fixpoint sum_if p l : nat :=
  match l with
  | [] => 0
  | x :: l' => (if p x then 1 else 0) + sum_if p l'
  end.

(** [r] is the first item of [l] whose key is maximal. *)
Definition first_max key l (r : A) : Prop :=
  ∃ l1 l2, l = l1 ++ r :: l2 ∧
    (∀ y, y ∈ l1 → key y < key r) ∧ (∀ y, y ∈ l2 → key y ≤ key r).

End builtins.

(** [max(l)] on numbers. *)
Definition py_max (l : list nat) : result nat := py_max_key id l.

(** [enumerate(l, start)] and [enumerate(l)]. *)
Definition enumerate_from {A} (start : nat) (l : list A) : list (nat * A) :=
  imap (λ i x, (start + i, x)) l.
Definition enumerate {A} (l : list A) : list (nat * A) := enumerate_from 0 l.

(** [str(n)] for a number that is not negative: its decimal digits. *)
Definition str_of_nat (n : nat) : string := pretty n.

(** * Laws *)

Section dict_laws.
Context {V : Type}.
Implicit Types (d : dict V) (k : string) (v : V).

Lemma dict_get_nil k : dict_get k ([] : dict V) = None.
Proof. done. Qed.

Lemma dict_get_cons k k' v d :
  dict_get k ((k', v) :: d) = if bool_decide (k' = k) then Some v else dict_get k d.
Proof. unfold dict_get. simpl. by case_bool_decide. Qed.

Lemma dict_get_Some_elem_of k v d : dict_get k d = Some v → (k, v) ∈ d.
Proof.
  induction d as [|[k' v'] d IH]; [done|]. rewrite dict_get_cons.
  case_bool_decide; [intros [= ->]; subst; left | intros ?; right; auto].
Qed.

Lemma dict_get_None k d : dict_get k d = None ↔ k ∉ dict_keys d.
Proof.
  unfold dict_keys. induction d as [|[k' v'] d IH]; simpl.
  - split; [intros _; apply not_elem_of_nil | done].
  - rewrite dict_get_cons, not_elem_of_cons. case_bool_decide; naive_solver.
Qed.

Lemma dict_get_is_Some k d : is_Some (dict_get k d) ↔ k ∈ dict_keys d.
Proof.
  rewrite <-not_eq_None_Some, dict_get_None. split; [apply dec_stable | auto].
Qed.

(** In a dict with unique keys, lookup finds every entry. *)
Lemma dict_get_elem_of k v d : dict_wf d → (k, v) ∈ d → dict_get k d = Some v.
Proof.
  unfold dict_wf, dict_keys. induction d as [|[k' v'] d IH]; simpl.
  - intros _ H. by apply elem_of_nil in H.
  - rewrite NoDup_cons, elem_of_cons, dict_get_cons. intros [Hk' Hd] [[= -> ->]|Hin].
    + by rewrite bool_decide_true.
    + case_bool_decide as Hk; [|auto]. subst. destruct Hk'.
      apply list_elem_of_fmap. by exists (k, v).
Qed.

Lemma dict_get_app_r k d1 d2 : k ∉ dict_keys d1 → dict_get k (d1 ++ d2) = dict_get k d2.
Proof.
  unfold dict_keys. induction d1 as [|[k' v'] d1 IH]; simpl; [done|].
  rewrite not_elem_of_cons, dict_get_cons. intros [Hne Hd].
  rewrite bool_decide_false by done. by apply IH.
Qed.

(** Subscripting with a key of the dict never raises. *)
Lemma dict_getitem_key k d : k ∈ dict_keys d → ∃ v, dict_getitem k d = Return v.
Proof.
  intros [v Hv]%dict_get_is_Some. exists v. unfold dict_getitem. by rewrite Hv.
Qed.

Lemma dict_getitem_Raise k d e : dict_getitem k d = Raise e → e = KeyError k ∧ k ∉ dict_keys d.
Proof.
  unfold dict_getitem. destruct (dict_get k d) eqn:E; [done|].
  intros [= <-]. split; [done | by apply dict_get_None].
Qed.

Lemma dict_get_set_eq k v d : dict_get k (dict_set k v d) = Some v.
Proof.
  induction d as [|[k' v'] d IH]; simpl.
  - by rewrite dict_get_cons, bool_decide_true.
  - case_bool_decide as Hk; rewrite dict_get_cons.
    + by rewrite bool_decide_true.
    + by rewrite bool_decide_false.
Qed.

Lemma dict_get_set_ne k k' v d : k ≠ k' → dict_get k' (dict_set k v d) = dict_get k' d.
Proof.
  intros Hne. induction d as [|[k1 v1] d IH]; simpl.
  - by rewrite dict_get_cons, bool_decide_false.
  - case_bool_decide as Hk; rewrite !dict_get_cons; subst.
    + by rewrite !bool_decide_false.
    + by rewrite IH.
Qed.

(** Assigning to a fresh key appends the entry. *)
Lemma dict_set_fresh k v d : k ∉ dict_keys d → dict_set k v d = d ++ [(k, v)].
Proof.
  unfold dict_keys. induction d as [|[k' v'] d IH]; simpl; [done|].
  rewrite not_elem_of_cons. intros [Hne Hd].
  rewrite bool_decide_false by done. by rewrite IH.
Qed.

Lemma dict_keys_set k v d :
  dict_keys (dict_set k v d) = if bool_decide (k ∈ dict_keys d) then dict_keys d else dict_keys d ++ [k].
Proof.
  unfold dict_keys. induction d as [|[k' v'] d IH]; simpl; [done|].
  destruct (decide (k' = k)) as [->|Hne].
  - rewrite bool_decide_true by done. by rewrite bool_decide_true by left.
  - rewrite bool_decide_false by done. rewrite fmap_cons, IH. simpl.
    destruct (decide (k ∈ d.*1)) as [Hin|Hin].
    + rewrite !bool_decide_true; [done | by right | done].
    + rewrite !bool_decide_false; [done | | done].
      rewrite not_elem_of_cons. split; [congruence | done].
Qed.

Lemma dict_set_wf k v d : dict_wf d → dict_wf (dict_set k v d).
Proof.
  unfold dict_wf. rewrite dict_keys_set. case_bool_decide as Hk; [done|].
  intros Hd. apply NoDup_app. split_and!; [done | | apply NoDup_singleton].
  intros x Hx ->%list_elem_of_singleton. done.
Qed.

(** The association list implements the finite map of its entries. *)
Lemma dict_get_list_to_map k d : dict_get k d = (list_to_map d : gmap string V) !! k.
Proof.
  induction d as [|[k' v'] d IH]; [done|].
  rewrite dict_get_cons. simpl. case_bool_decide; subst.
  - by rewrite lookup_insert_eq.
  - by rewrite lookup_insert_ne.
Qed.

(** The first key that passes a test is the key of an entry that no entry
    with a passing key precedes, and the subscript finds that entry. *)
Lemma py_next_keys (p : string → bool) d k :
  py_next p (dict_keys d) = Some k ↔
  ∃ d1 v d2, d = d1 ++ (k, v) :: d2 ∧ p k = true ∧
             ∀ k', k' ∈ dict_keys d1 → p k' = false.
Proof.
  unfold py_next, dict_keys. rewrite find_first. split.
  - intros (l1 & l2 & Hd & Hk & Hnone).
    apply fmap_app_inv in Hd as (d1 & d2' & -> & Hd2 & ->).
    symmetry in Hd2. apply fmap_cons_inv in Hd2 as ([k0 v] & d2 & -> & -> & ->).
    exists d1, v, d2. split_and!; [done..|]. by apply find_None_iff.
  - intros (d1 & v & d2 & -> & Hk & Hnone). exists (d1.*1), (d2.*1).
    rewrite fmap_app, fmap_cons. split_and!; [done..|]. by apply find_None_iff.
Qed.

Lemma dict_get_first (p : string → bool) d1 k v d2 :
  p k = true → (∀ k', k' ∈ dict_keys d1 → p k' = false) →
  dict_get k (d1 ++ (k, v) :: d2) = Some v.
Proof.
  intros Hk Hnone. rewrite dict_get_app_r, dict_get_cons, bool_decide_true; [done..|].
  intros Hin. apply Hnone in Hin. congruence.
Qed.

End dict_laws.

Section builtin_laws.
Context {A : Type}.
Implicit Types (key : A → nat) (p : A → bool) (l : list A).

Lemma first_max_elem_of key l r : first_max key l r → r ∈ l.
Proof. intros (l1 & l2 & -> & _). apply elem_of_app. right. left. Qed.

Lemma first_max_ge key l r x : first_max key l r → x ∈ l → key x ≤ key r.
Proof.
  intros (l1 & l2 & -> & H1 & H2). rewrite elem_of_app, elem_of_cons.
  intros [?|[->|?]]; [apply Nat.lt_le_incl | |]; auto.
Qed.

Lemma max_from_first_max key b l : first_max key (b :: l) (max_from key b l).
Proof.
  revert b. induction l as [|x l IH]; intros b; simpl.
  { exists [], []. split_and!; [done | |]; intros y Hy; by apply elem_of_nil in Hy. }
  destruct (Nat.ltb_spec (key b) (key x)) as [Hlt|Hge].
  - pose proof (first_max_ge key _ _ x (IH x) (list_elem_of_here _ _)) as Hx.
    destruct (IH x) as (l1 & l2 & Heq & H1 & H2). exists (b :: l1), l2.
    split_and!; [by rewrite Heq | | done].
    intros y [->|Hy]%elem_of_cons; [lia | auto].
  - destruct (IH b) as (l1 & l2 & Heq & H1 & H2).
    remember (max_from key b l) as r eqn:Hr. clear Hr IH.
    destruct l1 as [|a l1]; injection Heq as -> ->.
    + exists [], (x :: l2). split_and!; [done | done |].
      intros y [->|Hy]%elem_of_cons; auto.
    + exists (a :: x :: l1), l2. split_and!; [done | | done].
      assert (key a < key r) by (apply H1; left).
      intros y. rewrite !elem_of_cons. intros [->|[->|Hy]]; [done | lia |].
      apply H1. by right.
Qed.

(** The first maximal item is unique. *)
Lemma first_max_unique key l r r' : first_max key l r → first_max key l r' → r = r'.
Proof.
  intros (l1 & l2 & -> & H1 & H2) (l1' & l2' & Heq & H1' & H2').
  revert l1' Heq H1' H1.
  induction l1 as [|a l1 IH]; intros [|a' l1'] Heq H1' H1; injection Heq as Ha Hl.
  - done.
  - assert (key a' < key r') by (apply H1'; left).
    assert (key r' ≤ key a'); [|lia]. rewrite <-Ha. apply H2. rewrite Hl.
    apply elem_of_app. right. left.
  - assert (key a < key r) by (apply H1; left).
    assert (key r ≤ key a); [|lia]. rewrite Ha. apply H2'. rewrite <-Hl.
    apply elem_of_app. right. left.
  - apply (IH l1' Hl); intros y Hy; [apply H1' | apply H1]; by right.
Qed.

(** [max] with a key raises exactly on the empty iterable, and otherwise
    returns the first item of maximal key. *)
Lemma py_max_key_Return key l r : py_max_key key l = Return r ↔ first_max key l r.
Proof.
  destruct l as [|b l]; simpl.
  - split; [done | intros (l1 & l2 & Heq & _); by destruct l1].
  - split.
    + intros [= <-]. apply max_from_first_max.
    + intros H. f_equal. eapply first_max_unique; [apply max_from_first_max | done].
Qed.

Lemma py_max_key_Raise key l e :
  py_max_key key l = Raise e ↔ l = [] ∧ e = ValueError "max() arg is an empty sequence".
Proof. destruct l; simpl; naive_solver. Qed.

Lemma py_max_key_nonempty key l : l ≠ [] → ∃ r, py_max_key key l = Return r.
Proof. destruct l; [done | eauto]. Qed.

(** Only the keys of the items matter. *)
Lemma first_max_ext key key' l r :
  (∀ x, x ∈ l → key x = key' x) → first_max key l r → first_max key' l r.
Proof.
  intros Hext (l1 & l2 & -> & H1 & H2). exists l1, l2.
  assert (key' r = key r) as Hr by (symmetry; apply Hext, elem_of_app; right; left).
  split_and!; [done | |]; intros y Hy; rewrite Hr, <-Hext; auto;
    apply elem_of_app; [by left | right; by right].
Qed.

Lemma sum_if_0 p l : sum_if p l = 0 ↔ existsb p l = false.
Proof.
  induction l as [|x l IH]; simpl; [done|].
  rewrite orb_false_iff, <-IH. destruct (p x); simpl; [split; [lia | by intros []] | naive_solver].
Qed.

Lemma sum_if_le_length p l : sum_if p l ≤ length l.
Proof. induction l as [|x l IH]; simpl; [done|]. destruct (p x); lia. Qed.

Lemma sum_if_ext p q l : (∀ x, x ∈ l → p x = q x) → sum_if p l = sum_if q l.
Proof.
  induction l as [|x l IH]; intros H; simpl; [done|].
  rewrite H by left. f_equal. apply IH. intros y Hy. apply H. by right.
Qed.

Lemma sum_if_pos p l x : x ∈ l → p x = true → 0 < sum_if p l.
Proof.
  intros Hx Hp. destruct (sum_if p l) eqn:E; [|lia].
  apply sum_if_0 in E. rewrite existsb_false_iff in E. rewrite E in Hp; done.
Qed.

End builtin_laws.

Lemma py_max_Raise (l : list nat) e :
  py_max l = Raise e ↔ l = [] ∧ e = ValueError "max() arg is an empty sequence".
Proof. apply py_max_key_Raise. Qed.

Lemma py_max_Return (l : list nat) n :
  py_max l = Return n ↔ n ∈ l ∧ ∀ x, x ∈ l → x ≤ n.
Proof.
  unfold py_max. rewrite py_max_key_Return. split.
  - intros H. split; [by eapply first_max_elem_of | intros x; by apply (first_max_ge id)].
  - intros [Hn Hmax]. destruct l as [|b l]; [by apply elem_of_nil in Hn|].
    pose proof (max_from_first_max id b l) as Hf.
    assert (max_from id b l = n) as <-; [|done].
    apply Nat.le_antisymm.
    + apply Hmax. by eapply first_max_elem_of.
    + by apply (first_max_ge id _ _ _ Hf).
Qed.

(** ** [enumerate] and [str] of a number *)

Lemma enumerate_from_lookup {A} start (l : list A) i :
  enumerate_from start l !! i = (λ x, (start + i, x)) <$> l !! i.
Proof. unfold enumerate_from. by rewrite list_lookup_imap. Qed.

Lemma enumerate_from_cons {A} start (x : A) l :
  enumerate_from start (x :: l) = (start, x) :: enumerate_from (S start) l.
Proof.
  unfold enumerate_from. simpl. rewrite Nat.add_0_r. f_equal.
  apply imap_ext. intros i y _. simpl. f_equal. lia.
Qed.

Lemma enumerate_from_fst {A} start (l : list A) :
  (enumerate_from start l).*1 = seq start (length l).
Proof.
  revert start. induction l as [|x l IH]; intros start; [done|].
  rewrite enumerate_from_cons. simpl. by rewrite IH.
Qed.

Lemma enumerate_from_snd {A} start (l : list A) : (enumerate_from start l).*2 = l.
Proof.
  revert start. induction l as [|x l IH]; intros start; [done|].
  rewrite enumerate_from_cons. simpl. by rewrite IH.
Qed.

Lemma enumerate_from_length {A} start (l : list A) :
  length (enumerate_from start l) = length l.
Proof. unfold enumerate_from. by rewrite length_imap. Qed.

Lemma elem_of_enumerate {A} (l : list A) i x :
  (i, x) ∈ enumerate l ↔ l !! i = Some x.
Proof.
  unfold enumerate. rewrite list_elem_of_lookup. split.
  - intros [j Hj]. rewrite enumerate_from_lookup in Hj.
    destruct (l !! j) eqn:E; by simplify_eq/=.
  - intros Hi. exists i. by rewrite enumerate_from_lookup, Hi.
Qed.

#[export] Instance str_of_nat_inj : Inj (=) (=) str_of_nat.
Proof. unfold str_of_nat. apply _. Qed.
