(* ===== verification/Context.v ===== *)
(** * Context: the knowledge snapshot and class [ContextLoader]

    The context is the nested dictionary [_get_default_context] builds
    ([src/streamlit_standalone.py]).  Every key is optional, because the
    consumers read it with [dict.get(key, default)]; a key that is present
    holds a value of the type the default context gives it.  [load_context]
    reads the knowledge file through a [FileSystem], the two operations of
    the operating system the method calls. *)

From S2P Require Import Prelude PyString PyDict.

Set Warnings "-clear-no-such-hyp".

(** ** The snapshot *)

Record LanguageData := {
  greetings : option (list string);
  phrases : option (dict string);
}.

Record FoodData := {
  dishes : option (list string);
  areas : option (list string);
}.

Record TourismData := {
  peak_times : option (dict string);
  transportation : option (dict string);
  peak_season : option string;
}.

Record CultureData := {
  etiquette : option (list string);
}.

Record OverviewData := {
  description : option string;
  key_areas : option (list string);
}.

Record Context := {
  language : option LanguageData;
  food : option FoodData;
  tourism : option TourismData;
  culture : option CultureData;
  overview : option OverviewData;
}.

(** The empty dictionaries that [context.get(topic, {})] falls back to. *)
Definition empty_language : LanguageData := {| greetings := None; phrases := None |}.
Definition empty_food : FoodData := {| dishes := None; areas := None |}.
Definition empty_tourism : TourismData :=
  {| peak_times := None; transportation := None; peak_season := None |}.
Definition empty_culture : CultureData := {| etiquette := None |}.
Definition empty_context : Context :=
  {| language := None; food := None; tourism := None; culture := None; overview := None |}.

(** Every dictionary of the snapshot holds each key once. *)
Definition context_wf (c : Context) : Prop :=
  dict_wf (default [] (phrases (default empty_language (language c)))) ∧
  dict_wf (default [] (peak_times (default empty_tourism (tourism c)))) ∧
  dict_wf (default [] (transportation (default empty_tourism (tourism c)))).

(** ** Class [ContextLoader] *)

Record ContextLoader := {
  context_file : string;
}.

(** [ContextLoader.__init__]. *)
Definition ContextLoader_init : ContextLoader :=
  {| context_file := ".kiro/product.md" |}.

(** [ContextLoader._get_default_context]. *)
Definition _get_default_context (self : ContextLoader) : Context := {|
  language := Some {|
    greetings := Some ["Khamma Ghani"; "Ram Ram sa"; "Padharo Mhare Des"; "Bhai sa"];
    phrases := Some [
      ("Khamma Ghani", "Traditional greeting meaning hello/respect");
      ("Ram Ram sa", "Casual greeting");
      ("Padharo Mhare Des", "Welcome to our land");
      ("Bhai sa", "Respectful way to address someone")]
  |};
  food := Some {|
    dishes := Some ["Dal Baati Churma"; "Kachori"; "Mirchi Vada"; "Ghewar"];
    areas := Some ["Surajpole"; "Hathipole"; "Chetak Circle"; "Old City markets"]
  |};
  tourism := Some {|
    peak_times := Some [("City Palace", "4 PM - 9 PM"); ("Lake Pichola", "4 PM - 9 PM")];
    transportation := Some [
      ("heritage_areas", "Two-wheelers are the fastest mode inside heritage areas")];
    peak_season := Some "October to March"
  |};
  culture := Some {|
    etiquette := Some [
      "Modest clothing near temples and palaces";
      "Respect local customs and greetings"]
  |};
  overview := Some {|
    description := Some "Udaipur, known as the City of Lakes";
    key_areas := Some ["Lake Pichola"; "City Palace"; "Fateh Sagar"; "Sajjangarh"]
  |}
|}.

(** [ContextLoader._parse_context]: the text of the file is not looked at. *)
Definition _parse_context (self : ContextLoader) (content : string) : Context :=
  _get_default_context self.

(** What [load_context] asks of the operating system: [os.path.exists] and
    [open(...).read()], which can raise. *)
Record FileSystem := {
  path_exists : string → bool;
  read_text : string → result string;
}.

(** [ContextLoader.load_context]. *)
Definition load_context (self : ContextLoader) (fs : FileSystem) : result Context :=
  try_except
    (if negb (path_exists fs (context_file self)) then
       Return (_get_default_context self)
     else
       content ← read_text fs (context_file self);
       Return (_parse_context self content))
    (λ e, Return (_get_default_context self)).

(** * Laws *)

Lemma default_context_wf self : context_wf (_get_default_context self).
Proof. repeat split; unfold dict_wf; apply (bool_decide_unpack _); by_compute. Qed.

(** Whatever the file system answers, [load_context] returns, and what it
    returns is the default context: the knowledge file has no influence. *)
Lemma load_context_default self fs :
  load_context self fs = Return (_get_default_context self).
Proof.
  unfold load_context, _parse_context.
  destruct (path_exists fs (context_file self)); simpl; [|done].
  by destruct (read_text fs (context_file self)).
Qed.

Lemma load_context_never_raises self fs : is_Return (load_context self fs) = true.
Proof. by rewrite load_context_default. Qed.

(** Reading through [dict.get] with an empty-dictionary default. *)
Lemma empty_context_reads :
  default [] (greetings (default empty_language (language empty_context))) = [] ∧
  default [] (dishes (default empty_food (food empty_context))) = [] ∧
  default [] (peak_times (default empty_tourism (tourism empty_context))) = [] ∧
  default [] (etiquette (default empty_culture (culture empty_context))) = [].
Proof. done. Qed.

(** Claim C19. Loading never fails and never reads: for every file system,
    present, unreadable or absent knowledge file alike, [load_context]
    returns the default context, whose dictionaries hold each key once. *)
Theorem load_context_total self fs :
  ∃ c, load_context self fs = Return c ∧
       c = _get_default_context self ∧ context_wf c.
Proof.
  exists (_get_default_context self).
  split_and!; [apply load_context_default | done | apply default_context_wf].
Qed.
