(* ===== verification/QueryProcessor.v ===== *)
(** * QueryProcessor: from the text of a question to a [QueryIntent]

    Class [QueryProcessor] of [src/streamlit_standalone.py]: its two tables
    ([category_keywords], an insertion-ordered dict, and [locations]) and the
    methods [process_query], [_determine_category], [_extract_location] and
    [_extract_time_context].  [max] of an empty score table raises, so the
    methods that call it return a [result]. *)

From S2P Require Import Prelude PyString PyDict.

Set Warnings "-clear-no-such-hyp".

(** ** Data *)

(** The dataclass [QueryIntent]. *)
Record QueryIntent := {
  category : string;
  keywords : list string;
  location : option string;
  time_context : option string;
}.

(** The attributes [QueryProcessor.__init__] sets. *)
Record QueryProcessor := {
  category_keywords : dict (list string);
  locations : list string;
}.

(** [QueryProcessor.__init__]. *)
Definition QueryProcessor_init : QueryProcessor := {|
  category_keywords := [
    ("language", ["khamma"; "ghani"; "greeting"; "phrase"; "hindi"; "mewari";
                  "language"; "speak"; "say"]);
    ("food", ["food"; "eat"; "dish"; "restaurant"; "dal"; "baati"; "churma";
              "kachori"; "mirchi"; "vada"]);
    ("tourism", ["visit"; "tourist"; "crowd"; "timing"; "palace"; "lake";
                 "transport"; "traffic"; "season"]);
    ("culture", ["culture"; "etiquette"; "temple"; "custom"; "tradition";
                 "respect"; "dress"; "behavior"])];
  locations := ["surajpole"; "hathipole"; "city palace"; "lake pichola";
                "fateh sagar"; "sajjangarh"; "chetak circle"]
|}.

(** ** Methods *)

(** [sum(1 for keyword in keywords if keyword in query)]. *)
Definition score (keywords : list string) (query : string) : nat :=
  sum_if (λ keyword, str_in keyword query) keywords.

(** The loop of [_determine_category] that fills [category_scores]. *)
Definition category_scores (self : QueryProcessor) (query : string) : dict nat :=
  foldl (λ scores '(category, keywords),
           dict_set category (score keywords query) scores)
        [] (category_keywords self).

(** [QueryProcessor._determine_category]. *)
Definition _determine_category (self : QueryProcessor) (query : string) : result string :=
  let scores := category_scores self query in
  top ← py_max (dict_values scores);
  if 0 <? top then
    py_max_key (λ category, default 0 (dict_get category scores)) (dict_keys scores)
  else Return "general".

(** [QueryProcessor._extract_location]. *)
Definition _extract_location (self : QueryProcessor) (query : string) : option string :=
  title <$> py_next (λ location, str_in location query) (locations self).

(** The local table of [_extract_time_context]. *)
Definition time_keywords : list string :=
  ["morning"; "evening"; "afternoon"; "night"; "peak"; "busy"; "crowd"].

(** [QueryProcessor._extract_time_context]. *)
Definition _extract_time_context (self : QueryProcessor) (query : string) : option string :=
  py_next (λ keyword, str_in keyword query) time_keywords.

(** [QueryProcessor.process_query]. *)
Definition process_query (self : QueryProcessor) (query : string) : result QueryIntent :=
  let query_lower := lower query in
  let keywords := foldl (λ keywords word, keywords ++ [word]) [] (split query_lower) in
  category ← _determine_category self query_lower;
  let location := _extract_location self query_lower in
  let time_context := _extract_time_context self query_lower in
  Return {| category := category; keywords := keywords;
            location := location; time_context := time_context |}.

(** ** The classification as a tagged variant

    The five categories as a variant and the rule the specification states:
    the first of language, food, tourism, culture whose score is maximal,
    unless every score is zero. *)

Inductive Category := Language | Food | Tourism | Culture | General.

#[export] Instance Category_eq_dec : EqDecision Category.
Proof. solve_decision. Defined.

Definition category_name (c : Category) : string :=
  match c with
  | Language => "language"
  | Food => "food"
  | Tourism => "tourism"
  | Culture => "culture"
  | General => "general"
  end.

(** The markers filed under a category name in the table of [self], and the
    score of that category. *)
Definition markers_of (self : QueryProcessor) (name : string) : list string :=
  default [] (dict_get name (category_keywords self)).

Definition category_score (self : QueryProcessor) (query name : string) : nat :=
  score (markers_of self name) query.

Definition markers (self : QueryProcessor) (c : Category) : list string :=
  markers_of self (category_name c).

Definition classify (self : QueryProcessor) (query : string) : Category :=
  let sl := category_score self query (category_name Language) in
  let sf := category_score self query (category_name Food) in
  let st := category_score self query (category_name Tourism) in
  let sc := category_score self query (category_name Culture) in
  if (sl =? 0) && (sf =? 0) && (st =? 0) && (sc =? 0) then General
  else if (sf <=? sl) && (st <=? sl) && (sc <=? sl) then Language
  else if (st <=? sf) && (sc <=? sf) then Food
  else if sc <=? st then Tourism
  else Culture.

(** The position of a category in the order of the table. *)
Definition category_rank (c : Category) : nat :=
  match c with
  | Language => 0
  | Food => 1
  | Tourism => 2
  | Culture => 3
  | General => 4
  end.

Arguments score : simpl never.

(** * Laws *)

(** ** The loops *)

Lemma keywords_loop (acc l : list string) :
  foldl (λ keywords word, keywords ++ [word]) acc l = acc ++ l.
Proof.
  revert acc. induction l as [|w l IH]; intros acc; simpl.
  - by rewrite app_nil_r.
  - by rewrite IH, <-app_assoc.
Qed.

Section scores.
Context (self : QueryProcessor) (query : string).
Implicit Types (name : string) (kws : list string).

Let entry (e : string * list string) : string * nat := (e.1, score e.2 query).

Lemma category_scores_loop (acc : dict nat) (table : dict (list string)) :
  NoDup (dict_keys acc ++ dict_keys table) →
  foldl (λ scores '(category, keywords),
           dict_set category (score keywords query) scores) acc table
  = acc ++ (entry <$> table).
Proof.
  revert acc. induction table as [|[c kws] table IH]; intros acc Hnd; simpl.
  - by rewrite app_nil_r.
  - unfold dict_keys in *. simpl in Hnd.
    assert (c ∉ acc.*1) as Hc.
    { apply NoDup_app in Hnd as (_ & Hd & _). intros Hin. apply (Hd c Hin). left. }
    rewrite dict_set_fresh by done. rewrite IH.
    + by rewrite <-app_assoc.
    + rewrite fmap_app. simpl. by rewrite <-app_assoc.
Qed.

(** With unique category names the loop computes one score per entry of
    the table, in the order of the table. *)
Lemma category_scores_fmap :
  dict_wf (category_keywords self) →
  category_scores self query = entry <$> category_keywords self.
Proof. intros Hwf. unfold category_scores. by rewrite category_scores_loop. Qed.

Lemma category_scores_keys :
  dict_wf (category_keywords self) →
  dict_keys (category_scores self query) = dict_keys (category_keywords self).
Proof.
  intros Hwf. rewrite category_scores_fmap by done. unfold dict_keys.
  rewrite <-list_fmap_compose. by apply list_fmap_ext.
Qed.

Lemma category_scores_get name :
  dict_wf (category_keywords self) →
  name ∈ dict_keys (category_keywords self) →
  dict_get name (category_scores self query) = Some (category_score self query name).
Proof.
  intros Hwf Hin. rewrite category_scores_fmap by done.
  unfold category_score, markers_of. clear Hwf.
  induction (category_keywords self) as [|[c kws] table IH]; [by apply elem_of_nil in Hin|].
  rewrite fmap_cons. unfold entry at 1. simpl. rewrite !dict_get_cons.
  case_bool_decide as Hc; [done|]. apply IH.
  unfold dict_keys in Hin. simpl in Hin. apply elem_of_cons in Hin as [->|Hin]; done.
Qed.

Lemma category_scores_values_0 :
  dict_wf (category_keywords self) →
  (∀ n, n ∈ dict_values (category_scores self query) → n = 0) ↔
  (∀ name, name ∈ dict_keys (category_keywords self) → category_score self query name = 0).
Proof.
  intros Hwf. split.
  - intros H name Hname.
    pose proof (category_scores_get name Hwf Hname) as Hget.
    apply dict_get_Some_elem_of in Hget. apply H.
    unfold dict_values. apply list_elem_of_fmap. by eexists (_, _).
  - intros H n. unfold dict_values. intros ([name m] & -> & Hin)%list_elem_of_fmap. simpl.
    assert (name ∈ dict_keys (category_keywords self)) as Hname.
    { rewrite <-category_scores_keys by done. unfold dict_keys.
      apply list_elem_of_fmap. by eexists (_, _). }
    assert (dict_wf (category_scores self query)) as Hwf'.
    { unfold dict_wf. by rewrite category_scores_keys. }
    pose proof (dict_get_elem_of _ _ _ Hwf' Hin) as Hget.
    rewrite category_scores_get in Hget by done. injection Hget as <-. by apply H.
Qed.

End scores.

(** ** [_determine_category] over any table with unique category names *)

Section determine_category.
Context (self : QueryProcessor) (query : string).
Context (Hwf : dict_wf (category_keywords self)).

(** The key [category_scores.get] gives [max] is the score of the category. *)
Lemma scores_get_key name :
  name ∈ dict_keys (category_keywords self) →
  default 0 (dict_get name (category_scores self query)) = category_score self query name.
Proof using Hwf. intros Hin. by rewrite category_scores_get. Qed.

Lemma category_scores_nil :
  category_scores self query = [] ↔ category_keywords self = [].
Proof using Hwf.
  rewrite category_scores_fmap by done. by destruct (category_keywords self).
Qed.

(** [_determine_category] raises exactly when the table is empty: the
    argument of [max] is then an empty sequence. *)
Lemma determine_category_Raise e :
  _determine_category self query = Raise e ↔
  category_keywords self = [] ∧ e = ValueError "max() arg is an empty sequence".
Proof using Hwf.
  unfold _determine_category. rewrite <-category_scores_nil.
  destruct (category_scores self query) as [|[c n] scores] eqn:Hs.
  - simpl. naive_solver.
  - simpl. case_match; naive_solver.
Qed.

(** No marker of any category occurs: the answer is [general]. *)
Lemma determine_category_zero :
  category_keywords self ≠ [] →
  (∀ name, name ∈ dict_keys (category_keywords self) → category_score self query name = 0) →
  _determine_category self query = Return "general".
Proof using Hwf.
  intros Hne Hzero. unfold _determine_category.
  pose proof (proj2 (category_scores_values_0 self query Hwf) Hzero) as Hzero'.
  destruct (py_max (dict_values (category_scores self query))) as [top|e] eqn:Hmax.
  - apply py_max_Return in Hmax as [Htop _]. by rewrite (Hzero' top Htop).
  - apply py_max_Raise in Hmax as [Hnil _]. unfold dict_values in Hnil.
    apply fmap_nil_inv in Hnil. by apply category_scores_nil in Hnil.
Qed.

(** Some marker occurs: the answer is the first category of maximal score. *)
Lemma determine_category_first_max name :
  name ∈ dict_keys (category_keywords self) →
  0 < category_score self query name →
  ∃ r, _determine_category self query = Return r ∧
       first_max (category_score self query) (dict_keys (category_keywords self)) r.
Proof using Hwf.
  intros Hin Hpos. unfold _determine_category.
  destruct (py_max (dict_values (category_scores self query))) as [top|e] eqn:Hmax.
  - apply py_max_Return in Hmax as [_ Htop].
    assert (category_score self query name ≤ top) as Hle.
    { apply Htop. unfold dict_values. apply list_elem_of_fmap.
      exists (name, category_score self query name). split; [done|].
      apply dict_get_Some_elem_of. by apply category_scores_get. }
    simpl. destruct (Nat.ltb_spec 0 top); [|lia].
    rewrite category_scores_keys by done.
    destruct (py_max_key_nonempty
      (λ category, default 0 (dict_get category (category_scores self query)))
      (dict_keys (category_keywords self))) as [r Hr].
    { intros Hnil. rewrite Hnil in Hin. by apply elem_of_nil in Hin. }
    exists r. split; [done|]. apply py_max_key_Return in Hr.
    eapply first_max_ext; [|done]. intros x Hx. by apply scores_get_key.
  - apply py_max_Raise in Hmax as [Hnil _]. unfold dict_values in Hnil.
    apply fmap_nil_inv in Hnil. apply category_scores_nil in Hnil.
    rewrite Hnil in Hin. by apply elem_of_nil in Hin.
Qed.

End determine_category.

(** ** [_determine_category] over the four categories of the program *)

(** Turn the boolean comparisons of the context into propositions. *)
Ltac nat_bools :=
  repeat match goal with
  | H : _ && _ = true |- _ => apply andb_true_iff in H as [? ?]
  | H : _ && _ = false |- _ => apply andb_false_iff in H as [H|H]
  | H : (_ =? _) = true |- _ => apply Nat.eqb_eq in H
  | H : (_ =? _) = false |- _ => apply Nat.eqb_neq in H
  | H : (_ <=? _) = true |- _ => apply Nat.leb_le in H
  | H : (_ <=? _) = false |- _ => apply Nat.leb_gt in H
  end.

(** Membership in a list written out. *)
Ltac elem_cases H :=
  repeat (apply elem_of_cons in H as [->|H]); try (by apply elem_of_nil in H).

Section four_categories.
Context (self : QueryProcessor) (query : string).
Context (Hkeys : dict_keys (category_keywords self)
                 = category_name <$> [Language; Food; Tourism; Culture]).

Lemma four_categories_wf : dict_wf (category_keywords self).
Proof using Hkeys. unfold dict_wf. rewrite Hkeys. apply (bool_decide_unpack _). by_compute. Qed.

Lemma four_categories_nonempty : category_keywords self ≠ [].
Proof using Hkeys. intros H. by rewrite H in Hkeys. Qed.

Lemma classify_General_iff :
  classify self query = General ↔
  ∀ c, c ≠ General → category_score self query (category_name c) = 0.
Proof.
  unfold classify. split.
  - intros H c Hc. repeat case_match; try done; nat_bools. by destruct c.
  - intros H. by rewrite !H.
Qed.

(** When a marker occurs, [classify] names the first category of maximal
    score. *)
Lemma classify_first_max :
  classify self query ≠ General →
  first_max (category_score self query)
    (category_name <$> [Language; Food; Tourism; Culture])
    (category_name (classify self query)).
Proof.
  unfold classify. intros Hc.
  repeat case_match; try done; clear Hc; simpl;
    [ exists [], ["food"; "tourism"; "culture"]
    | exists ["language"], ["tourism"; "culture"]
    | exists ["language"; "food"], ["culture"]
    | exists ["language"; "food"; "tourism"], [] ];
    (split_and!; [done | |]); intros y Hy; elem_cases Hy; nat_bools; simpl in *; lia.
Qed.

Lemma classify_positive :
  classify self query ≠ General →
  ∃ c, c ≠ General ∧ 0 < category_score self query (category_name c).
Proof.
  unfold classify. intros Hc. case_match eqn:E; [done|]. clear Hc.
  nat_bools; [exists Language | exists Food | exists Tourism | exists Culture];
    (split; [done | simpl in *; lia]).
Qed.

(** The dictionary code implements the tagged-variant rule. *)
Lemma determine_category_classify :
  _determine_category self query = Return (category_name (classify self query)).
Proof using Hkeys.
  pose proof four_categories_wf as Hwf.
  destruct (decide (classify self query = General)) as [Hg|Hg].
  - rewrite Hg. apply determine_category_zero; [done | apply four_categories_nonempty |].
    rewrite Hkeys. intros name Hname. pose proof (proj1 classify_General_iff Hg) as Hz.
    simpl in Hname. elem_cases Hname.
    + by apply (Hz Language).
    + by apply (Hz Food).
    + by apply (Hz Tourism).
    + by apply (Hz Culture).
  - destruct (classify_positive Hg) as (c & Hc & Hpos).
    destruct (determine_category_first_max self query Hwf (category_name c))
      as (r & Hr & Hmax); [|done|].
    { rewrite Hkeys. destruct c; try done; simpl; rewrite !elem_of_cons; auto 10. }
    rewrite Hr. f_equal. rewrite Hkeys in Hmax.
    eapply first_max_unique; [done | by apply classify_first_max].
Qed.

End four_categories.

(** ** Facts about [classify] *)

#[export] Instance category_name_inj : Inj (=) (=) category_name.
Proof. intros [] [] H; by simplify_eq. Qed.

Lemma score_0_iff (markers : list string) (query : string) :
  score markers query = 0 ↔ ∀ m, m ∈ markers → m ∉ₛ query.
Proof. unfold score. by rewrite sum_if_0, existsb_false_iff. Qed.

Lemma score_pos (markers : list string) (query m : string) :
  m ∈ markers → m ∈ₛ query → 0 < score markers query.
Proof. intros Hm Hin. by apply (sum_if_pos _ _ m). Qed.

Section classify_facts.
Context (self : QueryProcessor) (query : string).
Abbreviation sc c := (category_score self query (category_name c)).

(** The chosen category has maximal score ... *)
Lemma classify_max c c' :
  classify self query = c → c ≠ General → c' ≠ General → sc c' ≤ sc c.
Proof.
  unfold classify. intros <- Hc Hc'.
  destruct c'; try done; repeat case_match; try done; nat_bools; simpl in *; lia.
Qed.

(** ... is strictly better than every category before it ... *)
Lemma classify_first c c' :
  classify self query = c → c ≠ General →
  category_rank c' < category_rank c → sc c' < sc c.
Proof.
  unfold classify. intros <- Hc.
  destruct c'; repeat case_match; try done; simpl; try lia;
    intros _; nat_bools; simpl in *; lia.
Qed.

(** ... and has matched a marker. *)
Lemma classify_pos c : classify self query = c → c ≠ General → 0 < sc c.
Proof.
  unfold classify. intros <- Hc.
  repeat case_match; try done; nat_bools; simpl in *; lia.
Qed.

End classify_facts.

(** ** What a returned intent holds *)

Lemma process_query_Return self query intent :
  process_query self query = Return intent →
  _determine_category self (lower query) = Return (category intent) ∧
  keywords intent = split (lower query) ∧
  location intent = _extract_location self (lower query) ∧
  time_context intent = _extract_time_context self (lower query).
Proof.
  unfold process_query.
  destruct (_determine_category self (lower query)) as [c|e]; [|done].
  simpl. intros [= <-]. simpl. by rewrite keywords_loop.
Qed.

(** The tokens of lowered text are non-empty, free of white space and in
    lower case. *)
Lemma split_lower_tokens query :
  Forall (λ w, truthy w = true ∧ no_space w = true ∧ lower w = w) (split (lower query)).
Proof.
  rewrite split_lower. apply Forall_fmap. eapply Forall_impl; [apply split_tokens|].
  intros w [Hw Hns]. simpl. by rewrite truthy_lower, no_space_lower, lower_idemp.
Qed.

(** Over the marker table of the program the intent is determined by the
    classification. *)
Lemma process_query_classify self query :
  dict_keys (category_keywords self)
    = category_name <$> [Language; Food; Tourism; Culture] →
  process_query self query = Return {|
    category := category_name (classify self (lower query));
    keywords := split (lower query);
    location := _extract_location self (lower query);
    time_context := _extract_time_context self (lower query) |}.
Proof.
  intros Hkeys. unfold process_query.
  rewrite (determine_category_classify self (lower query) Hkeys). simpl.
  by rewrite keywords_loop.
Qed.

(** ** The public behaviour of class [QueryProcessor] *)

(** Claim C1. Refinement: over a table that files its markers under
    language, food, tourism and culture in this order, [process_query] never
    raises and returns the intent whose category is the tagged-variant
    classification of the lowered text, whose keywords are its white-space
    tokens, and whose location and time context are extracted from it. *)
Theorem process_query_spec self query :
  dict_keys (category_keywords self)
    = category_name <$> [Language; Food; Tourism; Culture] →
  process_query self query = Return {|
    category := category_name (classify self (lower query));
    keywords := split (lower query);
    location := _extract_location self (lower query);
    time_context := _extract_time_context self (lower query) |}.
Proof. apply process_query_classify. Qed.

Lemma process_query_spec_witness :
  process_query QueryProcessor_init "When to visit City Palace to avoid crowds?"
  = Return {|
      category := "tourism";
      keywords := ["when"; "to"; "visit"; "city"; "palace"; "to"; "avoid"; "crowds?"];
      location := Some "City Palace";
      time_context := Some "crowd" |}.
Proof.
  rewrite (process_query_spec QueryProcessor_init
             "When to visit City Palace to avoid crowds?" eq_refl).
  reflexivity.
Defined.

(** Claim C2. Tie-break: when [_determine_category] answers one of the four
    named categories, that category matched a marker, no category scores
    higher, and every category that comes before it in the table scores
    strictly lower: among equal scores the earliest category wins. *)
Theorem determine_category_tie_break self query c :
  dict_keys (category_keywords self)
    = category_name <$> [Language; Food; Tourism; Culture] →
  _determine_category self query = Return (category_name c) →
  c ≠ General →
  0 < category_score self query (category_name c) ∧
  (∀ c', c' ≠ General →
     category_score self query (category_name c')
     ≤ category_score self query (category_name c)) ∧
  (∀ c', category_rank c' < category_rank c →
     category_score self query (category_name c')
     < category_score self query (category_name c)).
Proof.
  intros Hkeys Hret Hc. rewrite determine_category_classify in Hret by done.
  injection Hret as Hcl%(inj category_name).
  split_and!.
  - by apply classify_pos.
  - intros c' Hc'. by apply classify_max.
  - intros c' Hc'. by apply classify_first.
Qed.

Lemma determine_category_tie_break_witness :
  0 < category_score QueryProcessor_init "local greeting customs?" "language" ∧
  category_score QueryProcessor_init "local greeting customs?" "culture"
  ≤ category_score QueryProcessor_init "local greeting customs?" "language".
Proof.
  destruct (determine_category_tie_break QueryProcessor_init
              "local greeting customs?" Language eq_refl eq_refl)
    as (Hpos & Hmax & _); [done|].
  split; [exact Hpos | exact (Hmax Culture ltac:(done))].
Defined.

(** Claim C10. The answer is [general] exactly when no marker of any of the
    four categories occurs in the text as a substring. *)
Theorem determine_category_general_iff self query :
  dict_keys (category_keywords self)
    = category_name <$> [Language; Food; Tourism; Culture] →
  _determine_category self query = Return "general" ↔
  ∀ c m, c ≠ General → m ∈ markers self c → m ∉ₛ query.
Proof.
  intros Hkeys. rewrite determine_category_classify by done.
  change "general" with (category_name General).
  split.
  - intros Hc%(inj Return)%(inj category_name) c m Hne Hm.
    pose proof (proj1 (classify_General_iff self query) Hc c Hne) as Hz.
    by apply (proj1 (score_0_iff _ _) Hz).
  - intros H. do 2 f_equal. apply classify_General_iff. intros c Hne.
    apply score_0_iff. intros m Hm. by apply (H c).
Qed.

Lemma determine_category_general_iff_witness :
  _determine_category QueryProcessor_init "asdkj qwop" = Return "general" ↔
  ∀ c m, c ≠ General → m ∈ markers QueryProcessor_init c → m ∉ₛ "asdkj qwop".
Proof. exact (determine_category_general_iff QueryProcessor_init "asdkj qwop" eq_refl). Defined.

(** Claim C17. Errors: over a table with unique category names,
    [process_query] raises exactly when the table is empty, and the
    exception is the [ValueError] of [max] on an empty sequence. *)
Theorem process_query_raises_iff self query e :
  dict_wf (category_keywords self) →
  process_query self query = Raise e ↔
  category_keywords self = [] ∧ e = ValueError "max() arg is an empty sequence".
Proof.
  intros Hwf. rewrite <-(determine_category_Raise self (lower query) Hwf).
  unfold process_query. destruct (_determine_category self (lower query)); simpl; naive_solver.
Qed.

Lemma process_query_raises_iff_witness :
  process_query {| category_keywords := []; locations := ["surajpole"] |} "Best food?"
  = Raise (ValueError "max() arg is an empty sequence").
Proof.
  apply (process_query_raises_iff
           {| category_keywords := []; locations := ["surajpole"] |} "Best food?").
  - apply NoDup_nil_2.
  - done.
Defined.

(** Claim C8. Location precedence: [_extract_location] returns the
    title-cased form of the first entry of the table that occurs in the
    text, whatever occurs later in the table and wherever it stands in the
    text; it returns nothing exactly when no entry occurs. *)
Theorem extract_location_first self query :
  (∀ t, _extract_location self query = Some t ↔
     ∃ l1 l l2, locations self = l1 ++ l :: l2 ∧ t = title l ∧
                l ∈ₛ query ∧ ∀ y, y ∈ l1 → y ∉ₛ query) ∧
  (_extract_location self query = None ↔ ∀ l, l ∈ locations self → l ∉ₛ query).
Proof.
  unfold _extract_location, py_next. split.
  - intros t. rewrite fmap_Some. setoid_rewrite find_first.
    setoid_rewrite find_None_iff. naive_solver.
  - by rewrite fmap_None, find_None_iff.
Qed.

(** Time context: [_extract_time_context] returns the first word
    of morning, evening, afternoon, night, peak, busy, crowd that occurs in
    the text, and nothing exactly when none occurs. *)
Lemma extract_time_context_first self query :
  (∀ t, _extract_time_context self query = Some t ↔
     ∃ l1 l2, time_keywords = l1 ++ t :: l2 ∧ t ∈ₛ query ∧ ∀ y, y ∈ l1 → y ∉ₛ query) ∧
  (_extract_time_context self query = None ↔ ∀ t, t ∈ time_keywords → t ∉ₛ query).
Proof.
  unfold _extract_time_context, py_next. split.
  - intros t. rewrite find_first. by setoid_rewrite find_None_iff.
  - by rewrite find_None_iff.
Qed.

(** Case insensitivity: two texts that differ only in the case of their
    letters yield the same outcome of [process_query], the same intent or
    the same exception. *)
#[export] Instance process_query_proper self :
  Proper (case_equiv ==> (=)) (process_query self).
Proof. intros query1 query2 Hq. unfold process_query. unfold case_equiv in Hq. by rewrite Hq. Qed.

(** Claim C28. Keywords: the keywords of a returned intent are the
    white-space tokens of the lowered text, in order; each is non-empty,
    holds no white space and no upper-case letter. *)
Theorem process_query_keywords self query intent :
  process_query self query = Return intent →
  keywords intent = split (lower query) ∧
  Forall (λ w, truthy w = true ∧ no_space w = true ∧ lower w = w) (keywords intent).
Proof.
  intros (_ & Hk & _)%process_query_Return. rewrite Hk.
  split; [done | apply split_lower_tokens].
Qed.

Lemma process_query_keywords_witness :
  keywords {| category := "food"; keywords := ["best"; "food?"];
              location := None; time_context := None |}
  = split (lower "  Best   FOOD? ").
Proof.
  exact (proj1 (process_query_keywords QueryProcessor_init "  Best   FOOD? "
                  {| category := "food"; keywords := ["best"; "food?"];
                     location := None; time_context := None |} eq_refl)).
Defined.

(** Claim C29. Round trip of the place name: [_extract_location] stores the
    title-cased entry of its table and the strategies read it back with
    [lower]; for every table and every question, the lowered location of a
    returned intent is the very entry that was found in the lowered
    question, and title-casing that entry gives the location back.  An
    entry with an upper-case letter is never found, because the question
    is lowered before the table is searched. *)
Theorem location_title_lower_roundtrip self query intent place :
  process_query self query = Return intent →
  location intent = Some place →
  lower place ∈ locations self ∧
  lower place ∈ₛ lower query ∧
  title (lower place) = place ∧
  _extract_location self (lower query) = Some (title (lower place)).
Proof.
  intros (_ & _ & Hl & _)%process_query_Return Hplace. rewrite Hl in Hplace.
  pose proof Hplace as Hfound. revert Hfound. unfold _extract_location at 1, py_next.
  intros (l & [Hin Hsub]%find_Some_elem_of & ->)%fmap_Some.
  rewrite lower_title, (str_in_lowered l query Hsub). by rewrite Hplace.
Qed.

Lemma location_title_lower_roundtrip_witness :
  lower "Lake Pichola" ∈ locations QueryProcessor_init ∧
  lower "Lake Pichola" ∈ₛ lower "Boat ride on LAKE PICHOLA?" ∧
  title (lower "Lake Pichola") = "Lake Pichola" ∧
  _extract_location QueryProcessor_init (lower "Boat ride on LAKE PICHOLA?")
  = Some (title (lower "Lake Pichola")).
Proof.
  exact (location_title_lower_roundtrip QueryProcessor_init "Boat ride on LAKE PICHOLA?"
           {| category := "tourism"; keywords := ["boat"; "ride"; "on"; "lake"; "pichola?"];
              location := Some "Lake Pichola"; time_context := None |}
           "Lake Pichola" eq_refl eq_refl).
Defined.

(** Location of an intent: over a table of non-empty lower-case
    place names, the location of a returned intent is a non-empty string
    whose lowered form is an entry of the table and occurs in the lowered
    text. *)
Theorem process_query_location self query intent t :
  Forall (λ l, truthy l = true ∧ lower l = l) (locations self) →
  process_query self query = Return intent →
  location intent = Some t →
  truthy t = true ∧ lower t ∈ locations self ∧ lower t ∈ₛ lower query.
Proof.
  intros Hall (_ & _ & Hl & _)%process_query_Return. rewrite Hl.
  unfold _extract_location, py_next.
  intros (l & [Hin Hsub]%find_Some_elem_of & ->)%fmap_Some.
  rewrite Forall_forall in Hall. destruct (Hall l Hin) as [Hne Hlow].
  by rewrite truthy_title, lower_title, Hlow.
Qed.

Lemma process_query_location_witness :
  truthy "Lake Pichola" = true ∧
  lower "Lake Pichola" ∈ locations QueryProcessor_init ∧
  lower "Lake Pichola" ∈ₛ lower "Boat ride on LAKE PICHOLA?".
Proof.
  apply (process_query_location QueryProcessor_init "Boat ride on LAKE PICHOLA?"
           {| category := "tourism"; keywords := ["boat"; "ride"; "on"; "lake"; "pichola?"];
              location := Some "Lake Pichola"; time_context := None |}).
  - apply (bool_decide_unpack _). vm_compute. reflexivity.
  - reflexivity.
  - reflexivity.
Defined.

(** Claim C32. Marker inside a word: the food marker [eat] occurs in
    [weather], so a question that mentions the weather scores for food, and
    the tie-break then keeps it from the tourism strategy (whose season
    branch looks for [weather]) unless at least two tourism markers occur. *)
Theorem weather_question_not_tourism query intent :
  process_query QueryProcessor_init query = Return intent →
  "weather" ∈ₛ lower query →
  category_score QueryProcessor_init (lower query) "tourism" ≤ 1 →
  category intent ≠ "tourism".
Proof.
  intros (Hcat & _)%process_query_Return Hw Hle Htour.
  rewrite Htour in Hcat.
  destruct (determine_category_first_max QueryProcessor_init (lower query)
              (four_categories_wf QueryProcessor_init eq_refl) "food")
    as (r & Hr & Hmax).
  { apply (bool_decide_unpack _). by_compute. }
  { apply (score_pos _ _ "eat"); [apply (bool_decide_unpack _); by_compute|].
    by apply (str_in_trans _ "weather"). }
  assert (r = "tourism") as -> by congruence. clear Hr Hcat.
  assert (0 < category_score QueryProcessor_init (lower query) "food") as Hfood.
  { apply (score_pos _ _ "eat"); [apply (bool_decide_unpack _); by_compute|].
    by apply (str_in_trans _ "weather"). }
  destruct Hmax as (l1 & l2 & Heq & Hlt & _).
  assert ("food" ∈ l1) as Hin.
  { destruct l1 as [|a [|b [|c [|d l1]]]]; simplify_eq/=; rewrite !elem_of_cons; auto. }
  specialize (Hlt _ Hin). lia.
Qed.

Lemma weather_question_not_tourism_witness :
  bool_decide (category {| category := "food";
      keywords := ["what"; "is"; "the"; "weather"; "in"; "peak"; "season?"];
      location := None; time_context := Some "peak" |} = "tourism") = false.
Proof.
  apply bool_decide_eq_false.
  apply (weather_question_not_tourism "What is the weather in peak season?").
  - reflexivity.
  - reflexivity.
  - apply Nat.leb_le. reflexivity.
Defined.
