(* ===== verification/ResponseGenerator.v ===== *)
(** * ResponseGenerator: from a [QueryIntent] and the context to the reply

    Class [ResponseGenerator] of [src/streamlit_standalone.py].  The class
    has no attributes, so its methods take the intent and the context only.
    A strategy returns a [result]: the one statement that can raise in a
    shape-correct context is the subscript [peak_times[location_key]] of the
    tourism strategy.  [generate_response] catches every exception of a
    strategy and answers with a fixed sentence. *)

From S2P Require Import Prelude PyString PyDict Context QueryProcessor.

Set Warnings "-clear-no-such-hyp".

(** ** The strategies *)

(** [ResponseGenerator._generate_language_response]. *)
Definition _generate_language_response (intent : QueryIntent) (context : Context)
    : result string :=
  let language_data := default empty_language (language context) in
  if py_any (λ keyword, str_in "khamma" (lower keyword)) (keywords intent) then
    let phrase_info :=
      dict_get_default "Khamma Ghani" "" (default [] (phrases language_data)) in
    Return ("'Khamma Ghani' is a " +:+ phrase_info +:+ ". It's pronounced 'KHAM-ma GHA-ni' and is the most respectful way to greet someone in Udaipur. You can use it any time of day, and locals will appreciate your effort to use their traditional greeting.")
  else
    let greetings := default [] (greetings language_data) in
    if truthy greetings then
      Return ("Common local greetings in Udaipur include: " +:+ join ", " greetings +:+ ". 'Khamma Ghani' is the most traditional and respectful greeting, while 'Ram Ram sa' is more casual. These greetings show respect for local culture.")
    else
      Return "Udaipur has rich linguistic traditions. The most common respectful greeting is 'Khamma Ghani', which shows cultural awareness and respect for local customs.".

(** [ResponseGenerator._generate_food_response]. *)
Definition _generate_food_response (intent : QueryIntent) (context : Context)
    : result string :=
  let food_data := default empty_food (food context) in
  let general :=
    let dishes := default [] (dishes food_data) in
    if truthy dishes then
      Return ("Must-try authentic Udaipur dishes include: " +:+ join ", " dishes +:+ ". Dal Baati Churma is the signature dish - lentils with baked wheat balls and sweet crumble. Visit areas like Surajpole and Hathipole for the best street food experience.")
    else
      Return "Udaipur offers amazing local cuisine! Try Dal Baati Churma, Kachori, and local sweets. The old city markets have the most authentic food experiences." in
  match location intent with
  | Some loc =>
      if truthy loc then
        let areas := default [] (areas food_data) in
        if py_any (λ area, str_in (lower loc) (lower area)) areas then
          Return ("For authentic food in " +:+ loc +:+ ", you'll find excellent local specialties. Try Dal Baati Churma (traditional Rajasthani dish), Kachori (spiced pastry), and Mirchi Vada (spicy fritters). " +:+ loc +:+ " is known for its street food and traditional eateries.")
        else general
      else general
  | None => general
  end.

(** The marker lists of the tourism strategy. *)
Definition transport_words : list string :=
  ["transport"; "traffic"; "vehicle"; "bike"; "car"].
Definition season_words : list string :=
  ["season"; "weather"; "october"; "march"].

(** The part of [_generate_tourism_response] after the location block:
    transport, then season, then the generic sentence. *)
Definition tourism_by_keywords (intent : QueryIntent) (tourism_data : TourismData)
    : result string :=
  if py_any (λ word, str_in word (join " " (keywords intent))) transport_words then
    let transport_info :=
      dict_get_default "heritage_areas" "" (default [] (transportation tourism_data)) in
    Return ("For getting around heritage areas, " +:+ lower transport_info +:+ ". Narrow roads in the old city can cause congestion for larger vehicles. Parking is limited near major attractions, so two-wheelers or walking is often more convenient.")
  else if py_any (λ word, str_in word (join " " (keywords intent))) season_words then
    let peak_season := default "" (peak_season tourism_data) in
    Return ("Peak tourist season in Udaipur is " +:+ peak_season +:+ ". During " +:+ peak_season +:+ ": Pleasant temperatures (15-25¬∞C) ideal for sightseeing. Expect Maximum tourist influx - book accommodations and popular restaurants in advance and Peak pricing for hotels, tours, and activities. All outdoor activities available, boat rides at lakes are most popular. Pro tip: Early morning visits (7-10 AM) are essential to avoid crowds. Evening boat rides should be booked in advance.")
  else
    Return "Tourist congestion in Udaipur is heaviest from 4 PM to 9 PM at major attractions like City Palace and Lake Pichola. Early morning (7-10 AM) and late evening (after 8 PM) are the best times for peaceful visits. Peak season from October to March sees significantly higher crowds throughout the day.".

(** [ResponseGenerator._generate_tourism_response]. *)
Definition _generate_tourism_response (intent : QueryIntent) (context : Context)
    : result string :=
  let tourism_data := default empty_tourism (tourism context) in
  match location intent with
  | Some loc =>
      if truthy loc then
        let peak_times := default [] (peak_times tourism_data) in
        let location_key :=
          py_next (λ key, str_in (lower loc) (lower key)) (dict_keys peak_times) in
        match location_key with
        | Some key =>
            if truthy key then
              peak_time ← dict_getitem key peak_times;
              Return ("At " +:+ loc +:+ ", expect heavy crowds during " +:+ peak_time +:+ ". For a more peaceful experience, visit between 7-10 am for fewer crowds and better lighting for photography, or after 8 pm for evening ambiance.")
            else tourism_by_keywords intent tourism_data
        | None => tourism_by_keywords intent tourism_data
        end
      else tourism_by_keywords intent tourism_data
  | None => tourism_by_keywords intent tourism_data
  end.

(** [ResponseGenerator._generate_culture_response]. *)
Definition _generate_culture_response (intent : QueryIntent) (context : Context)
    : result string :=
  let culture_data := default empty_culture (culture context) in
  let etiquette := default [] (etiquette culture_data) in
  if truthy etiquette then
    Return ("Cultural etiquette in Udaipur: " +:+ join ". " etiquette +:+ ". When visiting temples and palaces, dress modestly and remove shoes where required. Use traditional greetings like 'Khamma Ghani' to show respect for local customs.")
  else
    Return "Udaipur has rich cultural traditions. Show respect by dressing modestly near temples, using traditional greetings like 'Khamma Ghani', and being mindful of local customs and religious practices.".

(** [ResponseGenerator._generate_general_response]. *)
Definition _generate_general_response (intent : QueryIntent) (context : Context)
    : result string :=
  Return "I can help you with information about Udaipur's local language and greetings, authentic food recommendations, tourist timing and transportation, or cultural etiquette. Try asking about 'Khamma Ghani', 'best food in Surajpole', 'when to visit City Palace', or 'temple etiquette'.".

(** ** Dispatch *)

(** The [if]/[elif] chain of [generate_response] on the category name. *)
Definition dispatch (intent : QueryIntent) (context : Context) : result string :=
  if bool_decide (category intent = "language") then
    _generate_language_response intent context
  else if bool_decide (category intent = "food") then
    _generate_food_response intent context
  else if bool_decide (category intent = "tourism") then
    _generate_tourism_response intent context
  else if bool_decide (category intent = "culture") then
    _generate_culture_response intent context
  else
    _generate_general_response intent context.

(** [ResponseGenerator.generate_response]. *)
Definition generate_response (intent : QueryIntent) (context : Context) : result string :=
  try_except (dispatch intent context)
    (λ e, Return "I'm sorry, I encountered an issue generating a response. Please try rephrasing your question.").

(** The strategy bound to each variant of [Category]. *)
Definition strategy (c : Category) : QueryIntent → Context → result string :=
  match c with
  | Language => _generate_language_response
  | Food => _generate_food_response
  | Tourism => _generate_tourism_response
  | Culture => _generate_culture_response
  | General => _generate_general_response
  end.

(** The variant a category name stands for; any other name is served by
    the general strategy. *)
Definition category_of_name (name : string) : Category :=
  if bool_decide (name = "language") then Language
  else if bool_decide (name = "food") then Food
  else if bool_decide (name = "tourism") then Tourism
  else if bool_decide (name = "culture") then Culture
  else General.

(** * Laws *)

(** ** Shape of a reply: visible characters at both ends *)

Definition ends_ok (s : string) : Prop := head_ok s = true ∧ last_ok s = true.

Lemma ends_ok_strip s : ends_ok s → truthy s = true ∧ strip s = s.
Proof. intros [Hh Hl]. split; [by apply head_ok_truthy | by apply strip_fixed]. Qed.

(** A literal, or a template that starts and ends with a literal. *)
Ltac solve_ends_ok :=
  split; [first [reflexivity | apply head_ok_app; reflexivity]
         | repeat (first [reflexivity | apply last_ok_app])].

(** Reduce a goal about a returned string to the string itself. *)
Ltac returned :=
  repeat match goal with
  | |- context [if ?b then _ else _] => destruct b
  | |- context [match ?o with Some _ => _ | None => _ end] => destruct o
  end;
  intros r [= <-].

Lemma language_response_ends intent context r :
  _generate_language_response intent context = Return r → ends_ok r.
Proof. unfold _generate_language_response. revert r. returned; solve_ends_ok. Qed.

Lemma food_response_ends intent context r :
  _generate_food_response intent context = Return r → ends_ok r.
Proof. unfold _generate_food_response. revert r. returned; solve_ends_ok. Qed.

Lemma tourism_by_keywords_ends intent tourism_data r :
  tourism_by_keywords intent tourism_data = Return r → ends_ok r.
Proof. unfold tourism_by_keywords. revert r. returned; solve_ends_ok. Qed.

Lemma culture_response_ends intent context r :
  _generate_culture_response intent context = Return r → ends_ok r.
Proof. unfold _generate_culture_response. revert r. returned; solve_ends_ok. Qed.

Lemma general_response_ends intent context r :
  _generate_general_response intent context = Return r → ends_ok r.
Proof. intros [= <-]. solve_ends_ok. Qed.

(** ** The location block of the tourism strategy *)

Section tourism.
Context (intent : QueryIntent) (context : Context).
Let tourism_data := default empty_tourism (tourism context).
Let table := default [] (peak_times tourism_data).

(** A key picked by [next] is a key of the dict: the subscript finds it. *)
Lemma tourism_key_found loc key :
  py_next (λ key, str_in (lower loc) (lower key)) (dict_keys table) = Some key →
  ∃ peak_time, dict_getitem key table = Return peak_time.
Proof. intros [Hin _]%find_Some_elem_of. by apply dict_getitem_key. Qed.

(** The key picked for a non-empty location is not empty, so the test
    [if location_key:] only separates a match from [None]. *)
Lemma tourism_key_truthy loc key :
  truthy loc = true →
  py_next (λ key, str_in (lower loc) (lower key)) (dict_keys table) = Some key →
  truthy key = true.
Proof.
  intros Hloc [_ Hsub]%find_Some_elem_of.
  destruct key; [|done]. destruct loc; [done|]. simpl in Hsub. discriminate.
Qed.

(** Without a usable location only the keywords decide. *)
Lemma tourism_no_location :
  truthy (location intent) = false →
  _generate_tourism_response intent context = tourism_by_keywords intent tourism_data.
Proof.
  unfold _generate_tourism_response. destruct (location intent) as [loc|]; [|done].
  rewrite truthy_Some. by intros ->.
Qed.

(** With a location that matches no key of [peak_times] as well. *)
Lemma tourism_no_match loc :
  location intent = Some loc →
  py_next (λ key, str_in (lower loc) (lower key)) (dict_keys table) = None →
  _generate_tourism_response intent context = tourism_by_keywords intent tourism_data.
Proof.
  intros Hloc Hnext. unfold _generate_tourism_response. rewrite Hloc.
  fold tourism_data table. rewrite Hnext. by destruct (truthy loc).
Qed.

(** With a location that matches, the reply is the crowd sentence. *)
Lemma tourism_match loc key :
  location intent = Some loc → truthy loc = true →
  py_next (λ key, str_in (lower loc) (lower key)) (dict_keys table) = Some key →
  ∃ peak_time,
    dict_get key table = Some peak_time ∧
    _generate_tourism_response intent context = Return ("At " +:+ loc +:+ ", expect heavy crowds during " +:+ peak_time +:+ ". For a more peaceful experience, visit between 7-10 am for fewer crowds and better lighting for photography, or after 8 pm for evening ambiance.").
Proof.
  intros Hloc Hloc' Hnext. unfold _generate_tourism_response. rewrite Hloc, Hloc'.
  fold tourism_data table. rewrite Hnext, (tourism_key_truthy loc key Hloc' Hnext).
  destruct (tourism_key_found loc key Hnext) as [peak_time Hget].
  exists peak_time. rewrite Hget. split; [|done].
  unfold dict_getitem in Hget. by destruct (dict_get key table); simplify_eq.
Qed.

Lemma tourism_response_returns :
  ∃ r, _generate_tourism_response intent context = Return r ∧ ends_ok r.
Proof.
  assert (∃ r, tourism_by_keywords intent tourism_data = Return r ∧ ends_ok r) as Hkw.
  { destruct (tourism_by_keywords intent tourism_data) as [r|e] eqn:E.
    - exists r. split; [done | by eapply tourism_by_keywords_ends].
    - unfold tourism_by_keywords in E. by repeat case_match. }
  destruct (location intent) as [loc|] eqn:Hloc; [|by rewrite tourism_no_location by by rewrite Hloc].
  destruct (truthy loc) eqn:Hloc'; [|by rewrite tourism_no_location by by rewrite Hloc].
  destruct (py_next (λ key, str_in (lower loc) (lower key)) (dict_keys table))
    as [key|] eqn:Hnext; [|by rewrite (tourism_no_match loc)].
  destruct (tourism_match loc key Hloc Hloc' Hnext) as (peak_time & _ & ->).
  eexists. split; [done | solve_ends_ok].
Qed.

End tourism.

(** ** No strategy raises *)

Lemma dispatch_strategy intent context :
  dispatch intent context = strategy (category_of_name (category intent)) intent context.
Proof. unfold dispatch, category_of_name. by repeat case_bool_decide. Qed.

Lemma category_of_name_name c : category_of_name (category_name c) = c.
Proof. by destruct c. Qed.

Lemma strategy_returns c intent context :
  ∃ r, strategy c intent context = Return r ∧ ends_ok r.
Proof.
  destruct c; simpl; [| |apply tourism_response_returns| |].
  - destruct (_generate_language_response intent context) as [r|e] eqn:E.
    + exists r. split; [done | by eapply language_response_ends].
    + unfold _generate_language_response in E. by repeat case_match.
  - destruct (_generate_food_response intent context) as [r|e] eqn:E.
    + exists r. split; [done | by eapply food_response_ends].
    + unfold _generate_food_response in E. by repeat case_match.
  - destruct (_generate_culture_response intent context) as [r|e] eqn:E.
    + exists r. split; [done | by eapply culture_response_ends].
    + unfold _generate_culture_response in E. by repeat case_match.
  - eexists. split; [done | solve_ends_ok].
Qed.

(** For an intent that [process_query] returned over the four categories,
    the chain of string comparisons runs the strategy bound to the
    classification of the lowered question. *)
Lemma dispatch_classify self query intent context :
  dict_keys (category_keywords self)
    = category_name <$> [Language; Food; Tourism; Culture] →
  process_query self query = Return intent →
  dispatch intent context = strategy (classify self (lower query)) intent context.
Proof.
  intros Hkeys (Hcat & _)%process_query_Return.
  rewrite determine_category_classify in Hcat by done.
  injection Hcat as Hcat. by rewrite dispatch_strategy, <-Hcat, category_of_name_name.
Qed.

Lemma dispatch_returns intent context :
  ∃ r, dispatch intent context = Return r ∧ ends_ok r.
Proof. rewrite dispatch_strategy. apply strategy_returns. Qed.

(** The handler of [generate_response] is dead code. *)
Lemma generate_response_dispatch intent context :
  generate_response intent context = dispatch intent context.
Proof.
  destruct (dispatch_returns intent context) as (r & Hr & _).
  unfold generate_response. by rewrite Hr.
Qed.

Lemma generate_response_returns intent context :
  ∃ r, generate_response intent context = Return r ∧ ends_ok r.
Proof.
  destruct (dispatch_returns intent context) as (r & Hr & Hends).
  exists r. unfold generate_response. by rewrite Hr.
Qed.

(** ** The behaviour of class [ResponseGenerator] *)

(** Claim C9. No fallback: for every intent and every context the selected
    strategy returns a reply, so [generate_response] returns that reply and
    the sentence of its [except] clause is never produced. *)
Theorem generate_response_never_falls_back intent context :
  ∃ r, dispatch intent context = Return r ∧
       generate_response intent context = Return r.
Proof.
  destruct (dispatch_returns intent context) as (r & Hr & _).
  exists r. unfold generate_response. by rewrite Hr.
Qed.

(** Claim C3. Shape of the reply: whatever the intent and the context hold,
    a reply of [generate_response] is not empty and is its own [strip]: it
    starts and ends with a visible character. *)
Theorem generate_response_nonempty_trimmed intent context r :
  generate_response intent context = Return r →
  truthy r = true ∧ strip r = r.
Proof.
  intros Hr. destruct (generate_response_returns intent context) as (r' & Hr' & Hends).
  apply ends_ok_strip. congruence.
Qed.

Lemma generate_response_nonempty_trimmed_witness :
  truthy ("I can help you with information about Udaipur's local language and greetings, authentic food recommendations, tourist timing and transportation, or cultural etiquette. Try asking about 'Khamma Ghani', 'best food in Surajpole', 'when to visit City Palace', or 'temple etiquette'.") = true ∧
  strip ("I can help you with information about Udaipur's local language and greetings, authentic food recommendations, tourist timing and transportation, or cultural etiquette. Try asking about 'Khamma Ghani', 'best food in Surajpole', 'when to visit City Palace', or 'temple etiquette'.") = "I can help you with information about Udaipur's local language and greetings, authentic food recommendations, tourist timing and transportation, or cultural etiquette. Try asking about 'Khamma Ghani', 'best food in Surajpole', 'when to visit City Palace', or 'temple etiquette'.".
Proof.
  apply (generate_response_nonempty_trimmed
           {| category := "general"; keywords := ["asdkj"; "qwop"];
              location := None; time_context := None |}
           empty_context).
  reflexivity.
Defined.

(** Claim C7. Priority of the location: when the intent names a place and
    [key] is the first key of [peak_times] that contains it (letter case
    ignored), the tourism strategy answers with the crowd sentence for the
    window filed under [key], whatever the keywords are; the subscript does
    not raise and the truth test of the key cannot fail. *)
Theorem tourism_location_priority intent context loc d1 key peak_time d2 :
  location intent = Some loc → truthy loc = true →
  default [] (peak_times (default empty_tourism (tourism context)))
    = d1 ++ (key, peak_time) :: d2 →
  lower loc ∈ₛ lower key →
  (∀ k, k ∈ dict_keys d1 → lower loc ∉ₛ lower k) →
  _generate_tourism_response intent context = Return ("At " +:+ loc +:+ ", expect heavy crowds during " +:+ peak_time +:+ ". For a more peaceful experience, visit between 7-10 am for fewer crowds and better lighting for photography, or after 8 pm for evening ambiance.").
Proof.
  intros Hloc Htruthy Htable Hsub Hfirst.
  assert (py_next (λ key, str_in (lower loc) (lower key))
            (dict_keys (default [] (peak_times (default empty_tourism (tourism context)))))
          = Some key) as Hnext.
  { rewrite Htable. apply find_first. exists (dict_keys d1), (dict_keys d2).
    split_and!; [|done|by apply find_None_iff].
    unfold dict_keys. by rewrite fmap_app. }
  destruct (tourism_match intent context loc key Hloc Htruthy Hnext) as (pt & Hget & ->).
  rewrite Htable, dict_get_app_r, dict_get_cons, bool_decide_true in Hget by
    (try done; intros Hin; specialize (Hfirst _ Hin); congruence).
  by injection Hget as ->.
Qed.

Lemma tourism_location_priority_witness :
  _generate_tourism_response
    {| category := "tourism"; keywords := ["transport"; "vehicle"];
       location := Some "City Palace"; time_context := None |}
    (_get_default_context ContextLoader_init)
  = Return "At City Palace, expect heavy crowds during 4 PM - 9 PM. For a more peaceful experience, visit between 7-10 am for fewer crowds and better lighting for photography, or after 8 pm for evening ambiance.".
Proof.
  apply (tourism_location_priority
           {| category := "tourism"; keywords := ["transport"; "vehicle"];
              location := Some "City Palace"; time_context := None |}
           (_get_default_context ContextLoader_init)
           "City Palace" [] "City Palace" "4 PM - 9 PM" [("Lake Pichola", "4 PM - 9 PM")]).
  - reflexivity.
  - reflexivity.
  - reflexivity.
  - reflexivity.
  - intros k Hk. by apply elem_of_nil in Hk.
Defined.

(** Claim C11. The keyword tests see the question: for an intent that
    [process_query] returned, a keyword contains [khamma] exactly when the
    lowered question does, and a transport or season word occurs in the
    keywords joined by spaces exactly when it occurs in the lowered question.
    Tokenising and re-joining neither hides nor creates a match. *)
Theorem keyword_tests_see_the_query self query intent :
  process_query self query = Return intent →
  py_any (λ keyword, str_in "khamma" (lower keyword)) (keywords intent)
    = str_in "khamma" (lower query) ∧
  (∀ word, word ∈ transport_words ++ season_words →
     str_in word (join " " (keywords intent)) = str_in word (lower query)).
Proof.
  intros (_ & Hk & _)%process_query_Return. rewrite Hk. split.
  - rewrite (str_in_split "khamma") by done. apply existsb_ext_in.
    intros w Hw. pose proof (split_lower_tokens query) as Hall.
    rewrite Forall_forall in Hall. destruct (Hall w Hw) as (_ & _ & Hlow).
    by rewrite Hlow.
  - intros word Hword. apply str_in_join_split; simpl in Hword; by elem_cases Hword.
Qed.

Lemma keyword_tests_see_the_query_witness :
  py_any (λ keyword, str_in "khamma" (lower keyword)) ["what"; "does"; "khamma"; "ghani"; "mean?"]
    = str_in "khamma" (lower "What does Khamma Ghani mean?").
Proof.
  exact (proj1 (keyword_tests_see_the_query QueryProcessor_init
                  "What does Khamma Ghani mean?"
                  {| category := "language";
                     keywords := ["what"; "does"; "khamma"; "ghani"; "mean?"];
                     location := None; time_context := None |} eq_refl)).
Defined.

(** The reply does not depend on the field [time_context] of the
    intent. *)
Lemma generate_response_ignores_time_context intent context t :
  generate_response
    {| category := category intent; keywords := keywords intent;
       location := location intent; time_context := t |} context
  = generate_response intent context.
Proof. by destruct intent. Qed.

(** Claim C30. The time context is extracted and never read: the field of a
    returned intent is the first word of morning, evening, afternoon,
    night, peak, busy, crowd that occurs in the lowered question, and is
    absent exactly when none occurs; and the reply to the intent is the
    reply to the same intent with any other time context, so no question
    is answered differently for naming a time of day. *)
Theorem time_context_extracted_and_unused self query intent context t :
  process_query self query = Return intent →
  (∀ w, time_context intent = Some w ↔
     ∃ l1 l2, time_keywords = l1 ++ w :: l2 ∧ w ∈ₛ lower query ∧
              ∀ y, y ∈ l1 → y ∉ₛ lower query) ∧
  (time_context intent = None ↔ ∀ w, w ∈ time_keywords → w ∉ₛ lower query) ∧
  generate_response
    {| category := category intent; keywords := keywords intent;
       location := location intent; time_context := t |} context
  = generate_response intent context.
Proof.
  intros (_ & _ & _ & ->)%process_query_Return.
  destruct (extract_time_context_first self (lower query)) as [Hsome Hnone].
  split_and!; [done..|]. apply generate_response_ignores_time_context.
Qed.

Lemma time_context_extracted_and_unused_witness :
  (time_context
     {| category := "tourism"; keywords := ["is"; "city"; "palace"; "busy"; "in"; "the"; "evening?"];
        location := Some "City Palace"; time_context := Some "evening" |} = None ↔
   ∀ w, w ∈ time_keywords → w ∉ₛ lower "Is City Palace BUSY in the evening?") ∧
  generate_response
    {| category := "tourism"; keywords := ["is"; "city"; "palace"; "busy"; "in"; "the"; "evening?"];
       location := Some "City Palace"; time_context := Some "busy" |}
    (_get_default_context ContextLoader_init)
  = generate_response
      {| category := "tourism"; keywords := ["is"; "city"; "palace"; "busy"; "in"; "the"; "evening?"];
         location := Some "City Palace"; time_context := Some "evening" |}
      (_get_default_context ContextLoader_init).
Proof.
  exact (proj2 (time_context_extracted_and_unused QueryProcessor_init
                  "Is City Palace BUSY in the evening?"
                  {| category := "tourism";
                     keywords := ["is"; "city"; "palace"; "busy"; "in"; "the"; "evening?"];
                     location := Some "City Palace"; time_context := Some "evening" |}
                  (_get_default_context ContextLoader_init) (Some "busy") eq_refl)).
Defined.

(** Claim C37. Missing phrase: when a keyword contains [khamma] and the
    context files no meaning under [Khamma Ghani], the language strategy
    embeds the empty string, and the reply reads [is a . It's pronounced]. *)
Theorem language_missing_phrase intent context :
  py_any (λ keyword, str_in "khamma" (lower keyword)) (keywords intent) = true →
  dict_get "Khamma Ghani"
    (default [] (phrases (default empty_language (language context)))) = None →
  ∃ r, _generate_language_response intent context = Return r ∧
       startswith "'Khamma Ghani' is a . It's pronounced" r = true.
Proof.
  intros Hk Hget. unfold _generate_language_response, dict_get_default.
  rewrite Hk, Hget. eexists. split; [done|]. reflexivity.
Qed.

Lemma language_missing_phrase_witness :
  ∃ r, _generate_language_response
         {| category := "language"; keywords := ["khamma"];
            location := None; time_context := None |} empty_context = Return r ∧
       startswith "'Khamma Ghani' is a . It's pronounced" r = true.
Proof.
  exact (language_missing_phrase
           {| category := "language"; keywords := ["khamma"];
              location := None; time_context := None |} empty_context eq_refl eq_refl).
Defined.

(** Missing peak times: in a context without [peak_times] the
    tourism strategy falls through to the keyword branches for every intent,
    with a location or without, and does not raise. *)
Theorem tourism_without_peak_times intent context :
  peak_times (default empty_tourism (tourism context)) = None →
  _generate_tourism_response intent context
  = tourism_by_keywords intent (default empty_tourism (tourism context)) ∧
  is_Return (_generate_tourism_response intent context) = true.
Proof.
  intros Hnone.
  assert (_generate_tourism_response intent context
          = tourism_by_keywords intent (default empty_tourism (tourism context))) as Heq.
  { destruct (location intent) as [loc|] eqn:Hloc.
    - apply (tourism_no_match intent context loc Hloc). by rewrite Hnone.
    - apply tourism_no_location. by rewrite Hloc. }
  split; [done|].
  destruct (tourism_response_returns intent context) as (r & -> & _). done.
Qed.

Lemma tourism_without_peak_times_witness :
  _generate_tourism_response
    {| category := "tourism"; keywords := ["visit"; "city"; "palace"];
       location := Some "City Palace"; time_context := None |} empty_context
  = tourism_by_keywords
      {| category := "tourism"; keywords := ["visit"; "city"; "palace"];
         location := Some "City Palace"; time_context := None |} empty_tourism.
Proof.
  exact (proj1 (tourism_without_peak_times
                  {| category := "tourism"; keywords := ["visit"; "city"; "palace"];
                     location := Some "City Palace"; time_context := None |}
                  empty_context eq_refl)).
Defined.

(** Food by location: when the intent names a place that occurs,
    letter case ignored, in one of the food areas of the context, the food
    strategy answers with the sentence for that place; the dishes of the
    context are not consulted. *)
Theorem food_location_specific intent context loc area :
  location intent = Some loc → truthy loc = true →
  area ∈ default [] (areas (default empty_food (food context))) →
  lower loc ∈ₛ lower area →
  _generate_food_response intent context = Return ("For authentic food in " +:+ loc +:+ ", you'll find excellent local specialties. Try Dal Baati Churma (traditional Rajasthani dish), Kachori (spiced pastry), and Mirchi Vada (spicy fritters). " +:+ loc +:+ " is known for its street food and traditional eateries.").
Proof.
  intros Hloc Htruthy Harea Hsub. unfold _generate_food_response.
  rewrite Hloc, Htruthy.
  assert (py_any (λ area, str_in (lower loc) (lower area))
            (default [] (areas (default empty_food (food context)))) = true) as ->; [|done].
  apply existsb_elem_of. by exists area.
Qed.

Lemma food_location_specific_witness :
  _generate_food_response
    {| category := "food"; keywords := ["best"; "food"; "in"; "surajpole"; "area?"];
       location := Some "Surajpole"; time_context := None |}
    (_get_default_context ContextLoader_init)
  = Return "For authentic food in Surajpole, you'll find excellent local specialties. Try Dal Baati Churma (traditional Rajasthani dish), Kachori (spiced pastry), and Mirchi Vada (spicy fritters). Surajpole is known for its street food and traditional eateries.".
Proof.
  apply (food_location_specific _ (_get_default_context ContextLoader_init) "Surajpole" "Surajpole").
  - reflexivity.
  - reflexivity.
  - left.
  - reflexivity.
Defined.

