(* ===== verification/Replies.v ===== *)
(** * Replies: the decision table of the response composer

    Section 4.2 of the specification describes the composer as a table: the
    category selects a strategy, and inside a strategy the first condition
    that holds, in a fixed order, selects a sentence.  This file states the
    table on its own terms.  A [reply] names a sentence and what is filled
    into it, [render] is the text of a reply, and [composes intent context]
    is the relation between an intent, a context and the reply the table
    selects, with one rule for each row and the conditions written as
    propositions over what the context holds (section 3 of the
    specification).  The laws show that [generate_response] of
    [src/streamlit_standalone.py] computes the reply of the table, that the
    table selects at most one reply, and that it selects one whenever the
    context holds the three texts that the sentences embed. *)

From S2P Require Import Prelude PyString PyDict Context QueryProcessor ResponseGenerator.

Set Warnings "-clear-no-such-hyp".

(** ** Replies and their text *)

(** The thirteen sentences of the composer, with their parameters. *)
Inductive reply : Type :=
| KhammaMeaning (meaning : string)
| GreetingList (greetings : list string)
| GreetingGeneric
| FoodAt (place : string)
| DishList (dishes : list string)
| FoodGeneric
| CrowdAt (place window : string)
| TransportNote (note : string)
| SeasonNote (season : string)
| TourismGeneric
| EtiquetteList (etiquette : list string)
| CultureGeneric
| Help.

#[export] Instance reply_eq_dec : EqDecision reply.
Proof. solve_decision. Defined.

(** The strategy a reply belongs to. *)
Definition reply_category (r : reply) : Category :=
  match r with
  | KhammaMeaning _ | GreetingList _ | GreetingGeneric => Language
  | FoodAt _ | DishList _ | FoodGeneric => Food
  | CrowdAt _ _ | TransportNote _ | SeasonNote _ | TourismGeneric => Tourism
  | EtiquetteList _ | CultureGeneric => Culture
  | Help => General
  end.

(** The text of a reply. *)
Definition render (r : reply) : string :=
  match r with
  | KhammaMeaning meaning =>
      "'Khamma Ghani' is a " +:+ meaning +:+ ". It's pronounced 'KHAM-ma GHA-ni' and is the most respectful way to greet someone in Udaipur. You can use it any time of day, and locals will appreciate your effort to use their traditional greeting."
  | GreetingList greetings =>
      "Common local greetings in Udaipur include: " +:+ join ", " greetings +:+ ". 'Khamma Ghani' is the most traditional and respectful greeting, while 'Ram Ram sa' is more casual. These greetings show respect for local culture."
  | GreetingGeneric =>
      "Udaipur has rich linguistic traditions. The most common respectful greeting is 'Khamma Ghani', which shows cultural awareness and respect for local customs."
  | FoodAt place =>
      "For authentic food in " +:+ place +:+ ", you'll find excellent local specialties. Try Dal Baati Churma (traditional Rajasthani dish), Kachori (spiced pastry), and Mirchi Vada (spicy fritters). " +:+ place +:+ " is known for its street food and traditional eateries."
  | DishList dishes =>
      "Must-try authentic Udaipur dishes include: " +:+ join ", " dishes +:+ ". Dal Baati Churma is the signature dish - lentils with baked wheat balls and sweet crumble. Visit areas like Surajpole and Hathipole for the best street food experience."
  | FoodGeneric =>
      "Udaipur offers amazing local cuisine! Try Dal Baati Churma, Kachori, and local sweets. The old city markets have the most authentic food experiences."
  | CrowdAt place window =>
      "At " +:+ place +:+ ", expect heavy crowds during " +:+ window +:+ ". For a more peaceful experience, visit between 7-10 am for fewer crowds and better lighting for photography, or after 8 pm for evening ambiance."
  | TransportNote note =>
      "For getting around heritage areas, " +:+ lower note +:+ ". Narrow roads in the old city can cause congestion for larger vehicles. Parking is limited near major attractions, so two-wheelers or walking is often more convenient."
  | SeasonNote season =>
      "Peak tourist season in Udaipur is " +:+ season +:+ ". During " +:+ season +:+ ": Pleasant temperatures (15-25¬∞C) ideal for sightseeing. Expect Maximum tourist influx - book accommodations and popular restaurants in advance and Peak pricing for hotels, tours, and activities. All outdoor activities available, boat rides at lakes are most popular. Pro tip: Early morning visits (7-10 AM) are essential to avoid crowds. Evening boat rides should be booked in advance."
  | TourismGeneric =>
      "Tourist congestion in Udaipur is heaviest from 4 PM to 9 PM at major attractions like City Palace and Lake Pichola. Early morning (7-10 AM) and late evening (after 8 PM) are the best times for peaceful visits. Peak season from October to March sees significantly higher crowds throughout the day."
  | EtiquetteList etiquette =>
      "Cultural etiquette in Udaipur: " +:+ join ". " etiquette +:+ ". When visiting temples and palaces, dress modestly and remove shoes where required. Use traditional greetings like 'Khamma Ghani' to show respect for local customs."
  | CultureGeneric =>
      "Udaipur has rich cultural traditions. Show respect by dressing modestly near temples, using traditional greetings like 'Khamma Ghani', and being mindful of local customs and religious practices."
  | Help =>
      "I can help you with information about Udaipur's local language and greetings, authentic food recommendations, tourist timing and transportation, or cultural etiquette. Try asking about 'Khamma Ghani', 'best food in Surajpole', 'when to visit City Palace', or 'temple etiquette'."
  end.

(** What a reply fills into its sentence. *)
Definition embedded (r : reply) : list string :=
  match r with
  | KhammaMeaning meaning => [meaning]
  | GreetingList greetings => greetings
  | FoodAt place => [place]
  | DishList dishes => dishes
  | CrowdAt place window => [place; window]
  | TransportNote note => [lower note]
  | SeasonNote season => [season]
  | EtiquetteList etiquette => etiquette
  | GreetingGeneric | FoodGeneric | TourismGeneric | CultureGeneric | Help => []
  end.

(** ** What the composer reads from the context *)

Section context.
Context (context : Context).

Definition greetings_of : list string :=
  default [] (greetings (default empty_language (language context))).
Definition meaning_of (phrase : string) : option string :=
  dict_get phrase (default [] (phrases (default empty_language (language context)))).
Definition dishes_of : list string :=
  default [] (dishes (default empty_food (food context))).
Definition areas_of : list string :=
  default [] (areas (default empty_food (food context))).
Definition peak_times_of : dict string :=
  default [] (peak_times (default empty_tourism (tourism context))).
Definition transport_note_of : option string :=
  dict_get "heritage_areas"
    (default [] (transportation (default empty_tourism (tourism context)))).
Definition season_of : option string :=
  peak_season (default empty_tourism (tourism context)).
Definition etiquette_of : list string :=
  default [] (etiquette (default empty_culture (culture context))).

(** The texts that the sentences embed are present. *)
Definition detailed : Prop :=
  is_Some (meaning_of "Khamma Ghani") ∧ is_Some transport_note_of ∧ is_Some season_of.

End context.

(** ** The conditions of the table *)

Section conditions.
Context (intent : QueryIntent) (context : Context).

(** Some keyword contains the marker. *)
Definition mentions (marker : string) : Prop :=
  ∃ keyword, keyword ∈ keywords intent ∧ marker ∈ₛ lower keyword.

(** The keywords, joined by single spaces, contain one of the words. *)
Definition asks_about (words : list string) : Prop :=
  ∃ word, word ∈ words ∧ word ∈ₛ join " " (keywords intent).

(** The intent names a place. *)
Definition names (place : string) : Prop :=
  location intent = Some place ∧ truthy place = true.

(** The place is one of the food areas, or part of the name of one. *)
Definition food_area (place : string) : Prop :=
  ∃ area, area ∈ areas_of context ∧ lower place ∈ₛ lower area.

(** [window] is the peak window of the first entry of [peak_times] whose
    name contains the place. *)
Definition crowd_window (place window : string) : Prop :=
  ∃ before key after,
    peak_times_of context = before ++ (key, window) :: after ∧
    lower place ∈ₛ lower key ∧
    ∀ k, k ∈ dict_keys before → lower place ∉ₛ lower k.

(** No entry of [peak_times] is about the place the intent names. *)
Definition no_crowd_window : Prop :=
  ∀ place window, names place → ¬ crowd_window place window.

(** ** The table *)

(** One rule for each row of the table, in the order of section 4.2. *)
Inductive composes : reply → Prop :=
| compose_khamma meaning :
    category_of_name (category intent) = Language →
    mentions "khamma" → meaning_of context "Khamma Ghani" = Some meaning →
    composes (KhammaMeaning meaning)
| compose_greetings :
    category_of_name (category intent) = Language →
    ¬ mentions "khamma" → greetings_of context ≠ [] →
    composes (GreetingList (greetings_of context))
| compose_greeting_generic :
    category_of_name (category intent) = Language →
    ¬ mentions "khamma" → greetings_of context = [] →
    composes GreetingGeneric
| compose_food_at place :
    category_of_name (category intent) = Food →
    names place → food_area place →
    composes (FoodAt place)
| compose_dishes :
    category_of_name (category intent) = Food →
    (∀ place, names place → ¬ food_area place) → dishes_of context ≠ [] →
    composes (DishList (dishes_of context))
| compose_food_generic :
    category_of_name (category intent) = Food →
    (∀ place, names place → ¬ food_area place) → dishes_of context = [] →
    composes FoodGeneric
| compose_crowd place window :
    category_of_name (category intent) = Tourism →
    names place → crowd_window place window →
    composes (CrowdAt place window)
| compose_transport note :
    category_of_name (category intent) = Tourism →
    no_crowd_window → asks_about transport_words →
    transport_note_of context = Some note →
    composes (TransportNote note)
| compose_season season :
    category_of_name (category intent) = Tourism →
    no_crowd_window → ¬ asks_about transport_words → asks_about season_words →
    season_of context = Some season →
    composes (SeasonNote season)
| compose_tourism_generic :
    category_of_name (category intent) = Tourism →
    no_crowd_window → ¬ asks_about transport_words → ¬ asks_about season_words →
    composes TourismGeneric
| compose_etiquette :
    category_of_name (category intent) = Culture →
    etiquette_of context ≠ [] →
    composes (EtiquetteList (etiquette_of context))
| compose_culture_generic :
    category_of_name (category intent) = Culture →
    etiquette_of context = [] →
    composes CultureGeneric
| compose_help :
    category_of_name (category intent) = General →
    composes Help.

End conditions.

(** * Laws *)

(** ** The tests of the code decide the conditions of the table *)

Section tests.
Context (intent : QueryIntent) (context : Context).

Lemma mentions_any marker :
  py_any (λ keyword, str_in marker (lower keyword)) (keywords intent) = true
  ↔ mentions intent marker.
Proof. unfold py_any, mentions. by rewrite existsb_elem_of. Qed.

Lemma asks_about_any words :
  py_any (λ word, str_in word (join " " (keywords intent))) words = true
  ↔ asks_about intent words.
Proof. unfold py_any, asks_about. by rewrite existsb_elem_of. Qed.

Lemma food_area_any place :
  py_any (λ area, str_in (lower place) (lower area)) (areas_of context) = true
  ↔ food_area context place.
Proof. unfold py_any, food_area. by rewrite existsb_elem_of. Qed.

(** The key that [next] picks and the subscript with it find the window
    of the table, and nothing else. *)
Lemma crowd_window_next place window :
  crowd_window context place window ↔
  ∃ key,
    py_next (λ key, str_in (lower place) (lower key)) (dict_keys (peak_times_of context))
      = Some key ∧
    dict_get key (peak_times_of context) = Some window.
Proof.
  unfold crowd_window. split.
  - intros (before & key & after & Hd & Hkey & Hfirst). exists key. split.
    + apply py_next_keys. by exists before, window, after.
    + rewrite Hd. by apply (dict_get_first (λ key, str_in (lower place) (lower key))).
  - intros (key & (before & v & after & Hd & Hkey & Hfirst)%py_next_keys & Hget).
    rewrite Hd, (dict_get_first (λ key, str_in (lower place) (lower key))) in Hget by done.
    injection Hget as <-. by exists before, key, after.
Qed.

#[export] Instance mentions_dec marker : Decision (mentions intent marker).
Proof.
  refine (cast_if (decide
    (py_any (λ keyword, str_in marker (lower keyword)) (keywords intent) = true)));
    by rewrite <-mentions_any.
Defined.

#[export] Instance asks_about_dec words : Decision (asks_about intent words).
Proof.
  refine (cast_if (decide
    (py_any (λ word, str_in word (join " " (keywords intent))) words = true)));
    by rewrite <-asks_about_any.
Defined.

#[export] Instance food_area_dec place : Decision (food_area context place).
Proof.
  refine (cast_if (decide
    (py_any (λ area, str_in (lower place) (lower area)) (areas_of context) = true)));
    by rewrite <-food_area_any.
Defined.

End tests.

(** ** The tourism strategy reads the table *)

Section tourism_rows.
Context (intent : QueryIntent) (context : Context).

Lemma tourism_crowd place window :
  names intent place → crowd_window context place window →
  _generate_tourism_response intent context = Return (render (CrowdAt place window)).
Proof.
  intros [Hloc Hplace] (key & Hnext & Hget)%crowd_window_next.
  destruct (tourism_match intent context place key Hloc Hplace Hnext) as (w & Hw & ->).
  unfold peak_times_of in Hget. by simplify_eq.
Qed.

Lemma tourism_keywords_only :
  no_crowd_window intent context →
  _generate_tourism_response intent context
  = tourism_by_keywords intent (default empty_tourism (tourism context)).
Proof.
  intros Hno. destruct (location intent) as [place|] eqn:Hloc;
    [|by rewrite tourism_no_location by by rewrite Hloc].
  destruct (truthy place) eqn:Hplace;
    [|by rewrite tourism_no_location by by rewrite Hloc].
  destruct (py_next (λ key, str_in (lower place) (lower key))
              (dict_keys (peak_times_of context))) as [key|] eqn:Hnext;
    [|by apply (tourism_no_match _ _ place)].
  destruct (tourism_match intent context place key Hloc Hplace Hnext) as (w & Hw & _).
  destruct (Hno place w); [done|]. apply crowd_window_next. by exists key.
Qed.

(** Whether some entry of [peak_times] is about the place of the intent
    can be decided. *)
Lemma crowd_window_cases :
  (∃ place window, names intent place ∧ crowd_window context place window)
  ∨ no_crowd_window intent context.
Proof.
  destruct (location intent) as [place|] eqn:Hloc;
    [|right; intros ?? [? _]; congruence].
  destruct (truthy place) eqn:Hplace;
    [|right; intros ?? [? ?]; congruence].
  destruct (py_next (λ key, str_in (lower place) (lower key))
              (dict_keys (peak_times_of context))) as [key|] eqn:Hnext.
  - destruct (tourism_match intent context place key Hloc Hplace Hnext) as (w & Hw & _).
    left. exists place, w. split; [done|]. apply crowd_window_next. by exists key.
  - right. intros p w [Hp _] (key & Hkey & _)%crowd_window_next.
    rewrite Hloc in Hp. injection Hp as <-. congruence.
Qed.

End tourism_rows.

(** ** The food strategy reads the table *)

Section food_rows.
Context (intent : QueryIntent) (context : Context).

Lemma food_at place :
  names intent place → food_area context place →
  _generate_food_response intent context = Return (render (FoodAt place)).
Proof.
  intros [Hloc Hplace] Harea%food_area_any. unfold _generate_food_response.
  rewrite Hloc, Hplace. unfold areas_of in Harea. by rewrite Harea.
Qed.

Lemma food_general :
  (∀ place, names intent place → ¬ food_area context place) →
  _generate_food_response intent context
  = Return (render (if truthy (dishes_of context)
                    then DishList (dishes_of context) else FoodGeneric)).
Proof.
  intros Hno. unfold _generate_food_response, dishes_of.
  destruct (location intent) as [place|] eqn:Hloc; [|by case_match].
  destruct (truthy place) eqn:Hplace; [|by case_match].
  specialize (Hno place (conj Hloc Hplace)).
  rewrite <-food_area_any in Hno. apply not_true_is_false in Hno.
  unfold areas_of in Hno. rewrite Hno. by case_match.
Qed.

Lemma food_area_cases :
  (∃ place, names intent place ∧ food_area context place)
  ∨ (∀ place, names intent place → ¬ food_area context place).
Proof.
  destruct (location intent) as [place|] eqn:Hloc; [|right; intros ? [? _]; congruence].
  destruct (truthy place) eqn:Hplace; [|right; intros ? [? ?]; congruence].
  destruct (decide (food_area context place)) as [Harea|Harea]; [left; by exists place|].
  right. intros p [Hp _]. rewrite Hloc in Hp. by injection Hp as <-.
Qed.

End food_rows.

(** ** The composer computes the table *)

Lemma truthy_list {A} (l : list A) : truthy l = true ↔ l ≠ [].
Proof. by destruct l. Qed.

Lemma truthy_list_nil {A} (l : list A) : truthy l = false ↔ l = [].
Proof. by destruct l. Qed.

Section table.
Context (intent : QueryIntent) (context : Context).

(** Every row of the table is a path through the code. *)
Lemma dispatch_composes r :
  composes intent context r → dispatch intent context = Return (render r).
Proof.
  intros H. rewrite dispatch_strategy.
  destruct H as [meaning Hcat Hm Hmeaning|Hcat Hm Hg|Hcat Hm Hg
                |place Hcat Hplace Harea|Hcat Hno Hd|Hcat Hno Hd
                |place window Hcat Hplace Hw|note Hcat Hno Ht Hnote
                |season Hcat Hno Ht Hs Hseason|Hcat Hno Ht Hs
                |Hcat He|Hcat He|Hcat];
    rewrite Hcat; cbn [strategy];
    repeat match goal with
    | H : ¬ mentions _ _ |- _ => rewrite <-mentions_any in H; apply not_true_is_false in H
    | H : mentions _ _ |- _ => apply mentions_any in H
    | H : ¬ asks_about _ _ |- _ =>
        rewrite <-asks_about_any in H; apply not_true_is_false in H
    | H : asks_about _ _ |- _ => apply asks_about_any in H
    | H : _ ≠ [] |- _ => apply truthy_list in H
    | H : _ = [] |- _ => apply truthy_list_nil in H
    end.
  - unfold _generate_language_response, dict_get_default.
    unfold meaning_of in Hmeaning. by rewrite Hm, Hmeaning.
  - unfold _generate_language_response. unfold greetings_of in *. by rewrite Hm, Hg.
  - unfold _generate_language_response. unfold greetings_of in *. by rewrite Hm, Hg.
  - by apply food_at.
  - by rewrite food_general, Hd.
  - by rewrite food_general, Hd.
  - by apply tourism_crowd.
  - rewrite tourism_keywords_only by done. unfold tourism_by_keywords, dict_get_default.
    unfold transport_note_of in Hnote. by rewrite Ht, Hnote.
  - rewrite tourism_keywords_only by done. unfold tourism_by_keywords.
    unfold season_of in Hseason. by rewrite Ht, Hs, Hseason.
  - rewrite tourism_keywords_only by done. unfold tourism_by_keywords. by rewrite Ht, Hs.
  - unfold _generate_culture_response. unfold etiquette_of in *. by rewrite He.
  - unfold _generate_culture_response. unfold etiquette_of in *. by rewrite He.
  - done.
Qed.

(** The window of a place is unique. *)
Lemma crowd_window_unique place w1 w2 :
  crowd_window context place w1 → crowd_window context place w2 → w1 = w2.
Proof.
  intros (k1 & Hk1 & Hw1)%crowd_window_next (k2 & Hk2 & Hw2)%crowd_window_next.
  congruence.
Qed.

(** The table selects at most one reply. *)
Lemma composes_functional r1 r2 :
  composes intent context r1 → composes intent context r2 → r1 = r2.
Proof.
  intros H1 H2. destruct H1, H2; try congruence; try done;
    try (exfalso; unfold no_crowd_window, not in *; eauto; fail);
    repeat match goal with
    | H1 : names _ ?p1, H2 : names _ ?p2 |- _ =>
        assert (p1 = p2) as -> by (destruct H1, H2; congruence); clear H2
    end; f_equal; by eapply crowd_window_unique.
Qed.

(** The table selects a reply when the context holds the texts that the
    sentences embed. *)
Lemma composes_total : detailed context → ∃ r, composes intent context r.
Proof.
  intros ([meaning Hmeaning] & [note Hnote] & [season Hseason]).
  destruct (category_of_name (category intent)) eqn:Hcat.
  - destruct (decide (mentions intent "khamma")); [eexists; by eapply compose_khamma|].
    destruct (decide (greetings_of context = []));
      eexists; first [by eapply compose_greeting_generic | by eapply compose_greetings].
  - destruct (food_area_cases intent context) as [(place & ? & ?)|Hno];
      [eexists; by eapply compose_food_at|].
    destruct (decide (dishes_of context = []));
      eexists; first [by eapply compose_food_generic | by eapply compose_dishes].
  - destruct (crowd_window_cases intent context) as [(place & window & ? & ?)|Hno];
      [eexists; by eapply compose_crowd|].
    destruct (decide (asks_about intent transport_words));
      [eexists; by eapply compose_transport|].
    destruct (decide (asks_about intent season_words));
      eexists; first [by eapply compose_season | by eapply compose_tourism_generic].
  - destruct (decide (etiquette_of context = []));
      eexists; first [by eapply compose_culture_generic | by eapply compose_etiquette].
  - eexists. by eapply compose_help.
Qed.

(** Without [peak_times] no place has a window: a tourism question falls
    through to the keyword rows, and to the generic sentence when it asks
    neither about transport nor about the season. *)
Lemma tourism_without_windows :
  category_of_name (category intent) = Tourism →
  peak_times (default empty_tourism (tourism context)) = None →
  ¬ asks_about intent transport_words → ¬ asks_about intent season_words →
  generate_response intent context = Return (render TourismGeneric).
Proof.
  intros Hcat Hnone Ht Hs. rewrite generate_response_dispatch.
  apply dispatch_composes, compose_tourism_generic; [done| |done..].
  intros place window _ (before & key & after & Hd & _).
  unfold peak_times_of in Hd. rewrite Hnone in Hd. by destruct before.
Qed.

End table.

(** ** The text of a reply *)

(** Every text a reply is built from can be read in it. *)
Lemma render_embeds r text : text ∈ embedded r → text ∈ₛ render r.
Proof.
  destruct r; cbn [embedded render]; intros Hin;
    repeat (apply elem_of_cons in Hin as [->|Hin]);
    try (by apply elem_of_nil in Hin);
    first [ apply str_in_app_r, str_in_app_l;
            first [apply str_in_refl | by apply str_in_join_elem]
          | apply str_in_app_r, str_in_app_r, str_in_app_r, str_in_app_l, str_in_refl ].
Qed.

(** The text of a reply starts and ends with a visible character. *)
Lemma render_ends_ok r : ends_ok (render r).
Proof. destruct r; solve_ends_ok. Qed.

(** ** The composer and its table *)

(** Claim C5. The composer implements its decision table: whenever the
    table of section 4.2 selects a reply for an intent and a context,
    [generate_response] returns the text of that reply; the table never
    selects two replies; and it selects one for every intent when the
    context holds the meaning of the greeting, the transport note and the
    season, so that on such a context the reply of the code is the reply
    of the table, whatever the intent. *)
Theorem generate_response_decision_table intent context :
  (∀ r, composes intent context r →
        generate_response intent context = Return (render r)) ∧
  (∀ r1 r2, composes intent context r1 → composes intent context r2 → r1 = r2) ∧
  (detailed context → ∃ r, composes intent context r).
Proof.
  split_and!.
  - intros r Hr. rewrite generate_response_dispatch. by apply dispatch_composes.
  - apply composes_functional.
  - apply composes_total.
Qed.

Lemma generate_response_decision_table_witness :
  generate_response
    {| category := "tourism"; keywords := ["transport"; "to"; "city"; "palace"];
       location := Some "City Palace"; time_context := None |}
    (_get_default_context ContextLoader_init)
  = Return (render (CrowdAt "City Palace" "4 PM - 9 PM")).
Proof.
  apply generate_response_decision_table, compose_crowd; [done..|].
  exists [], "City Palace", [("Lake Pichola", "4 PM - 9 PM")].
  split_and!; [done..|]. by intros k ?%elem_of_nil.
Defined.

(** The text of a reply that the table selects shows what the context
    holds: every text the reply is built from occurs in the answer of the
    composer, and the answer starts and ends with a visible character. *)
Theorem generate_response_shows_context intent context r text :
  composes intent context r → text ∈ embedded r →
  ∃ answer, generate_response intent context = Return answer ∧
            text ∈ₛ answer ∧ ends_ok answer.
Proof.
  intros Hr Hin. exists (render r). split_and!.
  - rewrite generate_response_dispatch. by apply dispatch_composes.
  - by apply render_embeds.
  - apply render_ends_ok.
Qed.

Lemma generate_response_shows_context_witness :
  ∃ answer,
    generate_response
      {| category := "language"; keywords := ["khamma"]; location := None;
         time_context := None |}
      (_get_default_context ContextLoader_init) = Return answer ∧
    "Traditional greeting meaning hello/respect" ∈ₛ answer ∧ ends_ok answer.
Proof.
  apply (generate_response_shows_context _ _
           (KhammaMeaning "Traditional greeting meaning hello/respect")).
  - apply compose_khamma; [done| |done]. exists "khamma". split; [|done]. by left.
  - by left.
Defined.
