(* ===== verification/LocalGuide.v ===== *)
(** * LocalGuide: the entry point [local_guide]

    [App.local_guide] is the function of [src/app.py].  Its collaborators
    (the three classes it imports) are an interface, class [Components]:
    what each call returns or raises.  [Standalone.local_guide] is the copy
    in [src/streamlit_standalone.py], over the classes modelled in [Context],
    [QueryProcessor] and [ResponseGenerator] and the file system.  A [try]
    with its [except] clauses is a [match] on the outcome of the call. *)

From S2P Require Import Prelude PyString PyDict Context QueryProcessor ResponseGenerator Replies.

Set Warnings "-clear-no-such-hyp".

(** The argument of [local_guide] as a Python object: [None], a [str], or
    an object of another type. *)
Inductive pyobj : Type :=
| PyNone
| PyStr (s : string)
| PyOther.

Module App.

(** The collaborators of [local_guide]: constructing the three objects,
    and the three method calls. *)
Class Components := {
  new_components : result unit;
  load_context : result Context;
  process_query : string → result QueryIntent;
  generate_response : QueryIntent → Context → result string;
}.

(** [local_guide] of [src/app.py]. *)
Definition local_guide `{Components} (query : pyobj) : string :=
  match query with
  | PyStr query =>
      if negb (truthy query) then
        "Please provide a valid question about Udaipur's culture, food, language, or tourist information."
      else
        let query := strip query in
        if negb (truthy query) then
          "Please enter a question about local culture, food recommendations, language phrases, or tourist information."
        else
          match new_components with
          | Raise _ =>
              "I'm experiencing technical difficulties. Please try asking about: local phrases and greetings, authentic food recommendations, tourist crowd timing, or cultural etiquette guidance."
          | Return _ =>
              match load_context with
              | Raise FileNotFoundError =>
                  "I'm sorry, I can't access the local knowledge base right now. Please ensure the product.md file is available and try again."
              | Raise (ValueError msg) =>
                  "There's an issue with the local knowledge base: " +:+ exn_str (ValueError msg) +:+ ". Please check the product.md file format."
              | Raise _ =>
                  "I'm experiencing technical difficulties. Please try asking about: local phrases and greetings, authentic food recommendations, tourist crowd timing, or cultural etiquette guidance."
              | Return context =>
                  match process_query query with
                  | Raise _ =>
                      "I had trouble understanding your question. Could you please rephrase it? I can help with local phrases, food recommendations, tourist information, or cultural guidance."
                  | Return intent =>
                      match generate_response intent context with
                      | Raise _ =>
                          "I encountered an issue generating a response. Please try rephrasing your question or ask about local language, food, tourism, or cultural topics."
                      | Return response =>
                          if negb (truthy response) || negb (truthy (strip response)) then
                            "I'm not sure how to help with that specific question. Try asking about local greetings like 'Khamma Ghani', food recommendations for specific areas, crowd timing at tourist spots, or cultural etiquette guidance."
                          else strip response
                      end
                  end
              end
          end
  | PyNone | PyOther =>
      "Please provide a valid question about Udaipur's culture, food, language, or tourist information."
  end.

End App.

Module Standalone.

(** The constructor calls [ContextLoader()] and [QueryProcessor()] at the
    head of the outer [try] ([ResponseGenerator()] builds an object without
    attributes). *)
Definition new_objects : result (ContextLoader * QueryProcessor) :=
  Return (ContextLoader_init, QueryProcessor_init).

(** [local_guide] of [src/streamlit_standalone.py]; [fs] is the file system
    that [load_context] reads. *)
Definition local_guide (fs : FileSystem) (query : pyobj) : string :=
  match query with
  | PyStr query =>
      if negb (truthy query) then
        "Please provide a valid question about Udaipur's culture, food, language, or tourist information."
      else
        let query := strip query in
        if negb (truthy query) then
          "Please enter a question about local culture, food recommendations, language phrases, or tourist information."
        else
          match new_objects with
          | Raise _ =>
              "I'm experiencing technical difficulties. Please try asking about: local phrases and greetings, authentic food recommendations, tourist crowd timing, or cultural etiquette guidance."
          | Return (context_loader, query_processor) =>
          match load_context context_loader fs with
          | Raise _ =>
              "I'm sorry, I can't access the local knowledge base right now. Please try again."
          | Return context =>
              match process_query query_processor query with
              | Raise _ =>
                  "I had trouble understanding your question. Could you please rephrase it? I can help with local phrases, food recommendations, tourist information, or cultural guidance."
              | Return intent =>
                  match generate_response intent context with
                  | Raise _ =>
                      "I encountered an issue generating a response. Please try rephrasing your question or ask about local language, food, tourism, or cultural topics."
                  | Return response =>
                      if negb (truthy response) || negb (truthy (strip response)) then
                        "I'm not sure how to help with that specific question. Try asking about local greetings like 'Khamma Ghani', food recommendations for specific areas, crowd timing at tourist spots, or cultural etiquette guidance."
                      else strip response
                  end
              end
          end
          end
  | PyNone | PyOther =>
      "Please provide a valid question about Udaipur's culture, food, language, or tourist information."
  end.

(** The classes of [src/streamlit_standalone.py] as collaborators of
    [App.local_guide]. *)
Definition components (fs : FileSystem) : App.Components := {|
  App.new_components := new_objects ≫= λ _, Return ();
  App.load_context := load_context ContextLoader_init fs;
  App.process_query := process_query QueryProcessor_init;
  App.generate_response := generate_response;
|}.

End Standalone.

(** * Laws *)

(** A fixed sentence, or a template around a message, has visible ends. *)
Lemma strip_response_ends response :
  negb (truthy response) || negb (truthy (strip response)) = false →
  ends_ok (strip response).
Proof.
  intros [_ Hs%negb_false_iff]%orb_false_iff.
  destruct (strip_spec response) as [Hnil|[? ?]]; [by rewrite Hnil in Hs | done].
Qed.

Section app_laws.
Import App.
Context `{Components}.

Lemma app_local_guide_ends (query : pyobj) : ends_ok (local_guide query).
Proof.
  unfold local_guide.
  repeat match goal with
  | |- ends_ok (strip _) => by apply strip_response_ends
  | |- ends_ok (match ?x with _ => _ end) => destruct x eqn:?
  | |- ends_ok _ => solve_ends_ok
  end.
Qed.

End app_laws.

Section standalone_laws.
Import Standalone.
Context (fs : FileSystem).

(** The reply to a question with a visible character: the strategy of its
    classification applied to its intent and the default context. *)
Lemma standalone_local_guide_reply (query : string) :
  truthy (strip query) = true →
  ∃ intent r,
    process_query QueryProcessor_init (strip query) = Return intent ∧
    dispatch intent (_get_default_context ContextLoader_init) = Return r ∧
    local_guide fs (PyStr query) = r.
Proof.
  intros Hq. unfold local_guide.
  assert (truthy query = true) as -> by (destruct query; [done | done]).
  rewrite Hq. unfold new_objects. rewrite load_context_default. simpl negb. cbv iota.
  rewrite (process_query_classify QueryProcessor_init (strip query) eq_refl).
  eexists. destruct (generate_response_returns
    {| category := category_name (classify QueryProcessor_init (lower (strip query)));
       keywords := split (lower (strip query));
       location := _extract_location QueryProcessor_init (lower (strip query));
       time_context := _extract_time_context QueryProcessor_init (lower (strip query)) |}
    (_get_default_context ContextLoader_init)) as (r & Hr & Hends).
  exists r. split; [done|]. rewrite Hr.
  destruct (ends_ok_strip r Hends) as [Hne Hstrip]. rewrite Hstrip, Hne. simpl.
  split; [|done]. by rewrite generate_response_dispatch in Hr.
Qed.

Lemma standalone_local_guide_blank (query : string) :
  truthy (strip query) = false →
  local_guide fs (PyStr query) =
    if truthy query
    then "Please enter a question about local culture, food recommendations, language phrases, or tourist information."
    else "Please provide a valid question about Udaipur's culture, food, language, or tourist information.".
Proof. intros Hq. unfold local_guide. rewrite Hq. by destruct (truthy query). Qed.

(** With the classes of the standalone program as collaborators the two
    entry points compute the same reply. *)
Lemma app_standalone_eq (query : pyobj) :
  @App.local_guide (Standalone.components fs) query = local_guide fs query.
Proof.
  destruct query as [|query|]; [done| |done].
  destruct (truthy (strip query)) eqn:Hq.
  - destruct (standalone_local_guide_reply query Hq) as (intent & r & Hi & Hr & ->).
    unfold App.local_guide. simpl.
    assert (truthy query = true) as -> by (by destruct query).
    rewrite Hq, load_context_default, Hi. simpl. rewrite generate_response_dispatch, Hr.
    destruct (dispatch_returns intent (_get_default_context ContextLoader_init))
      as (r' & Hr' & Hends).
    assert (r' = r) as -> by congruence.
    destruct (ends_ok_strip r Hends) as [Hne Hstrip]. by rewrite Hstrip, Hne.
  - rewrite standalone_local_guide_blank by done.
    unfold App.local_guide. rewrite Hq. by destruct (truthy query).
Qed.

End standalone_laws.

(** ** The behaviour of [local_guide] *)

(** Claim C4. End to end: for a question with at least one visible
    character, [local_guide] of the standalone program returns, unchanged by
    its final [strip], the reply that the strategy selected for the stripped
    question produces from the default context; no error sentence is
    reachable and the file system has no influence. *)
Theorem standalone_local_guide_pipeline fs (query : string) :
  truthy (strip query) = true →
  ∃ intent r,
    process_query QueryProcessor_init (strip query) = Return intent ∧
    strategy (classify QueryProcessor_init (lower (strip query))) intent
      (_get_default_context ContextLoader_init) = Return r ∧
    Standalone.local_guide fs (PyStr query) = r.
Proof.
  intros Hq. destruct (standalone_local_guide_reply fs query Hq) as (intent & r & Hi & Hr & Hg).
  exists intent, r. split_and!; [done | | done].
  by rewrite <-(dispatch_classify QueryProcessor_init (strip query)).
Qed.

Lemma standalone_local_guide_pipeline_witness :
  ∃ intent r,
    process_query QueryProcessor_init (strip "  Best food in Surajpole area? ") = Return intent ∧
    strategy (classify QueryProcessor_init (lower (strip "  Best food in Surajpole area? ")))
      intent (_get_default_context ContextLoader_init) = Return r ∧
    Standalone.local_guide
      {| path_exists := λ _, false; read_text := λ _, Raise FileNotFoundError |}
      (PyStr "  Best food in Surajpole area? ") = r.
Proof.
  exact (standalone_local_guide_pipeline
           {| path_exists := λ _, false; read_text := λ _, Raise FileNotFoundError |}
           "  Best food in Surajpole area? " eq_refl).
Defined.

(** Claim C13. Every call answers: whatever the argument and whatever the
    collaborators return or raise, [local_guide] of the command-line program
    returns a text that is not empty and has no white space at its ends. *)
Theorem app_local_guide_nonempty_trimmed `{App.Components} (query : pyobj) :
  truthy (App.local_guide query) = true ∧
  strip (App.local_guide query) = App.local_guide query.
Proof. apply ends_ok_strip, app_local_guide_ends. Qed.

(** Claim C12. The two entry points agree: with the classes of the
    standalone program as collaborators, [local_guide] of the command-line
    program returns what [local_guide] of the standalone program returns,
    for every argument and every file system. *)
Theorem app_agrees_with_standalone fs (query : pyobj) :
  @App.local_guide (Standalone.components fs) query = Standalone.local_guide fs query.
Proof. apply app_standalone_eq. Qed.

(** Claim C31. Case insensitivity, end to end: two questions that differ
    only in the case of their letters get the same answer from [local_guide]
    of the standalone program. *)
Theorem local_guide_case_insensitive fs (query1 query2 : string) :
  query1 ≡ᶜ query2 →
  Standalone.local_guide fs (PyStr query1) = Standalone.local_guide fs (PyStr query2).
Proof.
  intros Hq. unfold Standalone.local_guide, Standalone.new_objects. cbv beta iota zeta.
  assert (strip query1 ≡ᶜ strip query2) as Hs by (by rewrite Hq).
  by rewrite (truthy_proper _ _ Hq), (truthy_proper _ _ Hs),
    (process_query_proper _ _ _ Hs).
Qed.

Lemma local_guide_case_insensitive_witness :
  Standalone.local_guide
    {| path_exists := λ _, false; read_text := λ _, Raise FileNotFoundError |}
    (PyStr "WHEN to visit CITY PALACE?")
  = Standalone.local_guide
      {| path_exists := λ _, false; read_text := λ _, Raise FileNotFoundError |}
      (PyStr "when to visit city palace?").
Proof.
  exact (local_guide_case_insensitive
           {| path_exists := λ _, false; read_text := λ _, Raise FileNotFoundError |}
           "WHEN to visit CITY PALACE?" "when to visit city palace?" eq_refl).
Defined.

(** Input validation: [None], an object that is not a [str], the
    empty string and a string of white space only are answered with a request
    for a question, without calling any collaborator. *)
Theorem standalone_rejects_blank fs (query : pyobj) :
  match query with PyStr s => truthy (strip s) = false | _ => True end →
  Standalone.local_guide fs query =
    match query with
    | PyStr (String _ _) => "Please enter a question about local culture, food recommendations, language phrases, or tourist information."
    | _ => "Please provide a valid question about Udaipur's culture, food, language, or tourist information."
    end.
Proof.
  destruct query as [|s|]; [done| |done]. intros Hq.
  rewrite standalone_local_guide_blank by done. by destruct s.
Qed.

Lemma standalone_rejects_blank_witness :
  Standalone.local_guide
    {| path_exists := λ _, true; read_text := λ _, Return "# Udaipur" |}
    (PyStr "   ")
  = "Please enter a question about local culture, food recommendations, language phrases, or tourist information.".
Proof.
  exact (standalone_rejects_blank
           {| path_exists := λ _, true; read_text := λ _, Return "# Udaipur" |}
           (PyStr "   ") eq_refl).
Defined.

(** Claim C18. Failures of the knowledge base: for a question with a visible
    character, a [FileNotFoundError] of [load_context] is answered with the
    sentence about the missing file, a [ValueError] with the sentence that
    quotes its message, and any other exception escapes both clauses and is
    answered by the outer handler. *)
Theorem app_load_failure_sentences `{App.Components} (query : string) e :
  truthy (strip query) = true →
  App.new_components = Return () →
  App.load_context = Raise e →
  App.local_guide (PyStr query) =
    match e with
    | FileNotFoundError => "I'm sorry, I can't access the local knowledge base right now. Please ensure the product.md file is available and try again."
    | ValueError msg => "There's an issue with the local knowledge base: " +:+ exn_str (ValueError msg) +:+ ". Please check the product.md file format."
    | _ => "I'm experiencing technical difficulties. Please try asking about: local phrases and greetings, authentic food recommendations, tourist crowd timing, or cultural etiquette guidance."
    end.
Proof.
  intros Hq Hnew Hload. unfold App.local_guide.
  assert (truthy query = true) as -> by (by destruct query).
  rewrite Hq, Hnew, Hload. by destruct e.
Qed.

Lemma app_load_failure_sentences_witness :
  @App.local_guide
    {| App.new_components := Return ();
       App.load_context := Raise (ValueError "no sections");
       App.process_query := process_query QueryProcessor_init;
       App.generate_response := generate_response |}
    (PyStr "Best food?")
  = "There's an issue with the local knowledge base: no sections. Please check the product.md file format.".
Proof.
  exact (@app_load_failure_sentences
           {| App.new_components := Return ();
              App.load_context := Raise (ValueError "no sections");
              App.process_query := process_query QueryProcessor_init;
              App.generate_response := generate_response |}
           "Best food?" (ValueError "no sections") eq_refl eq_refl eq_refl).
Defined.

(** Worked examples: the scenarios of the specification, for every file
    system:
    the greeting question is answered with the meaning of the phrase, the
    food question names Surajpole and a dish, the crowd question gives the
    configured window and the quiet hours, the transport question gives the
    heritage-area advice, and a question without any marker gets the general
    sentence; and in a context without [peak_times] a tourism question that
    asks neither about transport nor about the season gets the generic
    tourism sentence, whatever place it names. *)
Theorem specification_scenarios fs :
  "Traditional greeting meaning hello/respect"
    ∈ₛ Standalone.local_guide fs (PyStr "What does Khamma Ghani mean?") ∧
  "Surajpole" ∈ₛ Standalone.local_guide fs (PyStr "Best food in Surajpole area?") ∧
  "Dal Baati Churma" ∈ₛ Standalone.local_guide fs (PyStr "Best food in Surajpole area?") ∧
  "4 PM - 9 PM"
    ∈ₛ Standalone.local_guide fs (PyStr "When to visit City Palace to avoid crowds?") ∧
  "7-10 am"
    ∈ₛ Standalone.local_guide fs (PyStr "When to visit City Palace to avoid crowds?") ∧
  "two-wheelers are the fastest mode inside heritage areas"
    ∈ₛ Standalone.local_guide fs (PyStr "Transportation to heritage areas?") ∧
  Standalone.local_guide fs (PyStr "asdkj qwop") = render Help ∧
  ∀ intent context,
    category intent = "tourism" →
    peak_times (default empty_tourism (tourism context)) = None →
    ¬ asks_about intent transport_words → ¬ asks_about intent season_words →
    generate_response intent context = Return (render TourismGeneric).
Proof.
  split_and!; [..|intros intent context Hcat; apply tourism_without_windows;
                  unfold category_of_name; by rewrite Hcat];
    unfold Standalone.local_guide, Standalone.new_objects;
    cbv beta iota; rewrite !load_context_default; by_compute.
Qed.
