(* ===== verification/Answers.v ===== *)
(** * Answers: everything the guide can say

    The replies of the composer are sentences filled from the context, and
    the places an intent can name are the entries of the location table, so
    the answers of [local_guide] form a finite catalogue that can be
    computed from the context and the table.  [catalogue] lists the replies
    the decision table of [Replies] can select; [answers] are the two
    validation sentences and the texts of the catalogue for the default
    context and the location table of [QueryProcessor.__init__].  The laws
    show that [local_guide] of [src/streamlit_standalone.py] never says
    anything else, and that each of the answers is the answer to some
    question. *)

From S2P Require Import Prelude PyString PyDict Context QueryProcessor ResponseGenerator.
From S2P Require Import Replies LocalGuide.

Set Warnings "-clear-no-such-hyp".

(** ** The catalogue of a context *)

Section catalogue.
Context (context : Context) (places : list string).

(** The window the table gives for a place, if any. *)
Definition window_of (place : string) : option string :=
  py_next (λ key, str_in (lower place) (lower key)) (dict_keys (peak_times_of context))
  ≫= λ key, dict_get key (peak_times_of context).

(** The replies the table can select for an intent that names one of
    [places] or no place, row by row. *)
Definition catalogue : list reply :=
  (KhammaMeaning <$> option_list (meaning_of context "Khamma Ghani"))
  ++ [if truthy (greetings_of context)
      then GreetingList (greetings_of context) else GreetingGeneric]
  ++ (FoodAt <$> filter (food_area context) places)
  ++ [if truthy (dishes_of context)
      then DishList (dishes_of context) else FoodGeneric]
  ++ omap (λ place, CrowdAt place <$> window_of place) places
  ++ (TransportNote <$> option_list (transport_note_of context))
  ++ (SeasonNote <$> option_list (season_of context))
  ++ [TourismGeneric]
  ++ [if truthy (etiquette_of context)
      then EtiquetteList (etiquette_of context) else CultureGeneric]
  ++ [Help].

End catalogue.

(** ** The answers of the standalone guide *)

(** The places an intent of [process_query] can name. *)
Definition known_places : list string := title <$> locations QueryProcessor_init.

(** The sentences for a missing and for a blank question. *)
Definition validation_sentences : list string := [
  "Please provide a valid question about Udaipur's culture, food, language, or tourist information.";
  "Please enter a question about local culture, food recommendations, language phrases, or tourist information."
].

Definition answers : list string :=
  validation_sentences
  ++ (render <$> catalogue (_get_default_context ContextLoader_init) known_places).

(** A question for each answer, in the order of [answers]. *)
Definition questions : list pyobj := [
  PyNone;
  PyStr "   ";
  PyStr "What does Khamma Ghani mean?";
  PyStr "Local greeting customs?";
  PyStr "Best food in Surajpole area?";
  PyStr "Street food near Hathipole";
  PyStr "Where to eat at Chetak Circle?";
  PyStr "What is Dal Baati Churma?";
  PyStr "When to visit City Palace to avoid crowds?";
  PyStr "Is Lake Pichola crowded?";
  PyStr "Transportation to heritage areas?";
  PyStr "Peak season timing for tourists?";
  PyStr "Tourist tips";
  PyStr "Temple etiquette in Udaipur?";
  PyStr "asdkj qwop"
].

(** * Laws *)

(** ** Every answer is given *)

Lemma answers_length : length answers = 15.
Proof. by_compute. Qed.

Lemma answers_NoDup : NoDup answers.
Proof. apply (bool_decide_unpack (NoDup answers)). by_compute. Qed.

(** The questions of [questions] get the answers of [answers], one
    each. *)
Lemma questions_answers fs :
  Forall2 (λ query answer, Standalone.local_guide fs query = answer) questions answers.
Proof.
  assert (answers = Standalone.local_guide fs <$> questions) as ->.
  { unfold questions. cbn [fmap list_fmap].
    unfold Standalone.local_guide, Standalone.new_objects. cbv beta iota.
    rewrite !load_context_default. by_compute. }
  apply Forall2_fmap_r, Forall_Forall2_diag, Forall_forall. done.
Qed.

(** ** The table selects from the catalogue *)

Section catalogue_laws.
Context (context : Context) (places : list string).

Lemma window_of_Some place window :
  window_of context place = Some window ↔ crowd_window context place window.
Proof.
  rewrite crowd_window_next. unfold window_of. rewrite bind_Some. naive_solver.
Qed.

(** A reply of the table for an intent that names one of [places], or no
    place, is in the catalogue. *)
Lemma composes_catalogue intent r :
  (∀ place, location intent = Some place → place ∈ places) →
  composes intent context r → r ∈ catalogue context places.
Proof.
  intros Hplaces Hr. unfold catalogue. rewrite !elem_of_app, !list_elem_of_singleton.
  destruct Hr;
    repeat match goal with
    | H : _ ≠ [] |- _ => apply truthy_list in H; rewrite H
    | H : _ = [] |- _ => apply truthy_list_nil in H; rewrite H
    | H : names _ _ |- _ => destruct H as [?%Hplaces _]
    | H : crowd_window _ _ _ |- _ => apply window_of_Some in H
    | H : _ = Some _ |- _ => rewrite H
    end; simpl; rewrite ?list_elem_of_singleton; eauto 11.
  - do 2 right. left. apply list_elem_of_fmap_2, list_elem_of_filter. by split.
  - do 4 right. left. apply list_elem_of_omap. eexists. split; [done|].
    apply fmap_Some. by eexists.
Qed.

End catalogue_laws.

(** The place of an intent is an entry of the location table. *)
Lemma extract_location_known self query place :
  _extract_location self query = Some place → place ∈ title <$> locations self.
Proof.
  unfold _extract_location. intros (l & [Hl _]%find_Some_elem_of & ->)%fmap_Some.
  by apply list_elem_of_fmap_2.
Qed.

(** The default context holds the texts that the sentences embed. *)
Lemma default_context_detailed : detailed (_get_default_context ContextLoader_init).
Proof. split_and!; by eexists. Qed.

(** ** The guide says nothing else *)

(** The answer to a question with a visible character is the text of a
    reply of the catalogue. *)
Lemma local_guide_reply_catalogue fs (query : string) :
  truthy (strip query) = true →
  Standalone.local_guide fs (PyStr query)
  ∈ render <$> catalogue (_get_default_context ContextLoader_init) known_places.
Proof.
  intros Hq. destruct (standalone_local_guide_reply fs query Hq) as (intent & a & Hi & Ha & ->).
  destruct (composes_total intent _ default_context_detailed) as [r Hr].
  rewrite (dispatch_composes _ _ _ Hr) in Ha. injection Ha as <-.
  apply list_elem_of_fmap_2, (composes_catalogue _ _ intent); [|done].
  apply process_query_Return in Hi as (_ & _ & Hloc & _). rewrite Hloc.
  intros place. apply extract_location_known.
Qed.

Lemma local_guide_answers fs query : Standalone.local_guide fs query ∈ answers.
Proof.
  unfold answers. apply elem_of_app.
  destruct query as [|query|]; [left; by left| |left; by left].
  destruct (truthy (strip query)) eqn:Hq; [right; by apply local_guide_reply_catalogue|].
  left. rewrite standalone_local_guide_blank by done.
  destruct (truthy query); [right|]; by left.
Qed.

(** ** What the guide says *)

(** Claim C6. The guide says fifteen things: for every file system, the
    texts that [local_guide] of [src/streamlit_standalone.py] can return,
    over all arguments, are exactly the fifteen different texts of
    [answers]: the two validation sentences and the thirteen replies that
    the decision table selects from the default context for the places of
    the location table.  Each is the answer to a question of [questions];
    no error sentence and no other filling of a template is among them. *)
Theorem standalone_answers_exact fs :
  (∀ answer, answer ∈ answers ↔ ∃ query, Standalone.local_guide fs query = answer) ∧
  NoDup answers ∧ length answers = 15.
Proof.
  split_and!; [|apply answers_NoDup|apply answers_length].
  intros answer. split.
  - intros [i Hi]%list_elem_of_lookup.
    destruct (Forall2_lookup_r _ _ _ _ _ (questions_answers fs) Hi) as (query & _ & Hq).
    by exists query.
  - intros [query <-]. apply local_guide_answers.
Qed.
