(* ===== verification/Cli.v ===== *)
(** * Cli: the interactive loop [main] of [src/app.py]

    [main] prints a banner and then repeats: prompt, read a line, answer.
    The console is a record of what has been written to standard output
    (one entry for each [print] or prompt, with its line end), the outcomes
    of the calls of [input] that are still to come, and where control is.
    [loop_body] is one pass through the body of [while True], [main_loop]
    runs the loop over the outcomes of [input] that the user supplies, and
    [step] is the same loop as a transition relation.  The call of
    [local_guide] is a parameter [guide] that returns or raises, so that the
    last [except] clause of the loop has a meaning; [app_guide] is the
    function the program calls.  [fixed_texts] collects the texts the
    program writes on its own account, against which the output of a
    session is compared. *)

From S2P Require Import Prelude PyString PyDict Context QueryProcessor ResponseGenerator.
From S2P Require Import Replies LocalGuide Answers.

Set Warnings "-clear-no-such-hyp".

(** ** Console primitives *)

(** What [print(s)] and [print(s, end=e)] write. *)
Definition print_end (s e : string) : string := s +:+ e.
Definition print (s : string) : string := print_end s nl.

(** The outcome of one call of [input]: the line typed (without its line
    end), Ctrl-C, or the end of the input stream. *)
Inductive input_result : Type :=
| Line (text : string)
| KeyboardInterrupt
| EOFError.

(** How a pass through the loop body ends. *)
Inductive control : Type := Continue | Break.

(** Where control is: at the head of the loop, blocked in [input] after
    the prompt has been written, or past the loop. *)
Inductive status : Type := AtLoopHead | InInput | Exited.

Record console : Type := {
  stdout : list string;
  stdin : list input_result;
  state : status;
}.

#[export] Instance input_result_eq_dec : EqDecision input_result.
Proof. solve_decision. Defined.
#[export] Instance control_eq_dec : EqDecision control.
Proof. solve_decision. Defined.
#[export] Instance status_eq_dec : EqDecision status.
Proof. solve_decision. Defined.
#[export] Instance console_eq_dec : EqDecision console.
Proof. solve_decision. Defined.

(** ** The program *)

(** The eight [print] calls before the loop. *)
Definition banner : list string := [
  print "🏰 Welcome to the Udaipur Local Guide AI! 🏰";
  print "I can help you with:";
  print "  • Local phrases and greetings (like 'Khamma Ghani')";
  print "  • Authentic food recommendations and locations";
  print "  • Tourist crowd timing and transportation advice";
  print "  • Cultural etiquette for temples and palaces";
  print (nl +:+ "Type 'quit', 'exit', or 'bye' to exit.");
  print (str_mul "=" 50)
].

(** The prompt that [input] writes before it reads. *)
Definition prompt : string := nl +:+ "🤔 Ask me about Udaipur: ".

Definition exit_commands : list string := ["quit"; "exit"; "bye"; "q"].
Definition help_commands : list string := ["help"; "h"; "?"].

(** The first line of the last [except] clause, an f-string over [str(e)]. *)
Definition error_report (e : exn) : string :=
  nl +:+ "❌ An unexpected error occurred: " +:+ exn_str e.

(** One pass through the body of [while True], from the outcome of
    [input] on: what it prints and how it ends. *)
Definition loop_body (guide : string → result string) (ev : input_result)
    : list string * control :=
  match ev with
  | Line text =>
      let user_input := strip text in
      if list_in (lower user_input) exit_commands then
        ([print (nl +:+ "🙏 Thank you for using the Udaipur Local Guide AI!");
          print "Khamma Ghani! (Traditional farewell)"], Break)
      else if negb (truthy user_input) then
        ([print "💭 Please enter a question, or type 'quit' to exit.";
          print "   Try asking: 'What does Khamma Ghani mean?' or 'Best food in Surajpole?'"],
         Continue)
      else if list_in (lower user_input) help_commands then
        ([print (nl +:+ "📚 I can help you with:");
          print "  • Language: 'What does Khamma Ghani mean?'";
          print "  • Food: 'Best food in Hathipole?' or 'What is Dal Baati Churma?'";
          print "  • Tourism: 'When to visit City Palace?' or 'Transportation to heritage areas?'";
          print "  • Culture: 'Temple etiquette?' or 'How to greet locals respectfully?'"],
         Continue)
      else
        match guide user_input with
        | Return response =>
            ([print_end (nl +:+ "🤖 Guide:") " ";
              print response;
              print (str_mul "-" 50)], Continue)
        | Raise e =>
            ([print_end (nl +:+ "🤖 Guide:") " ";
              print (error_report e);
              print "💡 Please try again or type 'quit' to exit."], Continue)
        end
  | KeyboardInterrupt =>
      ([print (nl +:+ nl +:+ "🙏 Thank you for using the Udaipur Local Guide AI!");
        print "Khamma Ghani! (Traditional farewell)"], Break)
  | EOFError =>
      ([print (nl +:+ nl +:+ "🙏 Thank you for using the Udaipur Local Guide AI!");
        print "Khamma Ghani! (Traditional farewell)"], Break)
  end.

(** The loop over the outcomes of [input] that are supplied: when they run
    out the program is blocked in [input], its prompt written. *)
Fixpoint main_loop (guide : string → result string)
    (stdin : list input_result) (stdout : list string) : console :=
  let stdout := stdout ++ [prompt] in
  match stdin with
  | [] => {| stdout := stdout; stdin := []; state := InInput |}
  | ev :: rest =>
      match loop_body guide ev with
      | (written, Break) =>
          {| stdout := stdout ++ written; stdin := rest; state := Exited |}
      | (written, Continue) => main_loop guide rest (stdout ++ written)
      end
  end.

Definition main (guide : string → result string) (stdin : list input_result)
    : console :=
  main_loop guide stdin banner.

(** The call [local_guide(user_input)] of the program. *)
Definition app_guide `{App.Components} (user_input : string) : result string :=
  Return (App.local_guide (PyStr user_input)).

(** ** The loop as a transition relation *)

Definition after (c : control) : status :=
  match c with Continue => AtLoopHead | Break => Exited end.

Inductive step (guide : string → result string) : console → console → Prop :=
| step_prompt out ins :
    step guide {| stdout := out; stdin := ins; state := AtLoopHead |}
               {| stdout := out ++ [prompt]; stdin := ins; state := InInput |}
| step_input out ev rest :
    step guide {| stdout := out; stdin := ev :: rest; state := InInput |}
               {| stdout := out ++ (loop_body guide ev).1; stdin := rest;
                  state := after (loop_body guide ev).2 |}.

(** The console when the loop is entered. *)
Definition start (stdin : list input_result) : console :=
  {| stdout := banner; stdin := stdin; state := AtLoopHead |}.

(** ** Specification *)

(** An outcome of [input] that ends the session. *)
Definition stops (ev : input_result) : bool :=
  match ev with
  | Line text => list_in (lower (strip text)) exit_commands
  | KeyboardInterrupt | EOFError => true
  end.

(** The outcomes consumed by a session: up to and including the first one
    that stops it. *)
Fixpoint consumed (stdin : list input_result) : list input_result :=
  match stdin with
  | [] => []
  | ev :: rest => ev :: (if stops ev then [] else consumed rest)
  end.

(** The number of transitions of a session: a prompt and a pass for each
    outcome consumed, and one more prompt when the input runs out. *)
Definition run_length (stdin : list input_result) : nat :=
  if existsb stops stdin then 2 * length (consumed stdin) else 2 * length stdin + 1.

(** What one consumed outcome adds to standard output. *)
Definition pass (guide : string → result string) (ev : input_result) : list string :=
  prompt :: (loop_body guide ev).1.

(** What the whole session writes after the banner. *)
Definition transcript (guide : string → result string)
    (stdin : list input_result) : list string :=
  concat (pass guide <$> consumed stdin)
  ++ (if existsb stops stdin then [] else [prompt]).

(** The invariant of a session started on [ins]: some prefix [seen] of the
    input has been read, standard output is the banner, the passes for
    [seen], and the prompt when the program is blocked in [input]; the
    session has ended exactly when the last outcome read stops it, and no
    earlier one does. *)
(** The texts of the program itself: the banner, the prompt, and what a
    pass prints besides the reply when the guide returns. *)
Definition fixed_texts : list string :=
  banner ++ [prompt] ++ [
    print (nl +:+ "🙏 Thank you for using the Udaipur Local Guide AI!");
    print "Khamma Ghani! (Traditional farewell)";
    print "💭 Please enter a question, or type 'quit' to exit.";
    print "   Try asking: 'What does Khamma Ghani mean?' or 'Best food in Surajpole?'";
    print (nl +:+ "📚 I can help you with:");
    print "  • Language: 'What does Khamma Ghani mean?'";
    print "  • Food: 'Best food in Hathipole?' or 'What is Dal Baati Churma?'";
    print "  • Tourism: 'When to visit City Palace?' or 'Transportation to heritage areas?'";
    print "  • Culture: 'Temple etiquette?' or 'How to greet locals respectfully?'";
    print_end (nl +:+ "🤖 Guide:") " ";
    print (str_mul "-" 50);
    print (nl +:+ nl +:+ "🙏 Thank you for using the Udaipur Local Guide AI!")
  ].

Definition session_inv (guide : string → result string)
    (ins : list input_result) (s : console) : Prop :=
  ∃ seen,
    ins = seen ++ stdin s ∧
    stdout s = banner ++ concat (pass guide <$> seen)
               ++ (if decide (state s = InInput) then [prompt] else []) ∧
    consumed seen = seen ∧
    (state s = Exited ↔ existsb stops seen = true).

(** ** Laws of the loop *)

Section loop_laws.
Context (guide : string → result string).

Lemma loop_body_control ev :
  (loop_body guide ev).2 = if stops ev then Break else Continue.
Proof. destruct ev; simpl; repeat case_match; done. Qed.

Lemma loop_body_surj ev :
  loop_body guide ev = ((loop_body guide ev).1, if stops ev then Break else Continue).
Proof. rewrite <-loop_body_control. by destruct (loop_body guide ev). Qed.

Lemma consumed_app ins more :
  consumed (ins ++ more)
  = if existsb stops ins then consumed ins else ins ++ consumed more.
Proof.
  induction ins as [|ev ins IH]; simpl; [done|].
  destruct (stops ev); simpl; [done|]. rewrite IH. by case_match.
Qed.

Lemma consumed_unread ins : consumed ins ++ drop (length (consumed ins)) ins = ins.
Proof.
  induction ins as [|ev ins IH]; simpl; [done|].
  destruct (stops ev); simpl; [by rewrite drop_0 | by rewrite IH].
Qed.

Lemma consumed_stops ins :
  existsb stops (consumed ins) = existsb stops ins.
Proof.
  induction ins as [|ev ins IH]; simpl; [done|].
  destruct (stops ev) eqn:Hs; simpl; rewrite ?Hs; done.
Qed.

(** The loop with an accumulator computes the transcript. *)
Lemma main_loop_spec ins out :
  main_loop guide ins out =
  {| stdout := out ++ transcript guide ins;
     stdin := drop (length (consumed ins)) ins;
     state := if existsb stops ins then Exited else InInput |}.
Proof.
  revert out. induction ins as [|ev ins IH]; intros out; [done|].
  cbn [main_loop]. rewrite (loop_body_surj ev). unfold transcript, pass. cbn.
  destruct (stops ev); cbn.
  - rewrite drop_0, app_nil_r, app_nil_r. by rewrite <-(assoc_L (++)).
  - rewrite IH. unfold transcript. f_equal.
    rewrite <-!(assoc_L (++)). done.
Qed.

Lemma step_det s s1 s2 : step guide s s1 → step guide s s2 → s1 = s2.
Proof. destruct 1; inversion 1; done. Qed.

Lemma main_loop_nsteps ins out :
  nsteps (step guide) (run_length ins)
    {| stdout := out; stdin := ins; state := AtLoopHead |} (main_loop guide ins out).
Proof.
  revert out. induction ins as [|ev ins IH]; intros out.
  - apply nsteps_once. constructor.
  - unfold run_length in *. cbn [existsb consumed main_loop length].
    rewrite (loop_body_surj ev).
    destruct (stops ev) eqn:Hs; cbn [orb length].
    + pose proof (step_input guide (out ++ [prompt]) ev ins) as Hstep.
      rewrite loop_body_control, Hs in Hstep.
      eapply nsteps_l; [apply step_prompt|]. by apply nsteps_once.
    + specialize (IH ((out ++ [prompt]) ++ (loop_body guide ev).1)).
      pose proof (step_input guide (out ++ [prompt]) ev ins) as Hstep.
      rewrite loop_body_control, Hs in Hstep.
      destruct (existsb stops ins);
        [replace (2 * S (length (consumed ins))) with (S (S (2 * length (consumed ins)))) by lia
        |replace (2 * S (length ins) + 1) with (S (S (2 * length ins + 1))) by lia];
        (eapply nsteps_l; [apply step_prompt|]); (eapply nsteps_l; [exact Hstep|]); exact IH.
Qed.

Lemma main_loop_steps ins out :
  rtc (step guide) {| stdout := out; stdin := ins; state := AtLoopHead |}
      (main_loop guide ins out).
Proof. eapply rtc_nsteps_2, main_loop_nsteps. Qed.

Lemma consumed_length ins : length (consumed ins) ≤ length ins.
Proof.
  induction ins as [|ev ins IH]; simpl; [done|]. destruct (stops ev); simpl; lia.
Qed.

(** A console that is neither past the loop nor waiting for input that
    has not come can take a step. *)
Lemma step_progress s :
  (∃ s', step guide s s') ∨ state s = Exited ∨ (state s = InInput ∧ stdin s = []).
Proof.
  destruct s as [out [|ev rest] []]; eauto using step.
Qed.

Lemma main_loop_nf ins out : nf (step guide) (main_loop guide ins out).
Proof.
  rewrite main_loop_spec. intros [s Hs].
  inversion Hs as [|? ? ? [Hout Hin Hst]]; [by destruct (existsb stops ins)|].
  destruct (existsb stops ins) eqn:He; [done|].
  rewrite drop_ge in Hin; [done|]. clear -He.
  induction ins as [|e ins IH]; simpl in *; [lia|].
  apply orb_false_iff in He as [-> ?]. simpl. apply le_n_S. auto.
Qed.

Lemma transcript_app ins more :
  ∃ rest, transcript guide (ins ++ more) = transcript guide ins ++ rest.
Proof.
  unfold transcript. rewrite consumed_app, existsb_app.
  destruct (existsb stops ins) eqn:He; simpl; [exists []; by rewrite !app_nil_r|].
  rewrite fmap_app, concat_app, <-(assoc_L (++)).
  assert (consumed ins = ins) as ->.
  { clear -He. induction ins as [|e ins IH]; simpl in *; [done|].
    apply orb_false_iff in He as [-> ?]. f_equal. auto. }
  destruct more as [|ev more]; simpl; [exists []; by rewrite app_nil_r|].
  eexists. rewrite <-(assoc_L (++) _ [prompt]). f_equal.
Qed.

Lemma session_inv_start ins : session_inv guide ins (start ins).
Proof. exists []. by rewrite app_nil_r. Qed.

Lemma session_inv_step ins s s' :
  session_inv guide ins s → step guide s s' → session_inv guide ins s'.
Proof.
  intros (seen & Hins & Hout & Hseen & Hst) Hstep.
  destruct Hstep as [out ins'|out ev rest]; unfold session_inv;
    cbn [stdout stdin state decide] in *.
  - exists seen. rewrite Hout. split_and!; try done.
    + repeat case_decide; try done. by rewrite app_nil_r, <-(assoc_L (++)).
    + split; [done|]. intros He. by apply Hst in He.
  - assert (existsb stops seen = false) as Hno.
    { destruct (existsb stops seen); [|done]. by destruct Hst as [_ Hst]; specialize (Hst eq_refl). }
    exists (seen ++ [ev]). rewrite <-(assoc_L (++)), consumed_app, Hno, existsb_app, Hno.
    rewrite fmap_app, concat_app, loop_body_control, Hout.
    cbn [consumed existsb]. split_and!; try done; destruct (stops ev); repeat case_decide; try done;
      simpl; by rewrite ?app_nil_r, <-?(assoc_L (++)).

Qed.

End loop_laws.

(** ** Laws of the loop around [local_guide] *)

Section app_loop_laws.
Context `{App.Components}.

(** [main] strips the line before the call and [local_guide] strips it
    again: the second strip changes nothing. *)
Lemma app_local_guide_strip text :
  truthy (strip text) = true →
  App.local_guide (PyStr (strip text)) = App.local_guide (PyStr text).
Proof.
  intros Ht. unfold App.local_guide. rewrite strip_idemp, Ht.
  by assert (truthy text = true) as -> by (by destruct text).
Qed.

(** A text that starts with a visible character is not the error report,
    which starts with a line feed. *)
Lemma print_ends_ok_not_report response e :
  ends_ok response → print response ≠ print (error_report e).
Proof.
  intros [Hh _]. destruct response as [|c r]; [done|].
  intros [= -> _]. done.
Qed.

(** No pass around [local_guide] writes the error report. *)
Lemma app_pass_no_report ev chunk e :
  chunk ∈ pass app_guide ev → chunk ≠ print (error_report e).
Proof.
  unfold pass. rewrite elem_of_cons. intros [->|Hin]; [by vm_compute|].
  revert Hin. unfold loop_body, app_guide.
  destruct ev; repeat case_match; cbn [fst]; intros Hin;
    repeat (apply elem_of_cons in Hin as [->|Hin]);
    try (by apply elem_of_nil in Hin);
    try (by apply print_ends_ok_not_report, app_local_guide_ends);
    by vm_compute.
Qed.

End app_loop_laws.

(** ** The behaviour of [main] *)

(** Claim C14. A session of [main]: standard output is the banner followed
    by one pass for each outcome of [input] up to and including the first
    that stops the session, and by the prompt when none does; what follows
    the stopping outcome is left unread; and the session ends exactly when
    some outcome is an exit command (case and surrounding white space
    ignored), Ctrl-C or the end of input. *)
Theorem main_session guide ins :
  stdout (main guide ins) = banner ++ transcript guide ins ∧
  consumed ins ++ stdin (main guide ins) = ins ∧
  (state (main guide ins) = Exited ↔ ∃ ev, ev ∈ ins ∧ stops ev = true) ∧
  (state (main guide ins) = InInput ↔ ¬ ∃ ev, ev ∈ ins ∧ stops ev = true).
Proof.
  unfold main. rewrite main_loop_spec. cbn [stdout stdin state].
  rewrite consumed_unread, <-existsb_elem_of.
  destruct (existsb stops ins); split_and!; try done; split; try done; by intros [].
Qed.

(** Adequacy of the transition relation: [main guide ins] is reachable from
    the console at the head of the loop, no step leaves it, and it is the
    only such console.  The fact depends on the shape of the loop only, not
    on what a pass does: it licenses reading the theorems about [step] as
    theorems about [main]. *)
Theorem main_is_the_run guide ins s :
  rtc (step guide) (start ins) s ∧ nf (step guide) s ↔ s = main guide ins.
Proof.
  split.
  - intros [Hs Hnf]. eapply (rtc_nf_det (step guide) (step_det guide)); [done..| |].
    + apply main_loop_steps.
    + apply main_loop_nf.
  - intros ->. split; [apply main_loop_steps | apply main_loop_nf].
Qed.

(** Claim C20. Invariant of the session, by induction on the steps: in every
    console reachable from the start, a prefix of the input has been read,
    standard output is the banner and the passes for that prefix (and the
    prompt while blocked in [input]), and the loop has been left exactly
    when the last outcome read stops the session. *)
Theorem session_invariant guide ins s :
  rtc (step guide) (start ins) s → session_inv guide ins s.
Proof.
  apply (rtc_invariant (step guide) (session_inv guide ins)).
  - intros ???. by apply session_inv_step.
  - apply session_inv_start.
Qed.

Lemma session_invariant_witness :
  session_inv (λ _, Return "Namaste") [Line "hello"; Line "bye"]
    {| stdout := banner ++ [prompt]; stdin := [Line "hello"; Line "bye"];
       state := InInput |}.
Proof.
  apply (session_invariant (λ _, Return "Namaste") [Line "hello"; Line "bye"]).
  apply rtc_once. constructor.
Defined.

(** Output is never retracted: what a session has written on a
    prefix of the input is a prefix of what it writes on the whole input. *)
Theorem main_output_prefix guide ins more :
  stdout (main guide ins) `prefix_of` stdout (main guide (ins ++ more)).
Proof.
  unfold main. rewrite !main_loop_spec. cbn [stdout].
  destruct (transcript_app guide ins more) as [rest ->].
  exists rest. by rewrite (assoc_L (++)).
Qed.

(** Claim C23. The last [except] clause of the loop is dead: whatever the
    collaborators of [local_guide] do and whatever the user types, no
    session writes the line that reports an unexpected error. *)
Theorem main_never_reports_error `{App.Components} ins e :
  print (error_report e) ∉ stdout (main app_guide ins).
Proof.
  unfold main. rewrite main_loop_spec. cbn [stdout]. unfold transcript.
  rewrite !elem_of_app, elem_of_concat.
  intros [Hin|[(l & (ev & -> & _)%list_elem_of_fmap & Hin)|Hin]].
  - revert Hin. unfold banner. rewrite !elem_of_cons, elem_of_nil.
    intros Hin. repeat (destruct Hin as [Hin|Hin]; [by vm_compute in Hin|]). done.
  - by eapply app_pass_no_report.
  - destruct (existsb stops ins); [by apply elem_of_nil in Hin|].
    apply list_elem_of_singleton in Hin. by vm_compute in Hin.
Qed.

(** A question: for a line that has a visible character and is
    neither an exit nor a help command, the pass writes the label, the
    reply of [local_guide] to the line as typed, and the separator, and the
    loop continues; the reply is not empty and has no white space at its
    ends. *)
Theorem loop_body_answers `{App.Components} text :
  truthy (strip text) = true →
  list_in (lower (strip text)) exit_commands = false →
  list_in (lower (strip text)) help_commands = false →
  loop_body app_guide (Line text)
  = ([print_end (nl +:+ "🤖 Guide:") " ";
      print (App.local_guide (PyStr text));
      print (str_mul "-" 50)], Continue) ∧
  ends_ok (App.local_guide (PyStr text)).
Proof.
  intros Ht Hexit Hhelp. split; [|apply app_local_guide_ends].
  unfold loop_body, app_guide. by rewrite Hexit, Ht, Hhelp, app_local_guide_strip.
Qed.

Lemma loop_body_answers_witness :
  loop_body (@app_guide (Standalone.components
               {| path_exists := λ _, false; read_text := λ _, Raise FileNotFoundError |}))
            (Line "  What does Khamma Ghani mean? ")
  = ([print_end (nl +:+ "🤖 Guide:") " ";
      print (@App.local_guide (Standalone.components
               {| path_exists := λ _, false; read_text := λ _, Raise FileNotFoundError |})
               (PyStr "  What does Khamma Ghani mean? "));
      print (str_mul "-" 50)], Continue) ∧
  ends_ok (@App.local_guide (Standalone.components
               {| path_exists := λ _, false; read_text := λ _, Raise FileNotFoundError |})
               (PyStr "  What does Khamma Ghani mean? ")).
Proof.
  exact (@loop_body_answers (Standalone.components
           {| path_exists := λ _, false; read_text := λ _, Raise FileNotFoundError |})
           "  What does Khamma Ghani mean? " eq_refl eq_refl eq_refl).
Defined.

(** A blank line: for a line without a visible character the pass
    writes the two hint lines and continues, and [local_guide] is not
    called, so its own sentences for empty input are never shown by
    [main]. *)
Theorem loop_body_blank guide text :
  truthy (strip text) = false →
  loop_body guide (Line text)
  = ([print "💭 Please enter a question, or type 'quit' to exit.";
      print "   Try asking: 'What does Khamma Ghani mean?' or 'Best food in Surajpole?'"],
     Continue).
Proof.
  intros Ht. unfold loop_body.
  assert (strip text = "") as -> by (by destruct (strip text)). done.
Qed.

Lemma loop_body_blank_witness :
  loop_body (λ _, Raise (Exception "unused")) (Line "   ")
  = ([print "💭 Please enter a question, or type 'quit' to exit.";
      print "   Try asking: 'What does Khamma Ghani mean?' or 'Best food in Surajpole?'"],
     Continue).
Proof.
  exact (loop_body_blank (λ _, Raise (Exception "unused")) "   " eq_refl).
Defined.

(** Step count: no console gets stuck except in [input] with nothing to
    read or after the loop; and when some outcome of [input] stops the
    session, [main] is reached in two transitions, a prompt and a pass, for
    each outcome up to and including the first that stops it.  The count is
    one of the relation, which splits a turn of the loop in two. *)
Theorem main_eventually_exits guide ins :
  (∀ s, (∃ s', step guide s s') ∨ state s = Exited ∨
        (state s = InInput ∧ stdin s = [])) ∧
  (existsb stops ins = true →
   nsteps (step guide) (2 * length (consumed ins)) (start ins) (main guide ins) ∧
   state (main guide ins) = Exited ∧
   length (consumed ins) ≤ length ins).
Proof.
  split; [apply step_progress|]. intros Hs.
  pose proof (main_loop_nsteps guide ins banner) as Hn.
  unfold run_length in Hn. rewrite Hs in Hn. split_and!; [done| |apply consumed_length].
  unfold main. rewrite main_loop_spec. cbn. by rewrite Hs.
Qed.

Lemma main_eventually_exits_witness :
  nsteps (step (λ _, Return "Namaste")) (2 * 2)
    (start [Line "hello"; Line " Quit "; Line "unread"])
    (main (λ _, Return "Namaste") [Line "hello"; Line " Quit "; Line "unread"]).
Proof.
  exact (proj1 (proj2 (main_eventually_exits (λ _, Return "Namaste")
                         [Line "hello"; Line " Quit "; Line "unread"]) eq_refl)).
Defined.

(** What a pass prints: texts of the program, the reply of the guide, or
    the report of its exception. *)
Lemma loop_body_texts guide ev text :
  text ∈ (loop_body guide ev).1 →
  text ∈ fixed_texts ∨
  ∃ line,
    ev = Line line ∧ truthy (strip line) = true ∧
    match guide (strip line) with
    | Return response => text = print response
    | Raise e => text = print (error_report e)
                ∨ text = print "💡 Please try again or type 'quit' to exit."
    end.
Proof.
  assert (∀ texts, bool_decide (Forall (λ t, t ∈ fixed_texts) texts) = true →
                   text ∈ texts → text ∈ fixed_texts) as Hfixed.
  { intros texts Hall%bool_decide_eq_true Hin. by eapply Forall_forall in Hall. }
  destruct ev as [line| |]; cbn [loop_body]; cbv zeta;
    [|intros Hin; left; revert Hin; by apply Hfixed..].
  destruct (list_in (lower (strip line)) exit_commands);
    [intros Hin; left; revert Hin; by apply Hfixed|].
  destruct (truthy (strip line)) eqn:Ht; cbn [negb];
    [|intros Hin; left; revert Hin; by apply Hfixed].
  destruct (list_in (lower (strip line)) help_commands);
    [intros Hin; left; revert Hin; by apply Hfixed|].
  destruct (guide (strip line)) as [response|e] eqn:Hg; cbn [fst];
    rewrite !elem_of_cons, elem_of_nil; intros [->|[->|[->|[]]]];
    try (match goal with |- ?t ∈ _ ∨ _ =>
           left; apply (Hfixed [t]); [by_compute | by left] end);
    right; exists line; rewrite Hg; auto.
Qed.

(** Claim C25. What the command-line program says: with the classes of
    [src/streamlit_standalone.py] as its collaborators, every text that a
    session of [main] writes, whatever the user types, is a text of the
    program itself or the text of one of the thirteen replies of the
    catalogue: no validation sentence of [local_guide], no error sentence
    and no error report is ever written. *)
Theorem main_standalone_vocabulary fs ins text :
  text ∈ stdout (main (@app_guide (Standalone.components fs)) ins) →
  text ∈ fixed_texts ∨
  ∃ reply,
    reply ∈ catalogue (_get_default_context ContextLoader_init) known_places ∧
    text = print (render reply).
Proof.
  unfold main. rewrite main_loop_spec. cbn [stdout].
  intros [Hin|Hin]%elem_of_app; [left; unfold fixed_texts; by apply elem_of_app; left|].
  assert (prompt ∈ fixed_texts) as Hprompt.
  { unfold fixed_texts. rewrite !elem_of_app. right. left. by left. }
  unfold transcript in Hin. apply elem_of_app in Hin as [Hin|Hin];
    [|destruct (existsb stops ins); [by apply elem_of_nil in Hin|];
      apply list_elem_of_singleton in Hin as ->; by left].
  apply elem_of_concat in Hin as (chunk & (ev & -> & _)%list_elem_of_fmap & Hin).
  apply elem_of_cons in Hin as [->|Hin]; [by left|].
  apply loop_body_texts in Hin as [Hin|(line & -> & Ht & Hin)]; [by left|right].
  unfold app_guide in Hin. rewrite app_standalone_eq in Hin. subst text.
  destruct (list_elem_of_fmap_1 _ _ _
    (local_guide_reply_catalogue fs (strip line) ltac:(by rewrite strip_idemp)))
    as (reply & -> & Hreply).
  by exists reply.
Qed.

Lemma main_standalone_vocabulary_witness :
  print (render (EtiquetteList (etiquette_of (_get_default_context ContextLoader_init))))
    ∈ fixed_texts ∨
  ∃ reply,
    reply ∈ catalogue (_get_default_context ContextLoader_init) known_places ∧
    print (render (EtiquetteList (etiquette_of (_get_default_context ContextLoader_init))))
    = print (render reply).
Proof.
  apply (main_standalone_vocabulary
           {| path_exists := λ _, false; read_text := λ _, Raise FileNotFoundError |}
           [Line "Temple etiquette in Udaipur?"; Line "quit"]).
  apply (bool_decide_unpack _). vm_compute. reflexivity.
Defined.

(** Claim C24. The command-line program end to end: with the classes of the
    standalone file as collaborators, a line that has a visible character
    and is neither an exit nor a help command is answered in one pass with
    the label, the reply that the strategy selected for the stripped line
    produces from the default context, and the separator; the loop goes
    on. *)
Theorem main_standalone_answers fs text :
  truthy (strip text) = true →
  list_in (lower (strip text)) exit_commands = false →
  list_in (lower (strip text)) help_commands = false →
  ∃ intent r,
    process_query QueryProcessor_init (strip text) = Return intent ∧
    dispatch intent (_get_default_context ContextLoader_init) = Return r ∧
    loop_body (@app_guide (Standalone.components fs)) (Line text)
    = ([print_end (nl +:+ "🤖 Guide:") " "; print r; print (str_mul "-" 50)], Continue).
Proof.
  intros Ht Hexit Hhelp.
  destruct (standalone_local_guide_reply fs text Ht) as (intent & r & Hi & Hr & Hg).
  exists intent, r. split_and!; [done..|].
  unfold loop_body, app_guide.
  by rewrite Hexit, Ht, Hhelp, app_local_guide_strip, app_standalone_eq, Hg.
Qed.

Lemma main_standalone_answers_witness :
  ∃ intent r,
    process_query QueryProcessor_init (strip " Temple etiquette? ") = Return intent ∧
    dispatch intent (_get_default_context ContextLoader_init) = Return r ∧
    loop_body (@app_guide (Standalone.components
                 {| path_exists := λ _, false; read_text := λ _, Raise FileNotFoundError |}))
              (Line " Temple etiquette? ")
    = ([print_end (nl +:+ "🤖 Guide:") " "; print r; print (str_mul "-" 50)], Continue).
Proof.
  exact (main_standalone_answers
           {| path_exists := λ _, false; read_text := λ _, Raise FileNotFoundError |}
           " Temple etiquette? " eq_refl eq_refl eq_refl).
Defined.
