(* ===== verification/Streamlit.v ===== *)
(** * Streamlit: the calls of the Streamlit API as page elements

    The page script builds the page by calling [st.markdown], [st.header],
    [st.button] and so on, inside the containers [st.sidebar], [st.columns]
    and [st.expander].  An [element] is one such call with the arguments
    that decide what is shown; a page is the list of the elements in the
    order of the calls, containers holding the elements made inside them.
    Arguments that only style an element ([use_container_width], [type])
    are left out.

    Streamlit identifies a widget by its [key] when it has one and by its
    kind and label otherwise, and refuses a page on which two widgets have
    the same identity; [widget_ids] lists the identities of a page. *)

From S2P Require Import Prelude PyString PyDict.

Set Warnings "-clear-no-such-hyp".

(** ** Elements *)

#[warnings="-register-all"]
Inductive element : Type :=
| PageConfig (page_title page_icon layout initial_sidebar_state : string)
| Markdown (body : string) (unsafe_allow_html : bool)
| Header (body : string)
| Subheader (body : string)
| Button (label : string) (key : option string)
| TextInput (label placeholder key value : string)
| Radio (label : string) (options : list string) (index : nat) (key : string)
| Warning (body : string)
| Info (body : string)
| Sidebar (body : list element)
| Columns (spec : list nat) (body : list (list element))
| Expander (label : string) (body : list element).

(** The identity of a widget: its key, or its kind and label. *)
Inductive widget_id : Type :=
| ByKey (key : string)
| ByCall (kind label : string).

#[export] Instance widget_id_eq_dec : EqDecision widget_id.
Proof. solve_decision. Defined.

(** The identities of the widgets of an element, containers included. *)
Fixpoint widget_ids (e : element) : list widget_id :=
  match e with
  | Button label (Some key) => [ByKey key]
  | Button label None => [ByCall "button" label]
  | TextInput _ _ key _ => [ByKey key]
  | Radio _ _ _ key => [ByKey key]
  | Sidebar body => concat (map widget_ids body)
  | Columns _ body => concat (map (λ col, concat (map widget_ids col)) body)
  | Expander _ body => concat (map widget_ids body)
  | _ => []
  end.

Definition page_widget_ids (page : list element) : list widget_id :=
  concat (map widget_ids page).

(** The texts handed to [st.markdown] with [unsafe_allow_html=True]. *)
Fixpoint raw_html (e : element) : list string :=
  match e with
  | Markdown body true => [body]
  | Sidebar body => concat (map raw_html body)
  | Columns _ body => concat (map (λ col, concat (map raw_html col)) body)
  | Expander _ body => concat (map raw_html body)
  | _ => []
  end.

Definition page_raw_html (page : list element) : list string :=
  concat (map raw_html page).

(** [st.columns(n)[i]]: the element [e] is added to column [i]. *)
Definition add_to_column (i : nat) (e : element) (cols : list (list element))
    : list (list element) :=
  alter (λ col, col ++ [e]) i cols.

(** * Laws *)

Lemma page_widget_ids_app p q :
  page_widget_ids (p ++ q) = page_widget_ids p ++ page_widget_ids q.
Proof. unfold page_widget_ids. by rewrite map_app, concat_app. Qed.

Lemma page_widget_ids_cons e p :
  page_widget_ids (e :: p) = widget_ids e ++ page_widget_ids p.
Proof. done. Qed.

Lemma page_raw_html_app p q :
  page_raw_html (p ++ q) = page_raw_html p ++ page_raw_html q.
Proof. unfold page_raw_html. by rewrite map_app, concat_app. Qed.

Lemma page_raw_html_cons e p :
  page_raw_html (e :: p) = raw_html e ++ page_raw_html p.
Proof. done. Qed.

(** Adding to a column keeps the number of columns and the other
    columns. *)
Lemma add_to_column_length i e cols :
  length (add_to_column i e cols) = length cols.
Proof. unfold add_to_column. by rewrite length_alter. Qed.

Lemma add_to_column_lookup i e cols j :
  add_to_column i e cols !! j
  = if decide (i = j) then (λ col, col ++ [e]) <$> cols !! j else cols !! j.
Proof.
  unfold add_to_column. case_decide as Hij.
  - subst. by rewrite list_lookup_alter_eq.
  - by rewrite list_lookup_alter_ne.
Qed.
