(* ===== verification/Chat.v ===== *)
(** * Chat: the page script of [src/streamlit_standalone.py]

    Streamlit runs the script from top to bottom after every interaction
    of the user with the page.  [st.session_state] survives between runs;
    a button returns [True] in the run that its click starts, and in no
    other; [st.rerun()] abandons the run and starts another one in which no
    button is pressed.  [script] is one run: from what the user did (the
    button pressed, if any, and the text that [st.text_input] returns) and
    the stored session state to the new stored state and either a request
    to run again or the page shown.  This file keeps the parts of the page
    that depend on the state (the value offered to the input box, the
    warning, and the conversation blocks); [Page] builds the whole page
    from them.  The call of [local_guide] is a parameter
    [guide] that returns or raises; [page_guide] is the function the script
    calls. *)

From S2P Require Import Prelude PyString PyDict Context QueryProcessor ResponseGenerator.
From S2P Require Import Replies LocalGuide Answers.

Set Warnings "-clear-no-such-hyp".

(** ** Session state *)

(** A chat message, a dictionary with the keys [role] and [content]. *)
Record message : Type := {
  role : string;
  content : string;
}.

(** [st.session_state] between two runs: each key is absent or holds a
    value. *)
Record stored : Type := {
  stored_chat_history : option (list message);
  stored_example_clicked : option bool;
  stored_selected_query : option string;
}.

(** The state of a new browser session. *)
Definition fresh : stored := {|
  stored_chat_history := None;
  stored_example_clicked := None;
  stored_selected_query := None;
|}.

(** [st.session_state] once the two keys have been initialised. *)
Record session_state : Type := {
  chat_history : list message;
  example_clicked : bool;
  selected_query : option string;
}.

(** The buttons of the page. *)
Inductive button : Type :=
| Example (i : nat)
| AskGuide
| ClearChat
| Refresh.

(** What the user did to start a run: the button pressed, if any, and the
    text that [st.text_input] returns in this run. *)
Record interaction : Type := {
  pressed : option button;
  user_input : string;
}.

(** The parts of the page that depend on the state. *)
Record page : Type := {
  offered : string;
  warning_shown : option string;
  conversation : list string;
}.

(** How a run ends: by [st.rerun()], or at the end of the script. *)
Inductive outcome : Type :=
| Rerun
| Shown (p : page).

#[export] Instance message_eq_dec : EqDecision message.
Proof. solve_decision. Defined.
#[export] Instance button_eq_dec : EqDecision button.
Proof. solve_decision. Defined.
#[export] Instance stored_eq_dec : EqDecision stored.
Proof. solve_decision. Defined.

(** ** The script *)

(** The two [if ... not in st.session_state] statements. *)
Definition initialise (s : stored) : session_state := {|
  chat_history := default [] (stored_chat_history s);
  example_clicked := default false (stored_example_clicked s);
  selected_query := stored_selected_query s;
|}.

(** The session state as it is kept for the next run. *)
Definition store (ss : session_state) : stored := {|
  stored_chat_history := Some (chat_history ss);
  stored_example_clicked := Some (example_clicked ss);
  stored_selected_query := selected_query ss;
|}.

Definition example_queries : list string := [
  "What does Khamma Ghani mean?";
  "Best food in Surajpole area?";
  "When to visit City Palace to avoid crowds?";
  "What is Dal Baati Churma?";
  "Transportation to heritage areas?";
  "Temple etiquette in Udaipur?";
  "Peak season timing for tourists?";
  "Local greeting customs?"
].

(** The loop over the example buttons. *)
Definition example_buttons (pressed : option button) (ss : session_state)
    : session_state :=
  foldl (λ ss '(i, query),
           if bool_decide (pressed = Some (Example i)) then
             {| chat_history := chat_history ss;
                example_clicked := true;
                selected_query := Some query |}
           else ss)
        ss (enumerate example_queries).

(** The [value] argument of [st.text_input]. *)
Definition text_input_value (ss : session_state) : string :=
  if example_clicked ss then default "" (selected_query ss) else "".

(** Clearing the example selection. *)
Definition clear_example (ss : session_state) : session_state :=
  if example_clicked ss then
    {| chat_history := chat_history ss;
       example_clicked := false;
       selected_query := None |}
  else ss.

(** The text of the [except] clause around [local_guide]. *)
Definition error_response (e : exn) : string :=
  "I'm sorry, I encountered an error: " +:+ exn_str e +:+ ". Please try again with a different question.".

(** The body of [if user_input.strip():] up to [st.rerun()]. *)
Definition ask_guide (guide : string → result string) (user_input : string)
    (ss : session_state) : session_state :=
  let chat_history := chat_history ss ++ [{| role := "user"; content := user_input |}] in
  let chat_history :=
    match guide user_input with
    | Return response => chat_history ++ [{| role := "bot"; content := response |}]
    | Raise e => chat_history ++ [{| role := "bot"; content := error_response e |}]
    end in
  {| chat_history := chat_history;
     example_clicked := example_clicked ss;
     selected_query := selected_query ss |}.

(** One block of the conversation. *)
Definition render_message (message : message) : string :=
  if bool_decide (role message = "user") then
    nl +:+ "            <div class=" +:+ dq +:+ "chat-message user-message" +:+ dq +:+ ">" +:+ nl +:+ "                <strong>ü§î You:</strong> "
    +:+ content message +:+ nl +:+ "            </div>" +:+ nl +:+ "            "
  else
    nl +:+ "            <div class=" +:+ dq +:+ "chat-message bot-message" +:+ dq +:+ ">" +:+ nl +:+ "                <strong>ü§ñ Local Guide:</strong> "
    +:+ content message +:+ nl +:+ "            </div>" +:+ nl +:+ "            ".

(** The conversation section: a header and one block for each message,
    when there is a message. *)
Definition display (chat_history : list message) : list string :=
  if truthy chat_history then
    "üí¨ Conversation" :: (render_message <$> chat_history)
  else [].

(** One run of the script. *)
Definition script (guide : string → result string) (ev : interaction)
    (s : stored) : stored * outcome :=
  let ss := initialise s in
  let ss := example_buttons (pressed ev) ss in
  let value := text_input_value ss in
  let ss := clear_example ss in
  if bool_decide (pressed ev = Some AskGuide) && truthy (strip (user_input ev)) then
    (store (ask_guide guide (user_input ev) ss), Rerun)
  else
    let warning :=
      if bool_decide (pressed ev = Some AskGuide)
      then Some "Please enter a question!" else None in
    if bool_decide (pressed ev = Some ClearChat) then
      (store {| chat_history := [];
                example_clicked := example_clicked ss;
                selected_query := selected_query ss |}, Rerun)
    else if bool_decide (pressed ev = Some Refresh) then
      (store ss, Rerun)
    else
      (store ss, Shown {| offered := value;
                          warning_shown := warning;
                          conversation := display (chat_history ss) |}).

(** The call [local_guide(user_input)] of the script. *)
Definition page_guide (fs : FileSystem) (user_input : string) : result string :=
  Return (Standalone.local_guide fs (PyStr user_input)).

(** ** The page as a transition system *)

(** A run started by the user, followed by the run that [st.rerun()]
    starts, in which no button is pressed and the input box returns
    [text']. *)
Definition interact (guide : string → result string) (ev : interaction)
    (text' : string) (s : stored) : stored * outcome :=
  match script guide ev s with
  | (s', Rerun) => script guide {| pressed := None; user_input := text' |} s'
  | r => r
  end.

(** The stored state changes by runs of the script. *)
Inductive run_step (guide : string → result string) : stored → stored → Prop :=
| run_script ev s : run_step guide s (script guide ev s).1.

(** ** Specification *)

(** The two messages a question adds to the conversation. *)
Definition exchange (guide : string → result string) (question : string)
    : list message :=
  [{| role := "user"; content := question |};
   {| role := "bot";
      content := match guide question with
                 | Return response => response
                 | Raise e => error_response e
                 end |}].

(** The conversation after a run. *)
Definition next_history (guide : string → result string) (ev : interaction) (h : list message) : list message :=
  match pressed ev with
  | Some AskGuide =>
      if truthy (strip (user_input ev)) then h ++ exchange guide (user_input ev) else h
  | Some ClearChat => []
  | _ => h
  end.

(** The runs that end in [st.rerun()]. *)
Definition rerun_requested (ev : interaction) : bool :=
  match pressed ev with
  | Some AskGuide => truthy (strip (user_input ev))
  | Some ClearChat | Some Refresh => true
  | _ => false
  end.

(** The invariant of the stored state: the conversation is the exchanges
    of a list of questions that have a visible character each, and no
    example selection is pending. *)
Definition session_ok (guide : string → result string) (s : stored) : Prop :=
  (∃ questions,
     Forall (λ q, truthy (strip q) = true) questions ∧
     default [] (stored_chat_history s) = questions ≫= exchange guide) ∧
  default false (stored_example_clicked s) = false ∧
  stored_selected_query s = None.

(** * Laws *)

Section script_laws.
Context (guide : string → result string).

(** The loop over the example buttons selects the query of the button
    pressed, when there is one. *)
Lemma example_buttons_spec pressed ss :
  example_buttons pressed ss =
  match pressed with
  | Some (Example i) =>
      match example_queries !! i with
      | Some query => {| chat_history := chat_history ss;
                         example_clicked := true;
                         selected_query := Some query |}
      | None => ss
      end
  | _ => ss
  end.
Proof.
  unfold example_buttons. destruct pressed as [[i| | |]|]; try reflexivity.
  do 8 (destruct i as [|i]; [reflexivity|]). reflexivity.
Qed.

Lemma example_buttons_history pressed ss :
  chat_history (example_buttons pressed ss) = chat_history ss.
Proof. rewrite example_buttons_spec. by repeat case_match. Qed.

Lemma clear_example_spec ss :
  chat_history (clear_example ss) = chat_history ss ∧
  example_clicked (clear_example ss) = false ∧
  selected_query (clear_example ss)
  = if example_clicked ss then None else selected_query ss.
Proof. unfold clear_example. by destruct (example_clicked ss) eqn:He. Qed.

Lemma ask_guide_history text ss :
  chat_history (ask_guide guide text ss) = chat_history ss ++ exchange guide text.
Proof.
  unfold ask_guide, exchange. simpl.
  destruct (guide text); by rewrite <-(assoc_L (++)).
Qed.

(** What a run stores: the next conversation, the flag reset, and the
    selection dropped unless it was stale. *)
Lemma script_stored ev s :
  let ss := example_buttons (pressed ev) (initialise s) in
  (script guide ev s).1 = {|
    stored_chat_history :=
      Some (next_history guide ev (default [] (stored_chat_history s)));
    stored_example_clicked := Some false;
    stored_selected_query := if example_clicked ss then None else selected_query ss |}.
Proof.
  cbv zeta. unfold script, next_history.
  pose proof (example_buttons_history (pressed ev) (initialise s)) as Hss.
  remember (example_buttons (pressed ev) (initialise s)) as ss eqn:Heq. clear Heq.
  destruct (clear_example_spec ss) as (Hh & Hc & Hq). rewrite Hss in Hh. simpl in Hh.
  destruct (pressed ev) as [[i| | |]|]; simpl;
    try destruct (truthy (strip (user_input ev))); simpl;
    unfold store; simpl; rewrite ?ask_guide_history, ?Hh, ?Hc, ?Hq. all: try done.
  unfold exchange. destruct (guide (user_input ev)); by rewrite <-(assoc_L (++)).
Qed.

(** How a run ends, and what it shows when it reaches the end of the
    script. *)
Lemma script_outcome ev s :
  (script guide ev s).2 =
  if rerun_requested ev then Rerun
  else Shown {|
    offered := text_input_value (example_buttons (pressed ev) (initialise s));
    warning_shown := if bool_decide (pressed ev = Some AskGuide)
               then Some "Please enter a question!" else None;
    conversation := display (default [] (stored_chat_history s)) |}.
Proof.
  unfold script, rerun_requested.
  pose proof (example_buttons_history (pressed ev) (initialise s)) as Hss.
  remember (example_buttons (pressed ev) (initialise s)) as ss eqn:Heq. clear Heq.
  destruct (clear_example_spec ss) as (Hh & _ & _). rewrite Hss in Hh. simpl in Hh.
  destruct (pressed ev) as [[i| | |]|]; simpl;
    try destruct (truthy (strip (user_input ev))); simpl; by rewrite ?Hh.
Qed.

(** A run reads the stored state through the initialisation only. *)
Lemma script_initialise ev s1 s2 :
  initialise s1 = initialise s2 → script guide ev s1 = script guide ev s2.
Proof. intros H. unfold script. by rewrite H. Qed.

Lemma initialise_store ss : initialise (store ss) = ss.
Proof. by destruct ss. Qed.

Lemma script_ok ev s : session_ok guide s → session_ok guide (script guide ev s).1.
Proof.
  intros ((qs & Hqs & Hh) & Hc & Hq). rewrite script_stored. simpl.
  split; [|split; [done|]].
  - unfold next_history. rewrite Hh.
    destruct (pressed ev) as [[i| | |]|]; try (by exists qs); [|by exists []].
    destruct (truthy (strip (user_input ev))) eqn:Ht; [|by exists qs].
    exists (qs ++ [user_input ev]). rewrite Forall_app, Forall_singleton, bind_app.
    by rewrite bind_singleton.
  - rewrite example_buttons_spec. unfold initialise. rewrite Hq.
    by repeat case_match.
Qed.

(** The invariant reads the stored state through the initialisation
    only. *)
Lemma session_ok_initialise s1 s2 :
  initialise s1 = initialise s2 → session_ok guide s1 → session_ok guide s2.
Proof.
  unfold session_ok. intros [= H1 H2 H3]. by rewrite H1, H2, H3.
Qed.

Lemma fresh_ok : session_ok guide fresh.
Proof. split; [by exists [] | done]. Qed.

Lemma run_step_ok s s' : session_ok guide s → run_step guide s s' → session_ok guide s'.
Proof. intros Hs Hstep. revert Hs. destruct Hstep as [ev s]. apply script_ok. Qed.

Lemma reachable_ok s : rtc (run_step guide) fresh s → session_ok guide s.
Proof.
  apply (rtc_invariant (run_step guide) (session_ok guide)); [|apply fresh_ok].
  intros ???. by apply run_step_ok.
Qed.

End script_laws.

(** ** The behaviour of the page *)

(** Claim C16. Invariant of the page, by induction on the runs: in every
    state reachable from a new session the conversation consists of
    exchanges, a question with a visible character followed by the answer
    to it, and no example selection is pending. *)
Theorem page_session_invariant guide s :
  rtc (run_step guide) fresh s → session_ok guide s.
Proof.
  apply (rtc_invariant (run_step guide) (session_ok guide)); [|apply fresh_ok].
  intros ???. by apply run_step_ok.
Qed.

Lemma page_session_invariant_witness :
  session_ok (λ _, Return "Namaste")
    (script (λ _, Return "Namaste")
       {| pressed := Some AskGuide; user_input := "hello" |} fresh).1.
Proof.
  apply (page_session_invariant (λ _, Return "Namaste")).
  apply rtc_once. constructor.
Defined.

(** Claim C15. The answers of the page: in every state reachable from a new
    session, the conversation is a list of questions each followed by the
    reply of [local_guide], and that reply is what the strategy selected for
    the stripped question produces from the default context; the apology of
    the [except] clause never enters the conversation. *)
Theorem page_conversation_replies fs s :
  rtc (run_step (page_guide fs)) fresh s →
  ∃ questions,
    default [] (stored_chat_history s)
    = questions ≫= (λ q, [{| role := "user"; content := q |};
                          {| role := "bot";
                             content := Standalone.local_guide fs (PyStr q) |}]) ∧
    Forall (λ q, ∃ intent r,
      process_query QueryProcessor_init (strip q) = Return intent ∧
      dispatch intent (_get_default_context ContextLoader_init) = Return r ∧
      Standalone.local_guide fs (PyStr q) = r) questions.
Proof.
  intros ((qs & Hqs & Hh) & _)%reachable_ok. exists qs. split; [done|].
  eapply Forall_impl; [done|]. intros q Hq. by apply standalone_local_guide_reply.
Qed.

Lemma page_conversation_replies_witness :
  ∃ questions,
    default [] (stored_chat_history
      (script (page_guide {| path_exists := λ _, true; read_text := λ _, Return "" |})
         {| pressed := Some AskGuide; user_input := "Temple etiquette?" |} fresh).1)
    = questions ≫= (λ q, [{| role := "user"; content := q |};
                          {| role := "bot";
                             content := Standalone.local_guide
                               {| path_exists := λ _, true; read_text := λ _, Return "" |}
                               (PyStr q) |}]) ∧
    Forall (λ q, ∃ intent r,
      process_query QueryProcessor_init (strip q) = Return intent ∧
      dispatch intent (_get_default_context ContextLoader_init) = Return r ∧
      Standalone.local_guide
        {| path_exists := λ _, true; read_text := λ _, Return "" |} (PyStr q) = r) questions.
Proof.
  apply (page_conversation_replies
           {| path_exists := λ _, true; read_text := λ _, Return "" |}).
  apply rtc_once. constructor.
Defined.

(** Claim C26. What the guide says on the page: in every state reachable from a new
    session the content of a message of the guide is the text of one of
    the thirteen replies of the catalogue; the page never shows a
    validation sentence of [local_guide], because it asks only questions
    that have a visible character. *)
Theorem page_replies_from_catalogue fs s message :
  rtc (run_step (page_guide fs)) fresh s →
  message ∈ default [] (stored_chat_history s) → role message = "bot" →
  content message
  ∈ render <$> catalogue (_get_default_context ContextLoader_init) known_places.
Proof.
  intros ((qs & Hqs & ->) & _)%reachable_ok (q & Hm & Hq)%list_elem_of_bind Hrole.
  rewrite Forall_forall in Hqs. specialize (Hqs q Hq). unfold exchange in Hm.
  apply elem_of_cons in Hm as [->|Hm]; [done|].
  apply list_elem_of_singleton in Hm as ->. by apply local_guide_reply_catalogue.
Qed.

Lemma page_replies_from_catalogue_witness :
  Standalone.local_guide {| path_exists := λ _, true; read_text := λ _, Return "" |}
    (PyStr "Temple etiquette?")
  ∈ render <$> catalogue (_get_default_context ContextLoader_init) known_places.
Proof.
  apply (page_replies_from_catalogue
           {| path_exists := λ _, true; read_text := λ _, Return "" |}
           (script (page_guide {| path_exists := λ _, true; read_text := λ _, Return "" |})
              {| pressed := Some AskGuide; user_input := "Temple etiquette?" |} fresh).1
           {| role := "bot";
              content := Standalone.local_guide
                {| path_exists := λ _, true; read_text := λ _, Return "" |}
                (PyStr "Temple etiquette?") |}).
  - apply rtc_once. constructor.
  - vm_compute. apply list_elem_of_further, list_elem_of_here.
  - reflexivity.
Defined.

(** Claim C22. Asking: in a state that satisfies the invariant, pressing
    Ask Guide with a text that has a visible character appends the question
    as typed and the answer to it, and ends the run by [st.rerun()]. *)
Theorem ask_appends_exchange guide text s :
  session_ok guide s →
  truthy (strip text) = true →
  script guide {| pressed := Some AskGuide; user_input := text |} s
  = ({| stored_chat_history :=
          Some (default [] (stored_chat_history s) ++ exchange guide text);
        stored_example_clicked := Some false;
        stored_selected_query := None |}, Rerun).
Proof.
  intros (_ & Hc & Hq) Ht.
  rewrite (surjective_pairing (script _ _ _)), script_stored, script_outcome.
  unfold rerun_requested, next_history. simpl. rewrite Ht, Hq. by case_match.
Qed.

Lemma ask_appends_exchange_witness :
  script (λ _, Raise (KeyError "peak_times"))
    {| pressed := Some AskGuide; user_input := " When? " |} fresh
  = ({| stored_chat_history :=
          Some (default [] (stored_chat_history fresh)
                ++ exchange (λ _, Raise (KeyError "peak_times")) " When? ");
        stored_example_clicked := Some false;
        stored_selected_query := None |}, Rerun).
Proof.
  exact (ask_appends_exchange (λ _, Raise (KeyError "peak_times")) " When? " fresh
           (fresh_ok _) eq_refl).
Defined.

(** Claim C21. Every interaction settles: whatever the user does, after the
    run it starts and the run that [st.rerun()] starts, if any, the page is
    shown, and the conversation shown is the conversation stored, which is
    the one before the interaction with the exchange appended (Ask Guide
    with a visible character), emptied (Clear Chat) or unchanged. *)
Theorem interact_settles guide ev text' s :
  ∃ p, (interact guide ev text' s).2 = Shown p ∧
       stored_chat_history (interact guide ev text' s).1
       = Some (next_history guide ev (default [] (stored_chat_history s))) ∧
       conversation p
       = display (next_history guide ev (default [] (stored_chat_history s))).
Proof.
  unfold interact.
  pose proof (script_stored guide ev s) as Hs. pose proof (script_outcome guide ev s) as Ho.
  destruct (script guide ev s) as [s' o]. cbv zeta in Hs. simpl in Hs, Ho. subst o.
  destruct (rerun_requested ev) eqn:Hr.
  - rewrite (surjective_pairing (script _ _ _)), script_stored, script_outcome.
    eexists. split_and!; [done| |]; simpl; by rewrite Hs.
  - assert (next_history guide ev (default [] (stored_chat_history s))
            = default [] (stored_chat_history s)) as Hn.
    { revert Hr. unfold rerun_requested, next_history.
      destruct (pressed ev) as [[| | |]|]; try done. by intros ->. }
    eexists. split_and!; [done| |]; simpl; by rewrite ?Hs, Hn.
Qed.

(** An example button: pressing the button of an example fills
    the input box with that example and nothing else; the conversation is
    not changed, nothing is asked, and the selection is dropped before the
    run ends. *)
Theorem example_click_offers_query guide i query text s :
  example_queries !! i = Some query →
  script guide {| pressed := Some (Example i); user_input := text |} s
  = ({| stored_chat_history := Some (default [] (stored_chat_history s));
        stored_example_clicked := Some false;
        stored_selected_query := None |},
     Shown {| offered := query; warning_shown := None;
              conversation := display (default [] (stored_chat_history s)) |}).
Proof.
  intros Hi.
  rewrite (surjective_pairing (script _ _ _)), script_stored, script_outcome.
  simpl. by rewrite example_buttons_spec, Hi.
Qed.

Lemma example_click_offers_query_witness :
  script (λ _, Return "Namaste")
    {| pressed := Some (Example 2); user_input := "typed" |} fresh
  = ({| stored_chat_history := Some (default [] (stored_chat_history fresh));
        stored_example_clicked := Some false;
        stored_selected_query := None |},
     Shown {| offered := "When to visit City Palace to avoid crowds?"; warning_shown := None;
              conversation := display (default [] (stored_chat_history fresh)) |}).
Proof.
  exact (example_click_offers_query (λ _, Return "Namaste") 2
           "When to visit City Palace to avoid crowds?" "typed" fresh eq_refl).
Defined.

(** Rendering does not escape: whatever occurs in the content of
    a message, markup included, occurs verbatim in the block that is handed
    to [st.markdown] with [unsafe_allow_html=True]. *)
Theorem render_message_embeds_markup message markup :
  markup ∈ₛ content message → markup ∈ₛ render_message message.
Proof.
  intros Hm. unfold render_message.
  case_bool_decide; repeat (apply str_in_app_r; try (by apply str_in_app_l)).
Qed.

Lemma render_message_embeds_markup_witness :
  "<script>" ∈ₛ render_message {| role := "user"; content := "hi <script>alert(1)</script>" |}.
Proof.
  exact (render_message_embeds_markup
           {| role := "user"; content := "hi <script>alert(1)</script>" |}
           "<script>" eq_refl).
Defined.

(** Round trip of the session state: what a run stores is read
    back unchanged by the initialisation of the next run, and storing what
    the initialisation read gives the stored state back exactly when both
    keys of the script were present, so the initialisation changes a new
    session only. *)
Theorem session_state_roundtrip ss s :
  initialise (store ss) = ss ∧
  (store (initialise s) = s ↔
   is_Some (stored_chat_history s) ∧ is_Some (stored_example_clicked s)).
Proof.
  split; [by destruct ss|].
  destruct s as [[h|] [c|] q]; unfold store, initialise; simpl; split;
    try done; try (by intros [[??] [??]]); try (by intros [= ]).
  all: intros _; split; by eexists.
Qed.

(** A run adds at most one exchange to the conversation. *)
Lemma next_history_questions guide ev questions :
  Forall (λ q, truthy (strip q) = true) questions →
  ∃ questions',
    next_history guide ev (questions ≫= exchange guide) = questions' ≫= exchange guide ∧
    Forall (λ q, truthy (strip q) = true) questions' ∧
    length questions' ≤ S (length questions).
Proof.
  intros Hqs. unfold next_history.
  destruct (pressed ev) as [[i| | |]|]; try (exists questions; split_and!; [done..|lia]).
  - destruct (truthy (strip (user_input ev))) eqn:Ht;
      [|exists questions; split_and!; [done..|lia]].
    exists (questions ++ [user_input ev]).
    rewrite bind_app, bind_singleton, Forall_app, Forall_singleton, length_app.
    split_and!; [done..|simpl; lia].
  - exists []. split_and!; [done..|simpl; lia].
Qed.

Lemma exchanges_length guide questions :
  length (questions ≫= exchange guide) = 2 * length questions.
Proof. induction questions as [|q qs IH]; [done|]. cbn in *. lia. Qed.

(** Claim C33. Growth of the conversation: after [n] runs of the script
    from a new session the conversation holds an even number of messages,
    at most [2 * n]: a run adds two messages or none, or empties the
    conversation. *)
Theorem conversation_length_bound guide n s :
  nsteps (run_step guide) n fresh s →
  length (default [] (stored_chat_history s)) ≤ 2 * n ∧
  Nat.Even (length (default [] (stored_chat_history s))).
Proof.
  intros Hn.
  assert (∃ questions, default [] (stored_chat_history s) = questions ≫= exchange guide
            ∧ Forall (λ q, truthy (strip q) = true) questions
            ∧ length questions ≤ n) as (qs & -> & _ & Hlen).
  { induction n as [|n IH] in s, Hn |- *.
    - inversion Hn; subst. by exists [].
    - apply nsteps_inv_r in Hn as (s0 & Hn & Hstep).
      destruct (IH _ Hn) as (qs & Hh & Hqs & Hlen).
      destruct Hstep as [ev s0]. rewrite script_stored. cbn. rewrite Hh.
      destruct (next_history_questions guide ev qs Hqs) as (qs' & -> & ? & ?).
      exists qs'. split_and!; [done..|lia]. }
  rewrite exchanges_length. split; [lia | by exists (length qs); lia].
Qed.

Lemma conversation_length_bound_witness :
  length (default [] (stored_chat_history
    (script (λ _, Return "Namaste")
       {| pressed := Some AskGuide; user_input := "hello" |} fresh).1)) ≤ 2 * 1.
Proof.
  apply (conversation_length_bound (λ _, Return "Namaste") 1).
  apply nsteps_once. constructor.
Defined.
