(* ===== verification/Page.v ===== *)
(** * Page: the page that a run of the script shows

    [Chat] keeps the parts of the page that depend on the session state.
    This file adds the rest of [src/streamlit_standalone.py], the calls that
    put fixed content on the page (configuration, style sheet, title,
    sidebar, the grid of example buttons, tips, footer, the two expanders),
    and assembles the page of a run that reaches the end of the script, in
    the order of the calls: [page_elements]. *)

From Stdlib Require Import ZifyNat.
From S2P Require Import Prelude PyString PyDict Streamlit Chat.

Set Warnings "-clear-no-such-hyp".

(** ** Fixed content *)

(** [st.set_page_config(...)]. *)
Definition page_config : element :=
  PageConfig "üè∞ Udaipur Local Guide AI" "üè∞" "wide" "expanded".

(** The style sheet. *)
Definition style_sheet : element :=
  Markdown (join nl [
      "";
      "<style>";
      "    .main-header {";
      "        text-align: center;";
      "        color: #8B4513;";
      "        font-size: 2.5rem;";
      "        margin-bottom: 1rem;";
      "    }";
      "    .sub-header {";
      "        text-align: center;";
      "        color: #CD853F;";
      "        font-size: 1.2rem;";
      "        margin-bottom: 2rem;";
      "    }";
      "    .chat-message {";
      "        padding: 1rem;";
      "        border-radius: 10px;";
      "        margin: 1rem 0;";
      "    }";
      "    .user-message {";
      "        background-color: #E6F3FF;";
      "        border-left: 4px solid #4A90E2;";
      "        color: #1F2937;";
      "    }";
      "    .bot-message {";
      "        background-color: #F0F8E6;";
      "        border-left: 4px solid #8FBC8F;";
      "        color: #1F2937;";
      "    }";
      "    .example-query {";
      "        background-color: #FFF8DC;";
      "        padding: 0.5rem;";
      "        border-radius: 5px;";
      "        margin: 0.2rem 0;";
      "        cursor: pointer;";
      "        border: 1px solid #DDD;";
      "    }";
      "    .example-query:hover {";
      "        background-color: #F5F5DC;";
      "        border-color: #8B4513;";
      "    }";
      "    ";
      "    /* Responsive */";
      "    @media (max-width: 768px) {";
      "        .main-header {";
      "            font-size: 2rem;";
      "        }";
      "        .sub-header {";
      "            font-size: 1rem;";
      "        }";
      "    }";
      "</style>";
      ""]) true.

(** The title and the subtitle. *)
Definition page_header : list element := [
  Markdown ("<h1 class=" +:+ dq +:+ "main-header" +:+ dq +:+ ">üè∞ Udaipur Local Guide AI üè∞</h1>") true;
  Markdown ("<p class=" +:+ dq +:+ "sub-header" +:+ dq +:+ ">Your AI companion for exploring the City of Lakes</p>") true
].

(** The sidebar. *)
Definition sidebar_info : element :=
  Sidebar [
    Header "üéØ What I Can Help With";
    Markdown (join nl [
      "";
      "    **üó£Ô∏è Language & Culture**";
      "    - Local greetings like " +:+ dq +:+ "Khamma Ghani" +:+ dq;
      "    - Hindi-Mewari phrases";
      "    - Cultural etiquette";
      "    ";
      "    **üçΩÔ∏è Food & Dining**";
      "    - Authentic local dishes";
      "    - Best food areas (Surajpole, Hathipole)";
      "    - Restaurant recommendations";
      "    ";
      "    **üèõÔ∏è Tourism & Travel**";
      "    - Crowd timing at attractions";
      "    - Transportation advice";
      "    - Best visit times";
      "    ";
      "    **üé≠ Cultural Guidance**";
      "    - Temple etiquette";
      "    - Local customs";
      "    - Respectful interactions";
      "    "]) false;
    Header "üìç Popular Locations";
    Markdown (join nl [
      "";
      "    - **City Palace** - Royal architecture";
      "    - **Lake Pichola** - Scenic boat rides";
      "    - **Fateh Sagar** - Evening walks";
      "    - **Sajjangarh** - Sunset views";
      "    - **Surajpole** - Food street";
      "    - **Hathipole** - Local markets";
      "    "]) false
  ].

(** ** The chat column *)

(** The label and the key of the button of example [i]. *)
Definition example_label (query : string) : string := "üí° " +:+ query.
Definition example_key (i : nat) : string := "example_" +:+ str_of_nat i.

(** The grid of example buttons: button [i] goes to column [i % 2] of
    [st.columns(2)]. *)
Definition example_grid (queries : list string) : list (list element) :=
  foldl (λ cols '(i, query),
           add_to_column (i mod 2)
             (Button (example_label query) (Some (example_key i))) cols)
        [[]; []] (enumerate queries).

(** The submit button. *)
Definition submit_button : element := Button "üöÄ Ask Guide" None.

(** The first column: the examples, the input box with the value offered
    to it, the submit button and the warning, if any. *)
Definition chat_column (p : page) : list element :=
  [ Header "üí¨ Ask Your Question";
    Subheader "üîç Try These Examples:";
    Columns [1; 1] (example_grid example_queries);
    TextInput "Your question:" "Ask me about Udaipur's culture, food, language, or tourist information..."
              "user_input" (offered p);
    submit_button ]
  ++ match warning_shown p with
     | Some text => [Warning text]
     | None => []
     end.

(** The second column. *)
Definition quick_actions : list element := [
  Header "üé® Quick Actions";
  Button "üóëÔ∏è Clear Chat" None;
  Button "üîÑ Refresh" None;
  Header "‚ÑπÔ∏è Tips";
  Info (join nl [
      "";
      "    **üí° Pro Tips:**";
      "    - Be specific about locations";
      "    - Ask about timing for better planning";
      "    - Mention your interests (food, culture, etc.)";
      "    - Use local place names for better results";
      "    "])
].

(** ** Below the columns *)

(** The conversation: its header and one block of raw HTML for each
    message. *)
Definition conversation_elements (p : page) : list element :=
  match conversation p with
  | [] => []
  | title :: blocks => Header title :: ((λ block, Markdown block true) <$> blocks)
  end.

Definition footer : list element := [
  Markdown "---" false;
  Markdown (join nl [
      "";
      "<div style=" +:+ dq +:+ "text-align: center; color: #666; padding: 1rem;" +:+ dq +:+ ">";
      "    <p>üè∞ <strong>Udaipur Local Guide AI</strong> - Powered by local knowledge and cultural understanding</p>";
      "    <p>üôè <em>Khamma Ghani! Welcome to the City of Lakes</em></p>";
      "</div>";
      ""]) true
].

Definition about_expanders : list element := [
  Expander "üìö About This Guide" [Markdown (join nl [
      "";
      "    This AI guide is trained on authentic Udaipur knowledge including:";
      "    ";
      "    - **Local Language**: Traditional greetings, common phrases, and cultural expressions";
      "    - **Food Culture**: Authentic dishes, best eating areas, and local specialties";
      "    - **Tourism Insights**: Crowd patterns, optimal visit times, and transportation tips";
      "    - **Cultural Etiquette**: Respectful practices for temples, palaces, and local interactions";
      "    ";
      "    The guide uses real local knowledge to provide culturally-aware and practical advice";
      "    for both tourists and locals exploring Udaipur.";
      "    "]) false];
  Expander "üöÄ How to Use" [Markdown (join nl [
      "";
      "    1. **Ask Questions**: Type your question in the input box or click on example queries";
      "    2. **Be Specific**: Mention locations, times, or specific interests for better responses";
      "    3. **Explore Categories**: Try questions about language, food, tourism, or culture";
      "    4. **Follow Up**: Ask related questions to dive deeper into topics";
      "    5. **Clear Chat**: Use the clear button to start fresh conversations";
      "    "]) false]
].

(** ** The page *)

(** The page of a run that reaches the end of the script, with [side] as
    its sidebar section. *)
Definition page_with (side : element) (p : page) : list element :=
  [page_config; style_sheet] ++ page_header
  ++ [side; Columns [3; 1] [chat_column p; quick_actions]]
  ++ conversation_elements p ++ footer ++ about_expanders.

(** The page of the script as it is. *)
Definition page_elements (p : page) : list element := page_with sidebar_info p.

(** What the browser shows after a run: the page, or nothing yet when the
    run ended in [st.rerun()]. *)
Definition shown (o : outcome) : list element :=
  match o with
  | Shown p => page_elements p
  | Rerun => []
  end.

(** ** Specification of the grid *)

(** The button of an enumerated example. *)
Definition example_button (iq : nat * string) : element :=
  Button (example_label iq.2) (Some (example_key iq.1)).

Definition in_column (j : nat) (iq : nat * string) : bool := iq.1 mod 2 =? j.

(** Where a button is: the cell of the grid at column [i % 2], row
    [i // 2]. *)
Definition grid_cell (cols : list (list element)) (i : nat) : option element :=
  cols !! (i mod 2) ≫= λ col, col !! (i / 2).

(** * Laws *)

(** [lia] decides goals with division and remainder by a constant. *)
#[local] Ltac Zify.zify_post_hook ::= Z.to_euclidean_division_equations.

(** ** The grid of example buttons *)

Lemma enumerate_snoc {A} (l : list A) x :
  enumerate (l ++ [x]) = enumerate l ++ [(length l, x)].
Proof.
  unfold enumerate, enumerate_from. rewrite imap_app. simpl. by rewrite Nat.add_0_r.
Qed.

(** Column [j] of the grid holds the buttons of the examples whose index is
    [j] modulo 2, in the order of the list. *)
Lemma example_grid_spec queries :
  example_grid queries
  = [example_button <$> filter (λ iq, in_column 0 iq) (enumerate queries);
     example_button <$> filter (λ iq, in_column 1 iq) (enumerate queries)].
Proof.
  induction queries as [|query queries IH] using rev_ind; [done|].
  unfold example_grid in *. rewrite enumerate_snoc, foldl_app, IH.
  rewrite !filter_app, !fmap_app, !filter_cons, !filter_nil.
  unfold in_column, add_to_column. cbn -[Nat.modulo].
  pose proof (Nat.mod_upper_bound (length queries) 2 ltac:(lia)) as Hlt.
  remember (length queries mod 2) as k eqn:Hk.
  destruct k as [|[|k]]; [| |lia]; cbn -[Nat.modulo]; by rewrite ?app_nil_r.
Qed.

Lemma example_key_inj : Inj (=) (=) example_key.
Proof.
  intros i j Heq. unfold example_key in Heq.
  apply (inj str_of_nat). by simplify_eq.
Qed.

Lemma example_id_inj i j : ByKey (example_key i) = ByKey (example_key j) → i = j.
Proof. intros Heq. apply example_key_inj. congruence. Qed.

Lemma example_button_ids l :
  concat (map widget_ids (example_button <$> l)) = (λ iq, ByKey (example_key iq.1)) <$> l.
Proof. induction l as [|iq l IH]; [done|]. cbn in *. by f_equal. Qed.

Lemma enumerate_NoDup_fst {A} (l : list A) : NoDup (enumerate l).*1.
Proof. unfold enumerate. rewrite enumerate_from_fst. apply NoDup_seq. Qed.

Lemma example_column_ids_NoDup j queries :
  NoDup ((λ iq, ByKey (example_key iq.1)) <$> filter (λ iq, in_column j iq) (enumerate queries)).
Proof.
  pose proof (enumerate_NoDup_fst queries) as Hnd%NoDup_fmap_1.
  apply NoDup_fmap_2_strong; [|by apply NoDup_filter].
  intros [i q] [i' q'] [_ Hi]%list_elem_of_filter [_ Hi']%list_elem_of_filter Hk%example_id_inj.
  simpl in Hk. subst i'. f_equal.
  apply elem_of_enumerate in Hi, Hi'. congruence.
Qed.

(** The buttons of the grid have different keys, however many examples
    there are. *)
Lemma example_grid_ids_NoDup queries :
  NoDup (widget_ids (Columns [1; 1] (example_grid queries))).
Proof.
  simpl. rewrite example_grid_spec. simpl. rewrite app_nil_r, !example_button_ids.
  apply NoDup_app. split_and!; [apply example_column_ids_NoDup| |apply example_column_ids_NoDup].
  intros id ([i q] & -> & [Hc _]%list_elem_of_filter)%list_elem_of_fmap
            ([j q'] & Hk%example_id_inj & [Hc' _]%list_elem_of_filter)%list_elem_of_fmap.
  simpl in *. subst j. unfold in_column in *. simpl in *.
  apply Is_true_true, Nat.eqb_eq in Hc, Hc'. lia.
Qed.

Arguments example_grid : simpl never.

Lemma conversation_elements_ids p : page_widget_ids (conversation_elements p) = [].
Proof.
  unfold conversation_elements. destruct (conversation p) as [|title blocks]; [done|].
  rewrite page_widget_ids_cons. cbn [widget_ids app].
  induction blocks as [|block blocks IH]; [done|]. by rewrite fmap_cons, page_widget_ids_cons.
Qed.

(** The identities of the widgets of a page: those of the sidebar, the
    example buttons, the input box, the submit button and the buttons of
    the second column. *)
Lemma page_with_ids side p :
  page_widget_ids (page_with side p)
  = widget_ids side ++ widget_ids (Columns [1; 1] (example_grid example_queries))
    ++ ByKey "user_input" :: widget_ids submit_button ++ page_widget_ids quick_actions.
Proof.
  unfold page_with. rewrite !page_widget_ids_app, conversation_elements_ids.
  assert (page_widget_ids footer = [] ∧ page_widget_ids about_expanders = []
          ∧ page_widget_ids page_header = []
          ∧ page_widget_ids [page_config; style_sheet] = []) as (-> & -> & -> & ->) by done.
  rewrite page_widget_ids_cons. cbn [app]. rewrite !app_nil_r. f_equal.
  unfold chat_column. destruct (warning_shown p); cbn;
    by rewrite !app_nil_r, <-!(assoc_L (++)).

Qed.

(** The widgets of the chat and action columns have different identities,
    and none is the key of an example button's namesake. *)
Lemma columns_ids_NoDup :
  NoDup (widget_ids (Columns [1; 1] (example_grid example_queries))
         ++ ByKey "user_input" :: widget_ids submit_button ++ page_widget_ids quick_actions).
Proof.
  apply NoDup_app. split_and!.
  - apply example_grid_ids_NoDup.
  - cbn [widget_ids]. rewrite example_grid_spec. cbn [map concat].
    rewrite app_nil_r, !example_button_ids.
    intros id [Hid|Hid]%elem_of_app Hin;
      apply list_elem_of_fmap in Hid as (iq & -> & _);
      cbn in Hin; rewrite !elem_of_cons, elem_of_nil in Hin;
      unfold example_key in Hin; naive_solver.
  - cbn. repeat (apply NoDup_cons_2; [rewrite ?elem_of_cons, elem_of_nil; naive_solver|]).
    apply NoDup_nil_2.
Qed.

(** A key that is not taken by the page. *)
Lemma columns_ids_fresh key :
  key ≠ "user_input" → ¬ startswith "example_" key = true →
  ByKey key ∉ widget_ids (Columns [1; 1] (example_grid example_queries))
         ++ ByKey "user_input" :: widget_ids submit_button ++ page_widget_ids quick_actions.
Proof.
  intros Hkey Hex. cbn [widget_ids]. rewrite example_grid_spec. cbn [map concat].
  rewrite app_nil_r, !example_button_ids, !elem_of_app.
  intros [[Hid|Hid]|Hid].
  1,2: apply list_elem_of_fmap in Hid as (iq & [= ->] & _); by destruct Hex.
  cbn in Hid. rewrite !elem_of_cons, elem_of_nil in Hid. naive_solver.
Qed.

(** The raw HTML of a page: the style sheet, the title and the subtitle,
    the blocks of the conversation, and the footer. *)
Lemma page_elements_raw_html p :
  page_raw_html (page_elements p)
  = raw_html style_sheet ++ page_raw_html page_header
    ++ tail (conversation p) ++ page_raw_html footer.
Proof.
  unfold page_elements, page_with, chat_column, conversation_elements.
  rewrite !page_raw_html_app.
  assert (page_raw_html [sidebar_info; Columns [3; 1] [chat_column p; quick_actions]] = [])
    as Hcols by (unfold chat_column; by destruct (warning_shown p)).
  unfold chat_column in Hcols. rewrite Hcols.
  assert (page_raw_html about_expanders = []) as -> by done.
  rewrite app_nil_r. cbn [app]. f_equal. f_equal. f_equal.
  destruct (conversation p) as [|title blocks]; [done|]. cbn [tail].
  induction blocks as [|block blocks IH]; [done|]. cbn in *. by f_equal.
Qed.

(** ** The page of a run *)

(** Claim C35. Layout of the example buttons: the grid has two columns, the
    left one holds the buttons of the even examples and the right one those
    of the odd examples (so their sizes differ by at most one), and the
    button of example [i] is in column [i % 2] at row [i // 2], with the
    label and the key made from the example and its index. *)
Theorem example_grid_layout queries :
  ∃ left right,
    example_grid queries = [left; right] ∧
    length left = (length queries + 1) / 2 ∧
    length right = length queries / 2 ∧
    ∀ i query, queries !! i = Some query →
      grid_cell [left; right] i = Some (example_button (i, query)).
Proof.
  induction queries as [|x queries IH] using rev_ind.
  { exists [], []. by split_and!. }
  destruct IH as (left & right & Hg & Hl & Hr & Hcell).
  unfold example_grid in *. rewrite enumerate_snoc, foldl_app, Hg. cbn [foldl].
  unfold add_to_column. rewrite length_app. cbn [length].
  pose proof (Nat.mod_upper_bound (length queries) 2 ltac:(lia)) as Hlt.
  pose proof (Nat.div_mod_eq (length queries) 2) as Hdm.
  remember (length queries mod 2) as k eqn:Hk. destruct k as [|[|k]]; [| |lia];
    cbn [alter list_alter]; eexists _, _; (split; [reflexivity|]);
    rewrite ?length_app; cbn [length]; (split_and!; [lia | lia |]);
    intros i q Hi; unfold grid_cell;
    pose proof (Nat.mod_upper_bound i 2 ltac:(lia));
    pose proof (Nat.div_mod_eq i 2).
  all: destruct (decide (i = length queries)) as [->|Hne].
  all: try (rewrite lookup_app_r in Hi by lia; rewrite Nat.sub_diag in Hi;
            injection Hi as <-; rewrite <-Hk; cbn -[Nat.div Nat.modulo];
            rewrite lookup_app_r by lia; by replace (_ - _) with 0 by lia).
  all: apply lookup_lt_Some in Hi as Hlen; rewrite length_app in Hlen; cbn in Hlen;
    rewrite lookup_app_l in Hi by lia; specialize (Hcell i q Hi);
    revert Hcell; unfold grid_cell;
    destruct (i mod 2) as [|[|?]] eqn:Him; [| |lia]; cbn -[Nat.div Nat.modulo]; try done;
    intros Hc; apply lookup_lt_Some in Hc as ?; by rewrite lookup_app_l.
Qed.

(** Claim C34. No duplicate widget: on the page of every run the widgets
    have different identities (the keys of the example buttons, the key of
    the input box, the labels of the three buttons without a key), so
    Streamlit never refuses the page for a duplicate key. *)
Theorem page_widget_ids_unique p : NoDup (page_widget_ids (page_elements p)).
Proof. unfold page_elements. rewrite page_with_ids. apply columns_ids_NoDup. Qed.

(** Claim C36. What reaches the browser as raw HTML: on the page of every
    run, the texts rendered with [unsafe_allow_html=True] are the style
    sheet, the title, the subtitle, one block for each message of the
    stored conversation, and the footer; and whatever occurs in the content
    of a stored message, markup included, occurs verbatim in one of these
    texts: the text the user typed reaches the page unescaped. *)
Theorem page_raw_html_of_run guide ev s p :
  (script guide ev s).2 = Shown p →
  page_raw_html (page_elements p)
  = raw_html style_sheet ++ page_raw_html page_header
    ++ (render_message <$> default [] (stored_chat_history s))
    ++ page_raw_html footer ∧
  ∀ message markup,
    message ∈ default [] (stored_chat_history s) →
    markup ∈ₛ content message →
    ∃ block, block ∈ page_raw_html (page_elements p) ∧ markup ∈ₛ block.
Proof.
  rewrite script_outcome, page_elements_raw_html.
  destruct (rerun_requested ev); [done|]. intros [= <-]. cbn [conversation].
  assert (tail (display (default [] (stored_chat_history s)))
          = render_message <$> default [] (stored_chat_history s)) as ->.
  { unfold display. by destruct (default [] (stored_chat_history s)). }
  split; [done|]. intros message markup Hin Hm.
  exists (render_message message). split; [|by apply render_message_embeds_markup].
  rewrite !elem_of_app. right. right. left. by apply list_elem_of_fmap_2.
Qed.

Lemma page_raw_html_of_run_witness :
  ∃ block,
    block ∈ page_raw_html (page_elements
      {| offered := ""; warning_shown := None;
         conversation := display [{| role := "user"; content := "hi <script>alert(1)</script>" |};
                                  {| role := "bot"; content := "Namaste" |}] |}) ∧
    "<script>" ∈ₛ block.
Proof.
  apply (proj2 (page_raw_html_of_run (λ _, Return "Namaste")
           {| pressed := None; user_input := "" |}
           {| stored_chat_history :=
                Some [{| role := "user"; content := "hi <script>alert(1)</script>" |};
                      {| role := "bot"; content := "Namaste" |}];
              stored_example_clicked := Some false;
              stored_selected_query := None |}
           {| offered := ""; warning_shown := None;
              conversation := display [{| role := "user"; content := "hi <script>alert(1)</script>" |};
                                       {| role := "bot"; content := "Namaste" |}] |} eq_refl)
         {| role := "user"; content := "hi <script>alert(1)</script>" |} "<script>").
  - apply list_elem_of_here.
  - reflexivity.
Defined.
