(* ===== verification/Theme.v ===== *)
(** * Theme: the sidebar patch of [src/theme_fix.py]

    The file is a fragment meant to replace the sidebar section of the page
    script.  Its logic is the theme toggle: a radio button whose default
    follows [st.session_state.dark_mode], and an update of that key followed
    by [apply_theme()] and [st.rerun()] when the choice differs from it.
    The fragment reads a key that it does not initialise and calls a
    function that it does not define; both are inputs of the model: the key
    is absent or holds a Boolean, and [apply_theme] is undefined or a call
    that returns or raises.  An assignment made before an exception is kept,
    so a run yields the new state together with its ending.  After the
    toggle the fragment puts the theme settings and the two information
    sections into the sidebar ([theme_sidebar]); [patched_page] is the page
    script with this sidebar in place of its own. *)

From S2P Require Import Prelude PyString PyDict Streamlit Chat Page.

Set Warnings "-clear-no-such-hyp".

(** ** State *)

(** [st.session_state] as far as the fragment uses it: the key [dark_mode]
    is absent or holds a Boolean. *)
Record theme_state : Type := {
  dark_mode : option bool;
}.

(** How a run of the fragment ends when no exception is raised: by
    [st.rerun()], or by reaching the rest of the sidebar. *)
Inductive ending : Type := Rerun | Completed.

#[export] Instance theme_state_eq_dec : EqDecision theme_state.
Proof. solve_decision. Defined.
#[export] Instance ending_eq_dec : EqDecision ending.
Proof. solve_decision. Defined.

(** ** The fragment *)

Definition theme_options : list string := ["🌞 Light Mode"; "🌙 Dark Mode"].

(** [st.radio(label, options, index, key)]: the option the user selected,
    or the option at [index] when nothing has been selected yet. *)
Definition st_radio (selected : option string) (options : list string)
    (index : nat) : result string :=
  match selected with
  | Some choice => Return choice
  | None =>
      match options !! index with
      | Some choice => Return choice
      | None => Raise (Exception "Radio index out of range")
      end
  end.

(** Reading [st.session_state.dark_mode]. *)
Definition get_dark_mode (s : theme_state) : result bool :=
  match dark_mode s with
  | Some dark => Return dark
  | None => Raise (AttributeError "dark_mode")
  end.

(** Calling [apply_theme()], a name the fragment does not define. *)
Definition call_apply_theme (apply_theme : option (result unit)) : result unit :=
  match apply_theme with
  | Some call => call
  | None => Raise (NameError "name 'apply_theme' is not defined")
  end.

(** The theme toggle, lines 9 to 21: the state it leaves and how it
    ends. *)
Definition theme_toggle (apply_theme : option (result unit))
    (selected : option string) (s : theme_state) : theme_state * result ending :=
  match get_dark_mode s with
  | Raise e => (s, Raise e)
  | Return dark =>
      match st_radio selected theme_options (if dark then 1 else 0) with
      | Raise e => (s, Raise e)
      | Return theme_choice =>
          let new_dark_mode := bool_decide (theme_choice = "🌙 Dark Mode") in
          match get_dark_mode s with
          | Raise e => (s, Raise e)
          | Return dark =>
              if negb (eqb new_dark_mode dark) then
                let s := {| dark_mode := Some new_dark_mode |} in
                match call_apply_theme apply_theme with
                | Raise e => (s, Raise e)
                | Return _ => (s, Return Rerun)
                end
              else (s, Return Completed)
          end
      end
  end.

(** ** The sidebar of the fragment *)

(** The elements that the fragment puts into the sidebar when the toggle
    lets the run go on: the theme settings and the two information
    sections. *)
Definition theme_sidebar (dark : bool) : element :=
  Sidebar [
    Header "🎨 Theme Settings";
    Radio "Choose Theme:" theme_options (if dark then 1 else 0) "theme_toggle";
    Header "🎯 What I Can Help With";
    Markdown (join nl [
      "";
      "    **🗣️ Language & Culture**";
      "    - Local greetings like " +:+ dq +:+ "Khamma Ghani" +:+ dq;
      "    - Hindi-Mewari phrases";
      "    - Cultural etiquette";
      "    ";
      "    **🍽️ Food & Dining**";
      "    - Authentic local dishes";
      "    - Best food areas (Surajpole, Hathipole)";
      "    - Restaurant recommendations";
      "    ";
      "    **🏛️ Tourism & Travel**";
      "    - Crowd timing at attractions";
      "    - Transportation advice";
      "    - Best visit times";
      "    ";
      "    **🎭 Cultural Guidance**";
      "    - Temple etiquette";
      "    - Local customs";
      "    - Respectful interactions";
      "    "]) false;
    Header "📍 Popular Locations";
    Markdown (join nl [
      "";
      "    - **City Palace** - Royal architecture";
      "    - **Lake Pichola** - Scenic boat rides";
      "    - **Fateh Sagar** - Evening walks";
      "    - **Sajjangarh** - Sunset views";
      "    - **Surajpole** - Food street";
      "    - **Hathipole** - Local markets";
      "    "]) false
  ].

(** A run of the whole fragment: the state it leaves, and the sidebar it
    has built unless the run was cut short by [st.rerun()] or by an
    exception. *)
Definition theme_fragment (apply_theme : option (result unit))
    (selected : option string) (s : theme_state)
    : theme_state * result (option element) :=
  match theme_toggle apply_theme selected s with
  | (s', Return Completed) =>
      (s', Return (Some (theme_sidebar (default false (dark_mode s)))))
  | (s', Return Rerun) => (s', Return None)
  | (s', Raise e) => (s', Raise e)
  end.

(** The page script with its sidebar section replaced by the fragment, as
    the head of the file instructs. *)
Definition patched_page (dark : bool) (p : page) : list element :=
  page_with (theme_sidebar dark) p.

(** * Laws *)

Lemma st_radio_theme (selected : option string) (dark : bool) :
  st_radio selected theme_options (if dark then 1 else 0)
  = Return (default (if dark then "🌙 Dark Mode" else "🌞 Light Mode") selected).
Proof. by destruct selected, dark. Qed.

(** The toggle in terms of the mode that the selection stands for. *)
Lemma theme_toggle_spec apply_theme (selected : option string) (dark : bool) :
  let new_dark_mode :=
    from_option (λ choice, bool_decide (choice = "🌙 Dark Mode")) dark selected in
  theme_toggle apply_theme selected {| dark_mode := Some dark |} =
  if eqb new_dark_mode dark then ({| dark_mode := Some dark |}, Return Completed)
  else ({| dark_mode := Some new_dark_mode |},
        call_apply_theme apply_theme ≫= λ _, Return Rerun).
Proof.
  unfold theme_toggle. simpl. rewrite st_radio_theme.
  destruct selected as [choice|], dark; simpl; try done;
    case_bool_decide; simpl; try done; by destruct (call_apply_theme apply_theme).
Qed.

(** ** The behaviour of the toggle *)

(** The fragment in this repository: when the key [dark_mode] has
    not been initialised the toggle raises [AttributeError] and changes
    nothing; when it holds a value and [apply_theme] is not defined, the
    toggle never ends in [st.rerun()]: it completes without a change, or it
    records the new mode and raises [NameError]. *)
Theorem theme_toggle_undefined_names (selected : option string) :
  (∀ apply_theme,
     theme_toggle apply_theme selected {| dark_mode := None |}
     = ({| dark_mode := None |}, Raise (AttributeError "dark_mode"))) ∧
  (∀ dark,
     theme_toggle None selected {| dark_mode := Some dark |}
     = ({| dark_mode := Some dark |}, Return Completed) ∨
     theme_toggle None selected {| dark_mode := Some dark |}
     = ({| dark_mode := Some (negb dark) |},
        Raise (NameError "name 'apply_theme' is not defined"))).
Proof.
  split; [done|]. intros dark. rewrite theme_toggle_spec. cbv zeta.
  destruct (from_option _ _ _) eqn:Hn, dark; simpl; auto.
Qed.

(** The toggle settles: when [dark_mode] holds a value and
    [apply_theme] returns, a run records the mode that the selection stands
    for, and a second run with the same selection changes nothing and does
    not ask for another run. *)
Theorem theme_toggle_settles (choice : string) (dark : bool) :
  let s' := {| dark_mode := Some (bool_decide (choice = "🌙 Dark Mode")) |} in
  (theme_toggle (Some (Return ())) (Some choice) {| dark_mode := Some dark |}).1 = s' ∧
  theme_toggle (Some (Return ())) (Some choice) s' = (s', Return Completed).
Proof.
  cbv zeta. rewrite !theme_toggle_spec. simpl.
  destruct (bool_decide _), dark; done.
Qed.

(** The patched page: with the sidebar section of the page script
    replaced by the fragment, the widgets of the page still have different
    identities, the key of the theme radio included; and when the toggle
    lets the run go on, the radio shows the mode that the state holds. *)
Theorem patched_page_widget_ids_unique dark p :
  NoDup (page_widget_ids (patched_page dark p)) ∧
  ∀ apply_theme selected side,
    theme_fragment apply_theme selected {| dark_mode := Some dark |}
    = ({| dark_mode := Some dark |}, Return (Some side)) →
    side = theme_sidebar dark.
Proof.
  split.
  - unfold patched_page. rewrite page_with_ids. cbn [widget_ids theme_sidebar map concat app].
    apply NoDup_cons_2; [|apply columns_ids_NoDup].
    by apply columns_ids_fresh.
  - intros apply_theme selected side. unfold theme_fragment.
    rewrite theme_toggle_spec. cbv zeta.
    destruct (eqb _ dark); [by intros [= <-]|].
    by destruct (call_apply_theme apply_theme).
Qed.
