(* ===== verification/Patched.v ===== *)
(** * Patched: the page script with the sidebar of [src/theme_fix.py]

    The head of [src/theme_fix.py] asks to replace the sidebar section of
    [src/streamlit_standalone.py] by the fragment.  A run of the result
    initialises the two keys of the chat, runs the fragment in place of the
    sidebar, and goes on with the chat interface unless the fragment ended
    the run by [st.rerun()] or by an exception.  Session state keeps what
    was assigned before the run ended.  The state is the key [dark_mode]
    together with the stored state of the chat; what the user does is the
    theme selected, if any, together with the interaction with the chat. *)

From S2P Require Import Prelude PyString PyDict Streamlit Chat Page Theme.

Set Warnings "-clear-no-such-hyp".

(** ** State, interactions, outcomes *)

Record patched_state : Type := {
  theme : theme_state;
  chat : stored;
}.

Record patched_interaction : Type := {
  theme_selected : option string;
  chat_interaction : interaction;
}.

(** How a run of the patched script ends: by [st.rerun()], by an exception
    that Streamlit reports in place of the page, or with the page. *)
Inductive patched_outcome : Type :=
| PatchedRerun
| PatchedRaised (e : exn)
| PatchedShown (page : list element).

(** A session in which nothing has been stored, the key [dark_mode]
    included: no file of the repository initialises it. *)
Definition patched_fresh : patched_state :=
  {| theme := {| dark_mode := None |}; chat := fresh |}.

(** ** The script *)

(** One run of the patched script. *)
Definition patched_script (apply_theme : option (result unit))
    (guide : string → result string) (ev : patched_interaction) (s : patched_state)
    : patched_state * patched_outcome :=
  let ss := initialise (chat s) in
  match theme_fragment apply_theme (theme_selected ev) (theme s) with
  | (t, Raise e) => ({| theme := t; chat := store ss |}, PatchedRaised e)
  | (t, Return None) => ({| theme := t; chat := store ss |}, PatchedRerun)
  | (t, Return (Some side)) =>
      match script guide (chat_interaction ev) (store ss) with
      | (c, Chat.Rerun) => ({| theme := t; chat := c |}, PatchedRerun)
      | (c, Shown p) => ({| theme := t; chat := c |}, PatchedShown (page_with side p))
      end
  end.

(** The stored state changes by runs of the patched script. *)
Inductive patched_step (apply_theme : option (result unit))
    (guide : string → result string) : relation patched_state :=
| patched_run ev s :
    patched_step apply_theme guide s (patched_script apply_theme guide ev s).1.

(** ** Specification *)

(** The chat of the patched page and the chat of the page script hold the
    same session state. *)
Definition same_chat (s : patched_state) (c : stored) : Prop :=
  initialise (chat s) = initialise c.

(** * Laws *)

Section patched_laws.
Context (apply_theme : option (result unit)) (guide : string → result string).

(** The chat part of a run is a run of the page script or leaves the
    session state of the chat as it is. *)
Lemma patched_script_chat ev s :
  initialise (chat (patched_script apply_theme guide ev s).1) = initialise (chat s) ∨
  chat (patched_script apply_theme guide ev s).1
  = (script guide (chat_interaction ev) (chat s)).1.
Proof.
  unfold patched_script.
  destruct (theme_fragment _ _ _) as [t [[side|]|e]]; cbn [fst chat];
    try (left; apply initialise_store).
  right. rewrite (script_initialise guide _ (store (initialise (chat s))) (chat s))
    by apply initialise_store.
  by destruct (script guide (chat_interaction ev) (chat s)) as [c [|p]].
Qed.

(** The simulation diagram: a step of the patched page is matched by at
    most one run of the page script. *)
Lemma patched_step_simulated s s' c :
  patched_step apply_theme guide s s' → same_chat s c →
  ∃ c', rtc (run_step guide) c c' ∧ same_chat s' c'.
Proof.
  intros [ev s0] Hc. unfold same_chat in *.
  destruct (patched_script_chat ev s0) as [H|H].
  - exists c. split; [done | congruence].
  - exists (script guide (chat_interaction ev) c).1. split.
    + apply rtc_once. constructor.
    + by rewrite H, (script_initialise guide _ (chat s0) c).
Qed.

Lemma patched_reachable_simulated t s :
  rtc (patched_step apply_theme guide) {| theme := t; chat := fresh |} s →
  ∃ c, rtc (run_step guide) fresh c ∧ same_chat s c.
Proof.
  intros Hs. by eapply (rtc_simulation _ _ same_chat patched_step_simulated).
Qed.

(** When the key [dark_mode] is absent the fragment raises, and the run
    changes neither the key nor the session state of the chat. *)
Lemma patched_script_uninitialised ev s :
  dark_mode (theme s) = None →
  patched_script apply_theme guide ev s
  = ({| theme := theme s; chat := store (initialise (chat s)) |},
     PatchedRaised (AttributeError "dark_mode")).
Proof.
  intros Hd. unfold patched_script, theme_fragment, theme_toggle, get_dark_mode.
  by rewrite Hd.
Qed.

End patched_laws.

(** ** The patched page *)

(** The chat under the patched page: whatever the key [dark_mode] holds at
    the start and whatever [apply_theme] does, every state that runs of the
    patched script reach holds the session state of the chat that some
    sequence of runs of the page script reaches, a theme switch or a
    failing fragment counting for no run.  This holds of any sidebar that
    leaves the keys of the chat alone, not of this fragment in particular:
    it says that pasting the fragment cannot break the conversation. *)
Theorem patched_page_refines_script apply_theme guide t s :
  rtc (patched_step apply_theme guide) {| theme := t; chat := fresh |} s →
  ∃ c, rtc (run_step guide) fresh c ∧
       initialise (chat s) = initialise c ∧
       session_ok guide (chat s).
Proof.
  intros (c & Hc & Hsame)%patched_reachable_simulated. exists c. split_and!; [done..|].
  apply (session_ok_initialise guide c); [done|]. by apply reachable_ok.
Qed.

Lemma patched_page_refines_script_witness :
  session_ok (λ _, Return "Namaste")
    (chat (patched_script (Some (Return ())) (λ _, Return "Namaste")
             {| theme_selected := None;
                chat_interaction := {| pressed := Some AskGuide; user_input := "hello" |} |}
             {| theme := {| dark_mode := Some false |}; chat := fresh |}).1).
Proof.
  destruct (patched_page_refines_script (Some (Return ())) (λ _, Return "Namaste")
              {| dark_mode := Some false |} _
              (rtc_once _ _ (patched_run _ _
                 {| theme_selected := None;
                    chat_interaction :=
                      {| pressed := Some AskGuide; user_input := "hello" |} |}
                 {| theme := {| dark_mode := Some false |}; chat := fresh |})))
    as (c & _ & _ & Hok).
  exact Hok.
Defined.

(** Claim C27. The patched page as the repository has it: no file
    initialises the key [dark_mode], so from a new session every run of the
    patched script, whatever the user does and whatever [apply_theme] is,
    ends in the fragment with [AttributeError] before the chat interface is
    built; the key stays absent and the conversation stays empty. *)
Theorem patched_page_as_shipped apply_theme guide s :
  rtc (patched_step apply_theme guide) patched_fresh s →
  dark_mode (theme s) = None ∧
  default [] (stored_chat_history (chat s)) = [] ∧
  ∀ ev, (patched_script apply_theme guide ev s).2
        = PatchedRaised (AttributeError "dark_mode").
Proof.
  intros Hs.
  assert (dark_mode (theme s) = None ∧ default [] (stored_chat_history (chat s)) = [])
    as [Hd Hh].
  { revert Hs. apply (rtc_invariant (patched_step apply_theme guide)
      (λ s, dark_mode (theme s) = None ∧ default [] (stored_chat_history (chat s)) = []));
      [|done].
    intros s0 s' [Hd Hh] Hstep. revert Hd Hh. destruct Hstep as [ev s0]. intros Hd Hh.
    by rewrite patched_script_uninitialised. }
  split_and!; [done..|]. intros ev. by rewrite patched_script_uninitialised.
Qed.

Lemma patched_page_as_shipped_witness :
  (patched_script None (λ _, Return "Namaste")
     {| theme_selected := Some "🌙 Dark Mode";
        chat_interaction := {| pressed := Some AskGuide; user_input := "hello" |} |}
     patched_fresh).2
  = PatchedRaised (AttributeError "dark_mode").
Proof.
  exact (proj2 (proj2 (patched_page_as_shipped None (λ _, Return "Namaste")
                         patched_fresh (rtc_refl _ _))) _).
Defined.
