(* ===== verification/Tests.v ===== *)
(** * Tests: the manual test script [src/test_tourism_implementation.py]

    The script builds ten intents by hand, asks the response generator for
    the reply to each, and prints the description, the intent and the reply;
    it asserts nothing.  It imports [ResponseGenerator] and [QueryIntent]
    from modules that are not in the repository: the generator is a
    parameter of the model ([generate], a call that returns or raises), and
    the classes of [src/streamlit_standalone.py] are the instance the
    theorems use.  Standard output is the list of the texts printed, as in
    [Cli]; a raised exception ends the script after what has been printed.
    [expected_replies] gives, for each case, the row of the decision table
    of [Replies] that answers it. *)

From S2P Require Import Prelude PyString PyDict Context QueryProcessor ResponseGenerator.
From S2P Require Import Replies LocalGuide Cli.

Set Warnings "-clear-no-such-hyp".

(** ** Data of the script *)

(** The sample context. *)
Definition test_context : Context := {|
  language := Some {|
    greetings := Some ["Khamma Ghani"; "Ram Ram sa"; "Padharo Mhare Des"; "Bhai sa"];
    phrases := Some [
      ("Khamma Ghani", "Traditional greeting meaning hello/respect");
      ("Ram Ram sa", "Casual greeting");
      ("Padharo Mhare Des", "Welcome to our land");
      ("Bhai sa", "Respectful way to address someone")]
  |};
  food := Some {|
    dishes := Some ["Dal Baati Churma"; "Kachori"; "Mirchi Vada"; "Ghewar"];
    areas := Some ["Surajpole"; "Hathipole"; "Chetak Circle"; "Old City markets"]
  |};
  tourism := Some {|
    peak_times := Some [("City Palace", "4 PM - 9 PM"); ("Lake Pichola", "4 PM - 9 PM")];
    transportation := Some [
      ("heritage_areas", "Two-wheelers are the fastest mode inside heritage areas")];
    peak_season := Some "October to March"
  |};
  culture := Some {|
    etiquette := Some [
      "Modest clothing near temples and palaces";
      "Respect local customs and greetings"]
  |};
  overview := Some {|
    description := Some "Udaipur, known as the City of Lakes";
    key_areas := Some ["Lake Pichola"; "City Palace"; "Fateh Sagar"; "Sajjangarh"]
  |}
|}.

(** An entry of [test_cases]. *)
Record test_case : Type := {
  description : string;
  intent : QueryIntent;
}.

Definition test_cases : list test_case := [
  {| description := "Crowd estimation - general";
     intent := {| category := "tourism"; keywords := ["crowd"; "busy"];
                  location := None; time_context := None |} |};
  {| description := "Crowd estimation - City Palace";
     intent := {| category := "tourism"; keywords := ["crowd"; "congestion"];
                  location := Some "City Palace"; time_context := None |} |};
  {| description := "Crowd estimation - Lake Pichola";
     intent := {| category := "tourism"; keywords := ["tourist"; "crowded"];
                  location := Some "Lake Pichola"; time_context := None |} |};
  {| description := "Transportation - heritage areas";
     intent := {| category := "tourism"; keywords := ["transportation"; "heritage"];
                  location := None; time_context := None |} |};
  {| description := "Transportation - City Palace";
     intent := {| category := "tourism"; keywords := ["transport"; "vehicle"];
                  location := Some "City Palace"; time_context := None |} |};
  {| description := "Transportation - traffic";
     intent := {| category := "tourism"; keywords := ["traffic"; "bike"; "car"];
                  location := None; time_context := None |} |};
  {| description := "Timing - best visit time";
     intent := {| category := "tourism"; keywords := ["timing"; "best"; "visit"];
                  location := None; time_context := None |} |};
  {| description := "Timing - City Palace optimal";
     intent := {| category := "tourism"; keywords := ["when"; "optimal"; "avoid"];
                  location := Some "City Palace"; time_context := None |} |};
  {| description := "Seasonal - peak season";
     intent := {| category := "tourism"; keywords := ["season"; "peak"; "october"];
                  location := None; time_context := None |} |};
  {| description := "Seasonal - weather timing";
     intent := {| category := "tourism"; keywords := ["seasonal"; "march"; "weather"];
                  location := None; time_context := None |} |}
].

(** ** The script *)

(** [repr] of a [QueryIntent], as the dataclass defines it. *)
Definition repr_intent (intent : QueryIntent) : string :=
  "QueryIntent(category=" +:+ repr_str (category intent)
  +:+ ", keywords=" +:+ repr_list (keywords intent)
  +:+ ", location=" +:+ repr_option (location intent)
  +:+ ", time_context=" +:+ repr_option (time_context intent) +:+ ")".

(** One pass through the loop: the texts printed, and whether the call of
    the generator raised. *)
Definition test_pass (generate : QueryIntent → Context → result string)
    (context : Context) (i : nat) (test_case : test_case) : list string * result unit :=
  let printed := [
    print (nl +:+ str_of_nat i +:+ ". " +:+ description test_case);
    print ("   Intent: " +:+ repr_intent (intent test_case))] in
  match generate (intent test_case) context with
  | Raise e => (printed, Raise e)
  | Return response =>
      (printed ++ [print ("   Response: " +:+ response); print (str_mul "-" 50)], Return ())
  end.

(** The loop over the enumerated cases: it stops at the first exception. *)
Fixpoint test_loop (generate : QueryIntent → Context → result string)
    (context : Context) (cases : list (nat * test_case)) : list string * result unit :=
  match cases with
  | [] => ([], Return ())
  | (i, test_case) :: rest =>
      match test_pass generate context i test_case with
      | (printed, Raise e) => (printed, Raise e)
      | (printed, Return _) =>
          let '(more, r) := test_loop generate context rest in (printed ++ more, r)
      end
  end.

(** [test_tourism_responses()]. *)
Definition test_tourism_responses (generate : QueryIntent → Context → result string)
    : list string * result unit :=
  let '(printed, r) := test_loop generate test_context (enumerate_from 1 test_cases) in
  ([print "Testing Tourism and Traffic Response Implementation";
    print (str_mul "=" 60)] ++ printed, r).

(** ** Specification *)

(** What a pass prints when the reply to the case is [response]. *)
Definition report (case : nat * test_case) (response : string) : list string :=
  [print (nl +:+ str_of_nat case.1 +:+ ". " +:+ description case.2);
   print ("   Intent: " +:+ repr_intent (intent case.2));
   print ("   Response: " +:+ response);
   print (str_mul "-" 50)].

(** The replies [responses] are those of [generate] to [cases]. *)
Definition replies (generate : QueryIntent → Context → result string)
    (context : Context) (cases : list (nat * test_case)) (responses : list string) : Prop :=
  Forall2 (λ case response, generate (intent case.2) context = Return response)
    cases responses.

(** The rows of the decision table that answer the ten cases, in the
    order of [test_cases]. *)
Definition expected_replies : list reply := [
  TourismGeneric;
  CrowdAt "City Palace" "4 PM - 9 PM";
  CrowdAt "Lake Pichola" "4 PM - 9 PM";
  TransportNote "Two-wheelers are the fastest mode inside heritage areas";
  CrowdAt "City Palace" "4 PM - 9 PM";
  TransportNote "Two-wheelers are the fastest mode inside heritage areas";
  TourismGeneric;
  CrowdAt "City Palace" "4 PM - 9 PM";
  SeasonNote "October to March";
  SeasonNote "October to March"
].

(** * Laws *)

(** The sample context is the default context of the guide. *)
Lemma test_context_default : test_context = _get_default_context ContextLoader_init.
Proof. reflexivity. Qed.

Section loop.
Context (generate : QueryIntent → Context → result string) (context : Context).

Lemma test_pass_returns i test_case response :
  generate (intent test_case) context = Return response →
  test_pass generate context i test_case = (report (i, test_case) response, Return ()).
Proof. intros H. unfold test_pass. by rewrite H. Qed.

Lemma test_pass_raises i test_case e :
  generate (intent test_case) context = Raise e →
  test_pass generate context i test_case
  = (take 2 (report (i, test_case) EmptyString), Raise e).
Proof. intros H. unfold test_pass. by rewrite H. Qed.

(** When every call returns, the loop prints the report of every case. *)
Lemma test_loop_returns cases responses :
  replies generate context cases responses →
  test_loop generate context cases = (concat (zip_with report cases responses), Return ()).
Proof.
  induction 1 as [|[i test_case] response cases responses H _ IH]; [done|].
  cbn [test_loop zip_with concat]. by rewrite (test_pass_returns _ _ _ H), IH.
Qed.

(** The first call that raises ends the loop, after the description and
    the intent of its case. *)
Lemma test_loop_raises before responses i test_case e after :
  replies generate context before responses →
  generate (intent test_case) context = Raise e →
  test_loop generate context (before ++ (i, test_case) :: after)
  = (concat (zip_with report before responses)
       ++ take 2 (report (i, test_case) EmptyString), Raise e).
Proof.
  intros Hbefore He.
  induction Hbefore as [|[j c] response before responses H _ IH]; cbn [app test_loop].
  - by rewrite (test_pass_raises _ _ _ He).
  - rewrite (test_pass_returns _ _ _ H), IH. cbn [zip_with concat]. by rewrite <-app_assoc.
Qed.

Lemma report_length cases responses :
  length cases = length responses →
  length (concat (zip_with report cases responses)) = 4 * length cases.
Proof.
  revert responses. induction cases as [|case cases IH]; intros [|r rs] Hlen; try done.
  cbn [zip_with concat]. rewrite length_app, IH by (simpl in Hlen; lia). simpl. lia.
Qed.

End loop.

(** The generator of [src/streamlit_standalone.py] has a reply to every
    intent. *)
Lemma replies_generate_response context cases :
  ∃ responses, replies generate_response context cases responses ∧
               Forall ends_ok responses.
Proof.
  induction cases as [|[i test_case] cases (responses & IH & Hends)].
  { exists []. split; constructor. }
  destruct (generate_response_returns (intent test_case) context) as (r & Hr & Hr').
  exists (r :: responses). split; by constructor.
Qed.

(** ** The run of the script *)

Section run.
Context (generate : QueryIntent → Context → result string).

(** When the generator returns for every case the script prints the
    heading, the rule and the report of every case. *)
Lemma test_tourism_responses_returns responses :
  replies generate test_context (enumerate_from 1 test_cases) responses →
  test_tourism_responses generate
  = ([print "Testing Tourism and Traffic Response Implementation"; print (str_mul "=" 60)]
       ++ concat (zip_with report (enumerate_from 1 test_cases) responses), Return ()) ∧
  length (test_tourism_responses generate).1 = 42.
Proof.
  intros Hrs. unfold test_tourism_responses.
  rewrite (test_loop_returns _ _ _ _ Hrs). split; [done|].
  cbn [fst]. rewrite length_app, report_length by by eapply Forall2_length.
  by rewrite enumerate_from_length.
Qed.

(** The first case for which the generator raises ends the script: the
    reports of the cases before it have been printed, then its description
    and its intent. *)
Lemma test_tourism_responses_stops before i test_case after responses e :
  enumerate_from 1 test_cases = before ++ (i, test_case) :: after →
  replies generate test_context before responses →
  generate (intent test_case) test_context = Raise e →
  i = S (length before) ∧
  test_cases !! length before = Some test_case ∧
  test_tourism_responses generate
  = ([print "Testing Tourism and Traffic Response Implementation"; print (str_mul "=" 60)]
       ++ concat (zip_with report before responses)
       ++ take 2 (report (i, test_case) EmptyString), Raise e) ∧
  length (test_tourism_responses generate).1 = 4 * i.
Proof.
  intros Hcases Hbefore He.
  pose proof (list_lookup_middle before after (i, test_case) _ eq_refl) as Hi.
  rewrite <-Hcases, enumerate_from_lookup in Hi.
  apply fmap_Some in Hi as (c & Hc & [= -> ->]).
  unfold test_tourism_responses.
  rewrite Hcases, (test_loop_raises _ _ _ _ _ _ _ after Hbefore He).
  split_and!; [done..|]. cbn [fst].
  rewrite !length_app, report_length by by eapply Forall2_length. simpl. lia.
Qed.

End run.

(** Claim C38. The run of the test script, whatever the generator does: when
    it returns for each of the ten cases the script prints the heading, a
    rule and, for every case numbered from 1, the description, the intent,
    the reply and a rule, 42 texts in all, and ends normally; when it
    raises, the script ends with that exception at the first such case,
    case number [i], having printed the reports of the cases before it and
    the description and the intent of that case, [4 * i] texts, and no
    later case is tried. *)
Theorem test_tourism_responses_spec generate :
  (∀ responses,
     replies generate test_context (enumerate_from 1 test_cases) responses →
     test_tourism_responses generate
     = ([print "Testing Tourism and Traffic Response Implementation"; print (str_mul "=" 60)]
          ++ concat (zip_with report (enumerate_from 1 test_cases) responses), Return ()) ∧
     length (test_tourism_responses generate).1 = 42) ∧
  (∀ before i test_case after responses e,
     enumerate_from 1 test_cases = before ++ (i, test_case) :: after →
     replies generate test_context before responses →
     generate (intent test_case) test_context = Raise e →
     i = S (length before) ∧
     test_cases !! length before = Some test_case ∧
     test_tourism_responses generate
     = ([print "Testing Tourism and Traffic Response Implementation"; print (str_mul "=" 60)]
          ++ concat (zip_with report before responses)
          ++ take 2 (report (i, test_case) EmptyString), Raise e) ∧
     length (test_tourism_responses generate).1 = 4 * i).
Proof.
  split; [apply test_tourism_responses_returns | apply test_tourism_responses_stops].
Qed.

(** With the generator of [src/streamlit_standalone.py] the script
    prints, for each case, the text of its row of the decision table. *)
Lemma test_tourism_responses_spec_witness :
  test_tourism_responses generate_response
  = ([print "Testing Tourism and Traffic Response Implementation"; print (str_mul "=" 60)]
       ++ concat (zip_with report (enumerate_from 1 test_cases)
                    (render <$> expected_replies)), Return ()) ∧
  length (test_tourism_responses generate_response).1 = 42.
Proof.
  apply (proj1 (test_tourism_responses_spec generate_response)).
  unfold replies. repeat constructor; by_compute.
Defined.

(** With the generator of [src/streamlit_standalone.py] the script runs to
    its end, and every reply it prints is not empty and has no white space
    at its ends. *)
Theorem test_tourism_responses_completes :
  ∃ responses,
    replies generate_response test_context (enumerate_from 1 test_cases) responses ∧
    Forall ends_ok responses ∧
    (test_tourism_responses generate_response).2 = Return () ∧
    length (test_tourism_responses generate_response).1 = 42.
Proof.
  destruct (replies_generate_response test_context (enumerate_from 1 test_cases))
    as (responses & Hrs & Hends).
  exists responses.
  destruct (test_tourism_responses_returns generate_response responses Hrs) as [-> ?].
  by split_and!.
Qed.

(** A generator that raises on the first case ends the script after four
    texts. *)
Theorem test_tourism_responses_raises generate e :
  (∀ intent, generate intent test_context = Raise e) →
  (test_tourism_responses generate).2 = Raise e ∧
  length (test_tourism_responses generate).1 = 4.
Proof.
  intros H.
  destruct (enumerate_from 1 test_cases) as [|[i c] rest] eqn:E; [done|].
  destruct (test_tourism_responses_stops generate [] i c rest [] e E) as (-> & _ & -> & ?);
    [constructor | apply H | done].
Qed.

Lemma test_tourism_responses_raises_witness :
  (test_tourism_responses (λ _ _, Raise (Exception "down"))).2 = Raise (Exception "down") ∧
  length (test_tourism_responses (λ _ _, Raise (Exception "down"))).1 = 4.
Proof. by apply (test_tourism_responses_raises (λ _ _, Raise (Exception "down"))). Defined.

(** The three cases that name City Palace get the same reply, the crowd
    sentence of the place, although one is filed under transportation and
    one under timing: the place is looked at before the keywords. *)
Theorem test_city_palace_cases test_case :
  test_case ∈ test_cases → location (intent test_case) = Some "City Palace" →
  generate_response (intent test_case) test_context = Return "At City Palace, expect heavy crowds during 4 PM - 9 PM. For a more peaceful experience, visit between 7-10 am for fewer crowds and better lighting for photography, or after 8 pm for evening ambiance.".
Proof.
  intros Hin Hloc. unfold test_cases in Hin.
  repeat (apply elem_of_cons in Hin as [->|Hin]); try done; by apply elem_of_nil in Hin.
Qed.

Lemma test_city_palace_cases_witness :
  ∃ test_case, test_cases !! 4 = Some test_case ∧
    description test_case = "Transportation - City Palace" ∧
    generate_response (intent test_case) test_context = Return "At City Palace, expect heavy crowds during 4 PM - 9 PM. For a more peaceful experience, visit between 7-10 am for fewer crowds and better lighting for photography, or after 8 pm for evening ambiance.".
Proof.
  eexists. split; [reflexivity|]. split; [reflexivity|].
  apply test_city_palace_cases; [|reflexivity]. cbn. set_solver.
Defined.

(** What the script shows of the composer: the replies to the ten cases
    are the texts of [expected_replies].  The cases filed under crowd
    estimation get the generic sentence and the crowd sentences; of the
    three filed under transportation one gets the crowd sentence of its
    place; of the two filed under timing one gets the generic sentence and
    one the crowd sentence; the two filed under season get the season
    sentence. *)
Theorem test_cases_replies :
  Forall2 (λ test_case r,
             generate_response (intent test_case) test_context = Return (render r))
    test_cases expected_replies.
Proof. repeat constructor; by_compute. Qed.
