(* ===== verification/Program.v ===== *)
(** * Program: the files of [src/] as programs

    What happens before the functions of a file run: its [import]
    statements, and the test [__name__ == "__main__"] at its end.  An
    import succeeds when the module can be found; which modules can be
    found depends on the installation and on the directories of
    [sys.path], so the set of importable names is a parameter ([modules]).
    A module that is found is taken to define the names imported from it:
    the classes that [src/app.py] and the test script import are
    parameters of [LocalGuide] and [Tests] already.  The lemmas say when a
    file reaches its entry point; nothing is claimed about which modules
    an installation holds. *)

From stdpp Require Import gmap.
From S2P Require Import Prelude PyString PyDict Context QueryProcessor ResponseGenerator.
From S2P Require Import LocalGuide Cli Chat Tests.

Set Warnings "-clear-no-such-hyp".

(** ** Importing *)

(** The names that [import] can resolve. *)
Definition modules : Type := gset string.

(** The names imported for a dotted name given by its parts: the packages
    from the outermost, then the module. *)
Fixpoint dotted_names (prefix : string) (parts : list string) : list string :=
  match parts with
  | [] => []
  | part :: parts' =>
      (prefix +:+ part) :: dotted_names (prefix +:+ part +:+ ".") parts'
  end.

(** Importing names in turn: the first that cannot be found raises. *)
Fixpoint import_names (env : modules) (names : list string) : result unit :=
  match names with
  | [] => Return ()
  | name :: names' =>
      if decide (name ∈ env) then import_names env names'
      else Raise (ModuleNotFoundError name)
  end.

(** The [import] statements at the head of a file, each given by the
    parts of the module name. *)
Definition import_statements (env : modules) (statements : list (list string))
    : result unit :=
  import_names env (statements ≫= dotted_names "").

(** ** The three programs *)

Definition app_imports : list (list string) :=
  [["src"; "context_loader"]; ["src"; "query_processor"]; ["src"; "response_generator"]].

Definition test_imports : list (list string) :=
  [["src"; "response_generator"]; ["src"; "query_processor"]].

Definition standalone_imports : list (list string) :=
  [["streamlit"]; ["os"]; ["re"]; ["dataclasses"]; ["typing"]; ["time"]].

(** [src/app.py] run with [__name__] bound to [name]: the console that
    [main] leaves when the file is run as the main program, nothing when it
    is imported, an exception when an import fails. *)
Definition app_program `{App.Components} (env : modules) (name : string)
    (ins : list input_result) : result (option console) :=
  _ ← import_statements env app_imports;
  if bool_decide (name = "__main__") then Return (Some (main app_guide ins))
  else Return None.

(** [src/test_tourism_implementation.py]: the texts printed and how the
    run ends. *)
Definition test_program (env : modules) (name : string)
    (generate : QueryIntent → Context → result string) : list string * result unit :=
  match import_statements env test_imports with
  | Raise e => ([], Raise e)
  | Return _ =>
      if bool_decide (name = "__main__") then test_tourism_responses generate
      else ([], Return ())
  end.

(** A run of [src/streamlit_standalone.py]: its imports, then the
    script. *)
Definition page_program (env : modules) (guide : string → result string)
    (ev : interaction) (s : stored) : result (stored * outcome) :=
  _ ← import_statements env standalone_imports;
  Return (script guide ev s).

(** * Laws *)

(** Imports succeed exactly when every name can be found, and the first
    name that cannot be found is reported otherwise. *)
Lemma import_names_Return env names :
  import_names env names = Return () ↔ Forall (λ name, name ∈ env) names.
Proof.
  induction names as [|name names IH]; simpl; [by split|].
  rewrite Forall_cons, <-IH. case_decide; naive_solver.
Qed.

Lemma import_names_Raise env names e :
  import_names env names = Raise e ↔
  ∃ found name rest, names = found ++ name :: rest ∧
    Forall (λ name, name ∈ env) found ∧ (name ∉ env) ∧ e = ModuleNotFoundError name.
Proof.
  induction names as [|n names IH]; simpl.
  - split; [done|]. intros (found & ? & ? & H & _). by destruct found.
  - case_decide as Hn.
    + rewrite IH. split.
      * intros (found & name & rest & -> & ? & ? & ->).
        exists (n :: found), name, rest. split_and!; [done| |done..]. by constructor.
      * intros ([|m found] & name & rest & [= -> ->] & Hf & Hname & ->); [done|].
        apply Forall_cons in Hf as [_ Hf]. by exists found, name, rest.
    + split.
      * intros [= <-]. by exists [], n, names.
      * intros ([|m found] & name & rest & [= -> ->] & Hf & Hname & ->); [done|].
        by apply Forall_cons in Hf as [? _].
Qed.

(** With every module found, a file runs its entry point when it is the
    main program and does nothing when it is imported. *)
Lemma app_program_found `{App.Components} env name ins :
  Forall (λ name, name ∈ env) (app_imports ≫= dotted_names "") →
  app_program env name ins
  = Return (if bool_decide (name = "__main__") then Some (main app_guide ins) else None).
Proof.
  intros Hfound%import_names_Return. unfold app_program, import_statements.
  rewrite Hfound. simpl. by case_bool_decide.
Qed.

Lemma test_program_found env name generate :
  Forall (λ name, name ∈ env) (test_imports ≫= dotted_names "") →
  test_program env name generate
  = if bool_decide (name = "__main__") then test_tourism_responses generate
    else ([], Return ()).
Proof.
  intros Hfound%import_names_Return. unfold test_program, import_statements.
  by rewrite Hfound.
Qed.

Lemma page_program_found env guide ev s :
  Forall (λ name, name ∈ env) (standalone_imports ≫= dotted_names "") →
  page_program env guide ev s = Return (script guide ev s).
Proof.
  intros Hfound%import_names_Return. unfold page_program, import_statements.
  by rewrite Hfound.
Qed.

(** A file whose imports fail runs nothing of its own: the exception of
    the import is the outcome, and nothing has been printed. *)
Lemma app_program_missing `{App.Components} env name ins e :
  import_statements env app_imports = Raise e → app_program env name ins = Raise e.
Proof. intros Himport. unfold app_program. by rewrite Himport. Qed.

Lemma test_program_missing env name generate e :
  import_statements env test_imports = Raise e →
  test_program env name generate = ([], Raise e).
Proof. intros Himport. unfold test_program. by rewrite Himport. Qed.
